(** * The translation-server lifecycle manager of biblib-cli

    A shallow embedding of [src/server-manager.ts]: the health probe
    [pingTranslationServer], the process record helpers [readPidFile] and
    [removePidFileIfExists], the liveness check [isProcessRunning] and the
    four operations of [NodeTranslationServerManager]
    ([status], [start], [stop], [ensureRunning]).

    The asynchronous code is written in a state-and-exception monad over a
    [World] (file system, clock, effect log).  Everything the operating
    system, the network and the URL and path libraries decide is read from
    a [Platform] record, so every theorem holds for all such behaviours. *)

From Stdlib Require Import ZArith String Ascii List Bool Lia.
From stdpp Require Import base option gmap strings pretty.

Local Open Scope string_scope.
Local Open Scope Z_scope.

(** ** JavaScript built-ins used by the manager *)

Module JS.

(** A JavaScript string is a sequence of code units; the model covers the
    code units below 256, one [ascii] each. *)

(** WhiteSpace and LineTerminator code units below 256: TAB, LF, VT, FF,
    CR, SP and NBSP. *)
Definition is_white_space (c : ascii) : bool :=
  let n := Z.of_N (N_of_ascii c) in
  ((9 <=? n) && (n <=? 13)) || (n =? 32) || (n =? 160).

Fixpoint trim_start (s : string) : string :=
  match s with
  | String c s' => if is_white_space c then trim_start s' else s
  | EmptyString => EmptyString
  end.

Fixpoint trim_end (s : string) : string :=
  match s with
  | String c s' =>
      let t := trim_end s' in
      if is_white_space c && String.eqb t "" then "" else String c t
  | EmptyString => EmptyString
  end.

(** [String.prototype.trim] *)
Definition trim (s : string) : string := trim_end (trim_start s).

(** The Number type: NaN, the infinities, and the finite doubles
    [(-1)^neg * m * 2^e] with [0 <= m]. *)
Inductive number :=
| NaN
| Inf (neg : bool)
| Fin (neg : bool) (m e : Z).

(** Round the non-negative rational [n / d] ([0 <= n], [0 < d]) to the
    nearest binary64 value, ties to even; values from [2^1024 - 2^970] on
    become infinite. *)
Definition round_to_double (neg : bool) (n d : Z) : number :=
  if n =? 0 then Fin neg 0 0
  else
    let k0 := Z.log2 n - Z.log2 d in
    let below :=
      if 0 <=? k0 then n <? d * 2 ^ k0 else n * 2 ^ (- k0) <? d in
    let k := if below then k0 - 1 else k0 in
    let ex := Z.max (k - 52) (-1074) in
    let num := if 0 <=? ex then n else n * 2 ^ (- ex) in
    let den := if 0 <=? ex then d * 2 ^ ex else d in
    let q := num / den in
    let r := num mod den in
    let q' :=
      if 2 * r <? den then q
      else if den <? 2 * r then q + 1
      else if Z.even q then q else q + 1 in
    if (971 <? ex) || ((ex =? 971) && (2 ^ 53 <=? q')) then Inf neg
    else Fin neg q' ex.

(** The value [m * 10^e] as a double. *)
Definition decimal_to_double (neg : bool) (m e : Z) : number :=
  if 0 <=? e then round_to_double neg (m * 10 ^ e) 1
  else round_to_double neg m (10 ^ (- e)).

Definition digit_value (base : Z) (c : ascii) : option Z :=
  let n := Z.of_N (N_of_ascii c) in
  let v :=
    if (48 <=? n) && (n <=? 57) then n - 48
    else if (97 <=? n) && (n <=? 122) then n - 87
    else if (65 <=? n) && (n <=? 90) then n - 55
    else 36 in
  if v <? base then Some v else None.

(** The longest prefix of digits of the given base: its value on top of
    [acc], the number of digits added to [cnt], and the rest. *)
Fixpoint scan_digits (base acc cnt : Z) (s : string) : Z * Z * string :=
  match s with
  | String c s' =>
      match digit_value base c with
      | Some v => scan_digits base (base * acc + v) (cnt + 1) s'
      | None => (acc, cnt, s)
      end
  | EmptyString => (acc, cnt, s)
  end.

(** [s] without its first character, when that is [c]. *)
Definition after_char (c : ascii) (s : string) : option string :=
  match s with
  | String c' r => if Ascii.eqb c' c then Some r else None
  | EmptyString => None
  end.

(** An optional sign: whether it is a minus, and the rest. *)
Definition parse_sign (s : string) : bool * string :=
  match after_char "+" s with
  | Some r => (false, r)
  | None =>
      match after_char "-" s with
      | Some r => (true, r)
      | None => (false, s)
      end
  end.

(** ExponentPart, or nothing: the power of ten to add. *)
Definition parse_exponent (s : string) : option Z :=
  match s with
  | EmptyString => Some 0
  | String c s1 =>
      if Ascii.eqb c "e" || Ascii.eqb c "E" then
        let '(neg, s2) := parse_sign s1 in
        match scan_digits 10 0 0 s2 with
        | (v, n, EmptyString) =>
            if 0 <? n then Some (if neg then - v else v) else None
        | _ => None
        end
      else None
  end.

(** StrUnsignedDecimalLiteral *)
Definition parse_unsigned_decimal (neg : bool) (s : string) : number :=
  if String.eqb s "Infinity" then Inf neg
  else
    let '(ip, n1, r1) := scan_digits 10 0 0 s in
    let '(m, n2, r2) :=
      match after_char "." r1 with
      | Some r => scan_digits 10 ip 0 r
      | None => (ip, 0, r1)
      end in
    if 0 <? n1 + n2 then
      match parse_exponent r2 with
      | Some x => decimal_to_double neg m (x - n2)
      | None => NaN
      end
    else NaN.

(** The base and the digits of a NonDecimalIntegerLiteral: after [0x],
    [0o] or [0b], in either case. *)
Definition radix_prefix (s : string) : option (Z * string) :=
  match after_char "0" s with
  | Some (String c r) =>
      if Ascii.eqb c "x" || Ascii.eqb c "X" then Some (16, r)
      else if Ascii.eqb c "o" || Ascii.eqb c "O" then Some (8, r)
      else if Ascii.eqb c "b" || Ascii.eqb c "B" then Some (2, r)
      else None
  | _ => None
  end.

Definition parse_radix (base : Z) (s : string) : number :=
  match scan_digits base 0 0 s with
  | (v, n, EmptyString) => if 0 <? n then round_to_double false v 1 else NaN
  | _ => NaN
  end.

(** [Number(s)] on a string: StringToNumber.  Only a decimal literal may
    carry a sign. *)
Definition Number (s : string) : number :=
  let t := trim s in
  if String.eqb t "" then Fin false 0 0
  else
    match radix_prefix t with
    | Some (base, digits) => parse_radix base digits
    | None =>
        let '(neg, r) := parse_sign t in
        parse_unsigned_decimal neg r
    end.

(** [Number.isInteger] *)
Definition isInteger (x : number) : bool :=
  match x with
  | Fin _ m e => if 0 <=? e then true else m mod 2 ^ (- e) =? 0
  | _ => false
  end.

(** [x <= 0] *)
Definition le_zero (x : number) : bool :=
  match x with
  | NaN => false
  | Inf neg => neg
  | Fin neg m _ => neg || (m =? 0)
  end.

(** The mathematical value of an integral number. *)
Definition to_Z (x : number) : Z :=
  match x with
  | Fin neg m e =>
      let v := if 0 <=? e then m * 2 ^ e else m / 2 ^ (- e) in
      if neg then - v else v
  | _ => 0
  end.

(** [Number::toString] of an integer below [10^21] in magnitude: its
    decimal digits. *)
Definition toString (z : Z) : string := pretty z.

(** [s.replace(/\/+$/, '/')]: a trailing run of slashes becomes one. *)
Fixpoint drop_trailing_slashes (s : string) : string :=
  match s with
  | String c s' =>
      let t := drop_trailing_slashes s' in
      if Ascii.eqb c "/" && String.eqb t "" then "" else String c t
  | EmptyString => EmptyString
  end.

Definition replace_trailing_slashes (s : string) : string :=
  let t := drop_trailing_slashes s in
  if String.eqb t s then s else t ++ "/".

End JS.

(** ** The world the manager runs in *)

(** Errors that can be thrown: Node system errors carry a [code]. *)
Inductive Error :=
| SystemError (code : string) (path : string)
| JsError (message : string)
| TypeError (message : string)
| AbortError.

(** [error?.code === code] *)
Definition has_code (e : Error) (code : string) : bool :=
  match e with
  | SystemError c _ => String.eqb c code
  | _ => false
  end.

Inductive Outcome (A : Type) :=
| Return (a : A)
| Throw (e : Error)
| OutOfFuel.
Arguments Return {A} a.
Arguments Throw {A} e.
Arguments OutOfFuel {A}.

Inductive Node := File (content : string) | Dir.

Inductive Signal := Sig0 | SIGTERM | SIGKILL.

(** Calls that reach outside the program, as they are issued. *)
Inductive Event :=
| EFetch (url : string) (timeoutMs : Z)
| EKill (pid : Z) (sig : Signal)
| EUnlink (path : string)
| EMkdir (path : string)
| EOpenAppend (path : string)
| ESpawn (command : string) (args : list string) (cwd : string) (out : string)
| EWriteFile (path : string) (content : string)
| ESleep (ms : Z).

(** What a GET request meets: a response with a status code, a network or
    transport failure, each after [latency] milliseconds, or silence. *)
Inductive FetchOutcome :=
| Response (status : Z) (latency : Z)
| Failure (latency : Z)
| NoAnswer.

(** Everything decided outside the program.  The functions of the
    operating system and the network take the number of interactions made
    so far, so that two successive calls may be answered differently. *)
Record Platform := {
  (** [new URL(s).hostname]; [None] when the constructor throws *)
  url_hostname : string -> option string;
  (** [path.resolve], [path.join], [path.dirname] *)
  path_resolve : string -> string;
  path_join : list string -> string;
  path_dirname : string -> string;
  (** whether [process.kill(pid, sig)] succeeds *)
  proc_alive : nat -> Z -> bool;
  (** what [fetch] meets *)
  http_get : nat -> string -> FetchOutcome;
  (** [child.pid] after [spawn]; [None] is [undefined] *)
  spawn_pid : nat -> option Z;
  (** how late a timer fires *)
  timer_lag : nat -> Z
}.

Record World := {
  fs : gmap string Node;
  now : Z;
  tick : nat;
  log : list Event
}.

(** One more interaction: [dt] milliseconds pass and [ev] is logged. *)
Definition advance (dt : Z) (ev : Event) (w : World) : World :=
  {| fs := fs w; now := now w + dt; tick := S (tick w); log := ev :: log w |}.

Definition set_fs (f : gmap string Node) (ev : Event) (w : World) : World :=
  {| fs := f; now := now w; tick := tick w; log := ev :: log w |}.

(** ** The monad of asynchronous code: state and exceptions *)

Definition M (A : Type) : Type := World -> Outcome A * World.

Definition ret {A} (a : A) : M A := fun w => (Return a, w).

Definition throw {A} (e : Error) : M A := fun w => (Throw e, w).

Definition bind {A B} (m : M A) (k : A -> M B) : M B :=
  fun w =>
    match m w with
    | (Return a, w') => k a w'
    | (Throw e, w') => (Throw e, w')
    | (OutOfFuel, w') => (OutOfFuel, w')
    end.

(** [try { m } catch (error) { h error }] *)
Definition try_catch {A} (m : M A) (h : Error -> M A) : M A :=
  fun w =>
    match m w with
    | (Throw e, w') => h e w'
    | r => r
    end.

Notation "x <- c1 ;; c2" := (bind c1 (fun x => c2))
  (at level 20, c1 at level 99, c2 at level 200, only parsing).
Notation "c1 ;; c2" := (bind c1 (fun _ => c2))
  (at level 100, c2 at level 200, only parsing, right associativity).

Definition lf : string := String (ascii_of_nat 10) EmptyString.

(** ** Node primitives *)

Section Primitives.
Variable P : Platform.

(** [Date.now()] *)
Definition Date_now : M Z := fun w => (Return (now w), w).

(** The delay [setTimeout] really uses: outside [1 .. 2^31 - 1] it is 1. *)
Definition timer_delay (ms : Z) : Z :=
  if (ms <? 1) || (2147483647 <? ms) then 1 else ms.

(** [sleep(ms)]: a timer of [ms] milliseconds, awaited. *)
Definition sleep (ms : Z) : M unit := fun w =>
  (Return tt, advance (timer_delay ms + Z.max 0 (timer_lag P (tick w))) (ESleep ms) w).

(** [fetch(url, { method: 'GET', signal })] under a timer that aborts the
    request after [timeoutMs]: the response status, or the rejection. *)
Definition fetch_with_abort (url : string) (timeoutMs : Z) : M Z := fun w =>
  let delay := timer_delay timeoutMs in
  let ev := EFetch url timeoutMs in
  match http_get P (tick w) url with
  | Response status latency =>
      if latency <? delay then (Return status, advance (Z.max 0 latency) ev w)
      else (Throw AbortError, advance delay ev w)
  | Failure latency =>
      if latency <? delay
      then (Throw (TypeError "fetch failed"), advance (Z.max 0 latency) ev w)
      else (Throw AbortError, advance delay ev w)
  | NoAnswer => (Throw AbortError, advance delay ev w)
  end.

(** [process.kill(pid, sig)] *)
Definition process_kill (pid : Z) (sig : Signal) : M unit := fun w =>
  let w' := advance 0 (EKill pid sig) w in
  if proc_alive P (tick w) pid then (Return tt, w')
  else (Throw (SystemError "ESRCH" ""), w').

(** [fsp.readFile(path, 'utf8')] *)
Definition readFile (path : string) : M string := fun w =>
  match fs w !! path with
  | Some (File content) => (Return content, w)
  | Some Dir => (Throw (SystemError "EISDIR" path), w)
  | None => (Throw (SystemError "ENOENT" path), w)
  end.

(** [fsp.unlink(path)] *)
Definition unlink (path : string) : M unit := fun w =>
  match fs w !! path with
  | Some (File _) => (Return tt, set_fs (delete path (fs w)) (EUnlink path) w)
  | Some Dir => (Throw (SystemError "EISDIR" path), w)
  | None => (Throw (SystemError "ENOENT" path), w)
  end.

(** [fsp.access(path)] *)
Definition access (path : string) : M unit := fun w =>
  match fs w !! path with
  | Some _ => (Return tt, w)
  | None => (Throw (SystemError "ENOENT" path), w)
  end.

(** [fsp.mkdir(path, { recursive: true })]; only the named directory is
    tracked, not its ancestors. *)
Definition mkdir (path : string) : M unit := fun w =>
  match fs w !! path with
  | Some (File _) => (Throw (SystemError "EEXIST" path), w)
  | Some Dir => (Return tt, set_fs (fs w) (EMkdir path) w)
  | None => (Return tt, set_fs (<[path := Dir]> (fs w)) (EMkdir path) w)
  end.

(** A file can be created in a directory that exists. *)
Definition parent_exists (path : string) (w : World) : bool :=
  match fs w !! path_dirname P path with
  | Some Dir => true
  | _ => false
  end.

(** [fs.openSync(path, 'a')]: the descriptor is named by its path. *)
Definition openSync (path : string) : M string := fun w =>
  match fs w !! path with
  | Some (File _) => (Return path, set_fs (fs w) (EOpenAppend path) w)
  | Some Dir => (Throw (SystemError "EISDIR" path), w)
  | None =>
      if parent_exists path w
      then (Return path, set_fs (<[path := File ""]> (fs w)) (EOpenAppend path) w)
      else (Throw (SystemError "ENOENT" path), w)
  end.

(** [fsp.writeFile(path, content, 'utf8')] *)
Definition writeFile (path content : string) : M unit := fun w =>
  match fs w !! path with
  | Some Dir => (Throw (SystemError "EISDIR" path), w)
  | Some (File _) =>
      (Return tt, set_fs (<[path := File content]> (fs w)) (EWriteFile path content) w)
  | None =>
      if parent_exists path w
      then (Return tt, set_fs (<[path := File content]> (fs w)) (EWriteFile path content) w)
      else (Throw (SystemError "ENOENT" path), w)
  end.

(** [spawn(command, args, { cwd, detached: true, stdio: ['ignore', out, out] })]
    followed by [child.unref()]: the child's pid, if a process came up. An
    empty command is refused before anything is spawned.  The environment
    handed to the child is not tracked. *)
Definition spawn (command : string) (args : list string) (cwd out : string)
  : M (option Z) := fun w =>
  if String.eqb command "" then
    (Throw (TypeError "The argument 'file' cannot be empty."), w)
  else
    (Return (spawn_pid P (tick w)), advance 0 (ESpawn command args cwd out) w).

End Primitives.

(** ** The source: [src/server-manager.ts] *)

(** The settings of [types.ts].  The two durations are integers, as the
    schema of the configuration loader asks; process ids are integers
    too. *)
Record ServerManagementConfig := {
  enabled : bool;
  autoStart : bool;
  sourcePath : string;
  nodeCommand : string;
  pidFile : string;
  logFile : string;
  startupTimeoutMs : Z;
  pollIntervalMs : Z
}.

Inductive ProcessState := running | stopped | missing.

Record NodeServerStatus := {
  reachable : bool;
  pid : option Z;
  process : ProcessState
}.

Section Manager.
Variable P : Platform.

Definition pingTranslationServer (serverUrl : string) (timeoutMs : Z) : M bool :=
  try_catch
    (status <- fetch_with_abort P (JS.replace_trailing_slashes serverUrl) timeoutMs ;;
     ret (status <? 500))
    (fun _ => ret false).

Definition parseHost (serverUrl : string) : M string :=
  match url_hostname P serverUrl with
  | Some host => ret host
  | None => throw (TypeError "Invalid URL")
  end.

Definition isProcessRunning (pid : Z) : M bool :=
  try_catch
    (process_kill P pid Sig0 ;; ret true)
    (fun _ => ret false).

Definition readPidFile (pidFile : string) : M (option Z) :=
  try_catch
    (raw <- readFile pidFile ;;
     let pid := JS.Number (JS.trim raw) in
     if negb (JS.isInteger pid) || JS.le_zero pid then ret None
     else ret (Some (JS.to_Z pid)))
    (fun error =>
       if has_code error "ENOENT" then ret None
       else throw error).

Definition removePidFileIfExists (pidFile : string) : M unit :=
  try_catch
    (unlink pidFile)
    (fun error =>
       if negb (has_code error "ENOENT") then throw error
       else ret tt).

(** A pid (a number or [null]) used as a condition: [null] and [0] are
    falsy. *)
Definition truthy (pid : option Z) : option Z :=
  match pid with
  | Some p => if p =? 0 then None else Some p
  | None => None
  end.

Variable settings : ServerManagementConfig.

Definition status (serverUrl : string) (timeoutMs : Z) : M NodeServerStatus :=
  reachable <- pingTranslationServer serverUrl (Z.min 3000 timeoutMs) ;;
  pid <- readPidFile (pidFile settings) ;;
  match truthy pid with
  | None => ret {| reachable := reachable; pid := None; process := missing |}
  | Some pid =>
      alive <- isProcessRunning pid ;;
      if alive
      then ret {| reachable := reachable; pid := Some pid; process := running |}
      else ret {| reachable := reachable; pid := Some pid; process := stopped |}
  end.

(** [`${child.pid}`] *)
Definition pid_text (childPid : option Z) : string :=
  match childPid with
  | Some p => JS.toString p
  | None => "undefined"
  end.

(** The poll loop of [start].  Every turn that does not leave the loop
    sleeps, so the clock gains at least a millisecond each time, and
    [fuel] turns are enough when [fuel] is the distance to the deadline
    ([start_ends]). *)
Fixpoint start_poll (fuel : nat) (serverUrl : string) (childPid : option Z)
    (deadline : Z) : M unit :=
  t <- Date_now ;;
  if t <? deadline then
    match fuel with
    | O => fun w => (OutOfFuel, w)
    | S fuel' =>
        up <- pingTranslationServer serverUrl 1500 ;;
        if up then ret tt
        else
          alive <- isProcessRunning (default (-1) childPid) ;;
          if negb alive then
            removePidFileIfExists (pidFile settings) ;;
            throw (JsError ("Translation Server process exited early. Check logs at "
                            ++ logFile settings))
          else
            sleep P (pollIntervalMs settings) ;;
            start_poll fuel' serverUrl childPid deadline
    end
  else
    throw (JsError ("Translation Server did not become ready within "
                    ++ JS.toString (startupTimeoutMs settings) ++ "ms")).

(** Lines 99 to 129 of [start]: check the checkout, make the directories,
    open the log, spawn the server and write the record. *)
Definition launch : M (option Z) :=
  if String.eqb (sourcePath settings) ""
     || String.eqb (JS.trim (sourcePath settings)) "" then
    throw (JsError "serverManagement.sourcePath is empty. Point it to your translation-server checkout.")
  else
    let sourcePath := path_resolve P (sourcePath settings) in
    let serverEntry := path_join P [sourcePath; "src"; "server.js"] in
    try_catch (access serverEntry)
      (fun _ => throw (JsError ("Translation Server entry not found at " ++ serverEntry))) ;;
    mkdir (path_dirname P (pidFile settings)) ;;
    mkdir (path_dirname P (logFile settings)) ;;
    out <- openSync P (logFile settings) ;;
    childPid <- spawn P (nodeCommand settings) ["src/server.js"] sourcePath out ;;
    writeFile P (pidFile settings) (pid_text childPid ++ lf) ;;
    ret childPid.

Definition start (serverUrl : string) : M unit :=
  host <- parseHost serverUrl ;;
  if negb (String.eqb host "127.0.0.1") && negb (String.eqb host "localhost") then
    throw (JsError ("Server management only supports localhost URLs. Got host: " ++ host))
  else
    currentPid <- readPidFile (pidFile settings) ;;
    alive <- match truthy currentPid with
             | Some p => isProcessRunning p
             | None => ret false
             end ;;
    if alive then ret tt
    else
      childPid <- launch ;;
      t <- Date_now ;;
      let deadline := t + startupTimeoutMs settings in
      start_poll (Z.to_nat (startupTimeoutMs settings)) serverUrl childPid deadline.

(** The grace loop of [stop]; it sleeps 150 ms a turn, so the 5000 turns
    it is given are never used up ([stop_ends]).  The result tells whether
    [stop] has returned from inside the loop. *)
Fixpoint stop_wait (fuel : nat) (pid deadline : Z) : M bool :=
  t <- Date_now ;;
  if t <? deadline then
    match fuel with
    | O => fun w => (OutOfFuel, w)
    | S fuel' =>
        alive <- isProcessRunning pid ;;
        if negb alive then
          removePidFileIfExists (pidFile settings) ;;
          ret true
        else
          sleep P 150 ;;
          stop_wait fuel' pid deadline
    end
  else ret false.

Definition stop : M unit :=
  pid <- readPidFile (pidFile settings) ;;
  match truthy pid with
  | None => ret tt
  | Some pid =>
      alive <- isProcessRunning pid ;;
      if negb alive then
        removePidFileIfExists (pidFile settings) ;;
        ret tt
      else
        process_kill P pid SIGTERM ;;
        t <- Date_now ;;
        let deadline := t + 5000 in
        returned <- stop_wait (Z.to_nat 5000) pid deadline ;;
        if returned then ret tt
        else
          process_kill P pid SIGKILL ;;
          removePidFileIfExists (pidFile settings)
  end.

Definition ensureRunning (serverUrl : string) (requestTimeoutMs : Z) : M unit :=
  reachable <- pingTranslationServer serverUrl (Z.min 3000 requestTimeoutMs) ;;
  if reachable then ret tt
  else if negb (enabled settings) then
    throw (JsError "Translation Server is unreachable and serverManagement.enabled is false.")
  else start serverUrl.

End Manager.

(** ** Notions used to state the properties *)

(** The pid a record holds: what [readPidFile] makes of the node at the
    record's path. *)
Definition recorded_pid (node : option Node) : option Z :=
  match node with
  | Some (File raw) =>
      let pid := JS.Number (JS.trim raw) in
      if negb (JS.isInteger pid) || JS.le_zero pid then None
      else Some (JS.to_Z pid)
  | _ => None
  end.

(** The record's path holds no directory: reading it does not fail. *)
Definition readable (node : option Node) : Prop := node <> Some Dir.

Definition is_loopback (host : string) : bool :=
  String.eqb host "127.0.0.1" || String.eqb host "localhost".

Definition is_spawn (ev : Event) : bool :=
  match ev with
  | ESpawn _ _ _ _ => true
  | _ => false
  end.

(** The number of processes spawned according to a log. *)
Definition spawns (l : list Event) : nat := length (filter is_spawn l).

(** A signal goes to one process only when its pid is positive. *)
Definition kill_positive (ev : Event) : Prop :=
  match ev with
  | EKill pid _ => 0 < pid
  | _ => True
  end.

(** A computation that never runs out of fuel. *)
Definition ends {A} (m : M A) : Prop := forall w, fst (m w) <> OutOfFuel.

(** The mantissa of a finite number is not negative. *)
Definition mantissa_ok (x : JS.number) : Prop :=
  match x with
  | JS.Fin _ m _ => 0 <= m
  | _ => True
  end.

Definition is_decimal_digit (c : ascii) : bool :=
  let n := Z.of_N (N_of_ascii c) in (48 <=? n) && (n <=? 57).

Fixpoint all_decimal (s : string) : bool :=
  match s with
  | String c r => is_decimal_digit c && all_decimal r
  | EmptyString => true
  end.

(** The value of a string of decimal digits, on top of [acc]. *)
Fixpoint decimal_value (acc : Z) (s : string) : Z :=
  match s with
  | String c r => decimal_value (10 * acc + (Z.of_N (N_of_ascii c) - 48)) r
  | EmptyString => acc
  end.

Section Notions.
Variable P : Platform.

(** A response below 500 arrives before the abort timer fires. *)
Definition probe_ok (url : string) (timeoutMs : Z) (n : nat) : bool :=
  match http_get P n (JS.replace_trailing_slashes url) with
  | Response status latency =>
      (latency <? timer_delay timeoutMs) && (status <? 500)
  | _ => false
  end.

(** The time a probe takes. *)
Definition probe_time (url : string) (timeoutMs : Z) (n : nat) : Z :=
  let delay := timer_delay timeoutMs in
  match http_get P n (JS.replace_trailing_slashes url) with
  | Response _ latency | Failure latency =>
      if latency <? delay then Z.max 0 latency else delay
  | NoAnswer => delay
  end.

Definition after_probe (url : string) (timeoutMs : Z) (w : World) : World :=
  advance (probe_time url timeoutMs (tick w))
          (EFetch (JS.replace_trailing_slashes url) timeoutMs) w.

(** The world after a liveness check of [p], and after a sleep. *)
Definition checked (p : Z) (w : World) : World := advance 0 (EKill p Sig0) w.

Definition slept (ms : Z) (w : World) : World :=
  advance (timer_delay ms + Z.max 0 (timer_lag P (tick w))) (ESleep ms) w.

Variable settings : ServerManagementConfig.

(** The errors of the poll loop of [start]. *)
Definition exited_early : Error :=
  JsError ("Translation Server process exited early. Check logs at "
           ++ logFile settings).

Definition timed_out : Error :=
  JsError ("Translation Server did not become ready within "
           ++ JS.toString (startupTimeoutMs settings) ++ "ms").

(** One turn of the poll loop of [start] that stays in the loop: the
    deadline is ahead, the endpoint does not answer, the child is alive,
    and the loop sleeps. *)
Inductive poll_turn (serverUrl : string) (childPid : option Z) (deadline : Z)
  : World -> World -> Prop :=
| PollTurn w w1 w2 w3 :
    now w < deadline ->
    pingTranslationServer P serverUrl 1500 w = (Return false, w1) ->
    isProcessRunning P (default (-1) childPid) w1 = (Return true, w2) ->
    sleep P (pollIntervalMs settings) w2 = (Return tt, w3) ->
    poll_turn serverUrl childPid deadline w w3.

(** [start] gets as far as its poll loop: the host is a loopback name, no
    recorded process is alive, and the launch steps succeed, leaving the
    world [w1] with the child's pid written. *)
Definition launches (serverUrl : string) (w0 : World) (childPid : option Z)
    (w1 : World) : Prop :=
  exists host cur wr wa,
    parseHost P serverUrl w0 = (Return host, w0) /\
    is_loopback host = true /\
    readPidFile (pidFile settings) w0 = (Return cur, wr) /\
    match truthy cur with
    | Some p => isProcessRunning P p wr
    | None => (Return false, wr)
    end = (Return false, wa) /\
    launch P settings wa = (Return childPid, w1).

End Notions.

(** ** A platform and worlds to run the code on *)

Module Sample.

(** The host of [scheme://host[:port][/path]]. *)
Fixpoint after_slashes (s : string) : option string :=
  match s with
  | String ":" (String "/" (String "/" r)) => Some r
  | String _ r => after_slashes r
  | EmptyString => None
  end.

Fixpoint host_prefix (s : string) : string :=
  match s with
  | String c r =>
      if Ascii.eqb c ":" || Ascii.eqb c "/" then "" else String c (host_prefix r)
  | EmptyString => ""
  end.

Definition hostname (s : string) : option string :=
  match after_slashes s with
  | Some r => if String.eqb (host_prefix r) "" then None else Some (host_prefix r)
  | None => None
  end.

(** POSIX [dirname] of a path without trailing slashes. *)
Fixpoint dirname_go (s : string) : option string :=
  match s with
  | String c r =>
      match dirname_go r with
      | Some d => Some (String c d)
      | None => if Ascii.eqb c "/" then Some "" else None
      end
  | EmptyString => None
  end.

Definition dirname (s : string) : string :=
  match dirname_go s with
  | Some "" => "/"
  | Some d => d
  | None => "."
  end.

Fixpoint join (parts : list string) : string :=
  match parts with
  | [] => ""
  | [x] => x
  | x :: rest => x ++ "/" ++ join rest
  end.

(** Pid 4242 is alive while fewer than [alive_until] interactions have
    passed, and spawning yields pid 4242. *)
Definition platform (alive_until : nat) (answer : nat -> FetchOutcome) : Platform :=
  {| url_hostname := hostname;
     path_resolve := fun s => s;
     path_join := join;
     path_dirname := dirname;
     proc_alive := fun n pid => (pid =? 4242) && (n <? alive_until)%nat;
     http_get := fun n _ => answer n;
     spawn_pid := fun _ => Some 4242;
     timer_lag := fun _ => 0 |}.

Definition config (on : bool) : ServerManagementConfig :=
  {| enabled := on;
     autoStart := false;
     sourcePath := "/opt/translation-server";
     nodeCommand := "node";
     pidFile := "/run/biblib/server.pid";
     logFile := "/var/log/biblib/server.log";
     startupTimeoutMs := 2000;
     pollIntervalMs := 500 |}.

Definition world (files : list (string * Node)) : World :=
  {| fs := list_to_map files; now := 1000000; tick := 0; log := [] |}.

Definition checkout : list (string * Node) :=
  [("/opt/translation-server/src/server.js", File "// server")].

Definition record (content : string) : list (string * Node) :=
  [("/run/biblib/server.pid", File content)].

Definition silent : nat -> FetchOutcome := fun _ => NoAnswer.

(** The connection is refused after ten milliseconds. *)
Definition refused : nat -> FetchOutcome := fun _ => Failure 10.

(** Pid 4242 never dies. *)
Definition immortal (answer : nat -> FetchOutcome) : Platform :=
  {| url_hostname := hostname;
     path_resolve := fun s => s;
     path_join := join;
     path_dirname := dirname;
     proc_alive := fun _ pid => pid =? 4242;
     http_get := fun n _ => answer n;
     spawn_pid := fun _ => Some 4242;
     timer_lag := fun _ => 0 |}.

Definition healthy : nat -> FetchOutcome := fun _ => Response 200 5.

Definition local_url : string := "http://localhost:1969".

Definition remote_url : string := "http://example.com:1969".

(** A checkout and no record; a checkout and the record of pid 4242. *)
Definition fresh : World := world checkout.

Definition recorded : World := world (checkout ++ record ("4242" ++ lf)).

(** The state [start] leaves its launch in, from [fresh]. *)
Definition launched (P : Platform) : World := snd (launch P (config true) fresh).

(** The state after one turn of the poll loop that stayed in the loop. *)
Definition turned (P : Platform) : World :=
  slept P 500 (checked 4242 (after_probe P local_url 1500 (launched P))).

(** What is left of a run: the outcome, the files, the clock and the log. *)
Definition observe {A} (r : Outcome A * World)
  : Outcome A * list (string * Node) * Z * list Event :=
  (r.1, map_to_list (fs r.2), now r.2, log r.2).

End Sample.

Import Sample.


(** ** The caller in the command line *)

(** The configuration of [types.ts], whole. *)
Module CustomFrontmatterField.
Record t := {
  name : string;
  template : string;
  enabled : bool
}.
End CustomFrontmatterField.

Module CitekeyConfig.
Record t := {
  template : string;
  minLength : Z;
  randomDigits : Z
}.
End CitekeyConfig.

Module WriteConfig.
Inductive MergeStrategy := shallow | replace.
Record t := {
  mergeStrategy : MergeStrategy;
  preserveFields : list string
}.
End WriteConfig.

Module AttachmentsConfig.
Record t := {
  enabled : bool;
  maxFiles : Z;
  pdfOnly : bool;
  createSubfolderByCitekey : bool;
  timeoutMs : Z
}.
End AttachmentsConfig.

Record BiblibCliConfig := {
  rootFolderPath : string;
  translationServerUrl : string;
  requestTimeoutMs : Z;
  literatureNoteTag : string;
  literatureNotePath : string;
  attachmentFolderPath : string;
  filenameTemplate : string;
  customFrontmatterFields : list CustomFrontmatterField.t;
  citekey : CitekeyConfig.t;
  write : WriteConfig.t;
  serverManagement : ServerManagementConfig;
  attachments : AttachmentsConfig.t
}.

Section Cli.
Variable P : Platform.

(** [ensureServerIfNeeded] of the command line: what [fetch] and [write]
    run before they talk to the server. *)
Definition ensureServerIfNeeded (ensureRequested : bool)
    (config : BiblibCliConfig) (serverUrl : string) : M unit :=
  let shouldEnsure := ensureRequested || autoStart (serverManagement config) in
  if negb shouldEnsure then ret tt
  else
    ensureRunning P (serverManagement config) serverUrl (requestTimeoutMs config).

End Cli.

(** ** Further notions: the events a run adds *)

(** The events logged between [w] and a later [w'], latest first. *)
Definition added (w w' : World) : list Event :=
  firstn (length (log w') - length (log w)) (log w').

Definition is_fetch (ev : Event) : bool :=
  match ev with
  | EFetch _ _ => true
  | _ => false
  end.

Definition is_sleep (ev : Event) : bool :=
  match ev with
  | ESleep _ => true
  | _ => false
  end.

(** The number of probes and of sleeps in a log. *)
Definition fetches (l : list Event) : nat := length (filter is_fetch l).

Definition sleeps (l : list Event) : nat := length (filter is_sleep l).

(** What the grace loop of [stop] may do about the record at [f] of the
    process [p]: check it, sleep 150 ms, remove the record. *)
Definition wait_event (f : string) (p : Z) (ev : Event) : Prop :=
  match ev with
  | EKill q Sig0 => q = p
  | ESleep ms => ms = 150
  | EUnlink g => g = f
  | _ => False
  end.

(** What [stop] may do: the same, and any signal to [p]. *)
Definition stop_event (f : string) (p : Z) (ev : Event) : Prop :=
  match ev with
  | EKill q _ => q = p
  | ESleep ms => ms = 150
  | EUnlink g => g = f
  | _ => False
  end.

(** What the poll loop of [start] may do: probe [url] for 1500 ms, check
    the pid [p], sleep [ms], remove the record at [f]. *)
Definition poll_event (f url : string) (p ms : Z) (ev : Event) : Prop :=
  match ev with
  | EFetch u t => u = JS.replace_trailing_slashes url /\ t = 1500
  | EKill q Sig0 => q = p
  | ESleep m => m = ms
  | EUnlink g => g = f
  | _ => False
  end.

(** What [status] may do: one probe with the capped timeout and liveness
    checks. *)
Definition status_event (url : string) (timeoutMs : Z) (ev : Event) : Prop :=
  match ev with
  | EFetch u t => u = JS.replace_trailing_slashes url /\ t = Z.min 3000 timeoutMs
  | EKill _ Sig0 => True
  | _ => False
  end.

(** The only signal sent is the liveness probe. *)
Definition signal_zero_only (ev : Event) : Prop :=
  match ev with
  | EKill _ Sig0 => True
  | EKill _ _ => False
  | _ => True
  end.

(** A run of [n] slashes. *)
Fixpoint slashes (n : nat) : string :=
  match n with
  | O => EmptyString
  | S n' => String "/" (slashes n')
  end.

Fixpoint all_white_space (s : string) : bool :=
  match s with
  | String c r => JS.is_white_space c && all_white_space r
  | EmptyString => true
  end.

Section LaunchNotions.
Variable P : Platform.
Variable settings : ServerManagementConfig.

(** The events of a whole launch, latest first. *)
Definition launch_events (childPid : option Z) : list Event :=
  let source := path_resolve P (sourcePath settings) in
  [EWriteFile (pidFile settings) (pid_text childPid ++ lf);
   ESpawn (nodeCommand settings) ["src/server.js"%string] source (logFile settings);
   EOpenAppend (logFile settings);
   EMkdir (path_dirname P (logFile settings));
   EMkdir (path_dirname P (pidFile settings))].

(** The entry file [start] looks for. *)
Definition server_entry : string :=
  path_join P [path_resolve P (sourcePath settings); "src"; "server.js"]%string.

(** No recorded process is alive when [start] checks at [w]. *)
Definition nothing_running (w : World) : Prop :=
  match recorded_pid (fs w !! pidFile settings) with
  | Some p => proc_alive P (tick w) p = false
  | None => True
  end.

(** The world after the first check of [start]. *)
Definition first_checked (w : World) : World :=
  match recorded_pid (fs w !! pidFile settings) with
  | Some p => checked p w
  | None => w
  end.

End LaunchNotions.

(** The world after [stop] has found [p] alive and sent it SIGTERM. *)
Definition signalled (p : Z) (w : World) : World :=
  advance 0 (EKill p SIGTERM) (checked p w).

Section GraceNotions.
Variable P : Platform.

(** One turn of the grace loop of [stop] that stays in the loop: the
    deadline is ahead, the process is found alive, and the loop sleeps
    150 ms. *)
Inductive wait_turn (pid deadline : Z) : World -> World -> Prop :=
| WaitTurn w w1 w2 :
    now w < deadline ->
    isProcessRunning P pid w = (Return true, w1) ->
    sleep P 150 w1 = (Return tt, w2) ->
    wait_turn pid deadline w w2.

End GraceNotions.

(** More inputs to run the code on. *)
Module Scenario.

(** The process answers the first check and is gone at the signal. *)
Definition vanishing : Platform := Sample.platform 1 Sample.silent.

(** Pid 4242 dies during the grace period of [stop]: it answers the
    checks of two turns and is gone at the third. *)
Definition dying : Platform := Sample.platform 5 Sample.silent.


(** The world after two turns of the grace loop of [stop] on the record of
    pid 4242. *)
Definition waited_twice (P : Platform) : World :=
  slept P 150 (checked 4242
    (slept P 150 (checked 4242 (signalled 4242 Sample.recorded)))).

Definition no_source : ServerManagementConfig :=
  {| enabled := true;
     autoStart := false;
     sourcePath := "   ";
     nodeCommand := "node";
     pidFile := "/run/biblib/server.pid";
     logFile := "/var/log/biblib/server.log";
     startupTimeoutMs := 2000;
     pollIntervalMs := 500 |}.

(** A record of pid 4242 and no checkout. *)
Definition no_checkout : World := Sample.world (Sample.record ("4242" ++ lf)).

(** No record and no checkout. *)
Definition empty : World := Sample.world [].

Definition cli_config (management : ServerManagementConfig) : BiblibCliConfig :=
  {| rootFolderPath := ".";
     translationServerUrl := "http://127.0.0.1:1969";
     requestTimeoutMs := 20000;
     literatureNoteTag := "literature_note";
     literatureNotePath := ".";
     attachmentFolderPath := "attachments";
     filenameTemplate := "@{{citekey}}";
     customFrontmatterFields :=
       [{| CustomFrontmatterField.name := "year";
           CustomFrontmatterField.template := "{{year}}";
           CustomFrontmatterField.enabled := true |}];
     citekey := {| CitekeyConfig.template := "{{author_family}}{{year}}";
                   CitekeyConfig.minLength := 6;
                   CitekeyConfig.randomDigits := 4 |};
     write := {| WriteConfig.mergeStrategy := WriteConfig.shallow;
                 WriteConfig.preserveFields := ["tags"%string] |};
     serverManagement := management;
     attachments := {| AttachmentsConfig.enabled := false;
                       AttachmentsConfig.maxFiles := 3;
                       AttachmentsConfig.pdfOnly := true;
                       AttachmentsConfig.createSubfolderByCitekey := true;
                       AttachmentsConfig.timeoutMs := 30000 |} |}.

End Scenario.

(** * Properties *)

Local Open Scope list_scope.

(** Equations between logs that grow by known events. *)
Ltac log_eq :=
  repeat match goal with w := _ : World |- _ => subst w end;
  unfold checked, slept, after_probe in *;
  repeat (progress cbn [log advance set_fs app]
          || match goal with H : log _ = _ |- _ => rewrite H end);
  rewrite <- ?List.app_assoc; cbn [app]; rewrite <- ?List.app_assoc;
  cbn [app]; reflexivity.

(** ** Numbers read from the record *)

Section NumberFacts.

Lemma digit_value_range base c v :
  JS.digit_value base c = Some v -> 0 <= v < base.
Proof.
  unfold JS.digit_value.
  set (n := Z.of_N (N_of_ascii c)).
  assert (0 <= n) by (unfold n; lia).
  destruct ((48 <=? n) && (n <=? 57)) eqn:E1.
  { apply andb_true_iff in E1 as [? ?].
    destruct (n - 48 <? base) eqn:E; [|discriminate]. intros [= <-]. lia. }
  destruct ((97 <=? n) && (n <=? 122)) eqn:E2.
  { apply andb_true_iff in E2 as [? ?].
    destruct (n - 87 <? base) eqn:E; [|discriminate]. intros [= <-]. lia. }
  destruct ((65 <=? n) && (n <=? 90)) eqn:E3.
  { apply andb_true_iff in E3 as [? ?].
    destruct (n - 55 <? base) eqn:E; [|discriminate]. intros [= <-]. lia. }
  destruct (36 <? base) eqn:E; [|discriminate]. intros [= <-]. lia.
Qed.

Lemma scan_digits_nonneg base s : forall acc cnt,
  0 <= acc -> 0 <= (JS.scan_digits base acc cnt s).1.1.
Proof.
  induction s as [|c s IH]; intros acc cnt Hacc; simpl; [exact Hacc|].
  destruct (JS.digit_value base c) as [v|] eqn:Hv; [|exact Hacc].
  apply digit_value_range in Hv. apply IH. nia.
Qed.

Lemma round_to_double_ok neg n d :
  0 <= n -> 0 < d -> mantissa_ok (JS.round_to_double neg n d).
Proof.
  intros Hn Hd. unfold JS.round_to_double.
  destruct (n =? 0); [simpl; lia|].
  cbv zeta.
  set (ex := Z.max _ _).
  set (num := if 0 <=? ex then n else n * 2 ^ (- ex)).
  set (den := if 0 <=? ex then d * 2 ^ ex else d).
  assert (Hnum : 0 <= num).
  { unfold num. destruct (0 <=? ex); [lia|].
    apply Z.mul_nonneg_nonneg; [lia|]. apply Z.pow_nonneg. lia. }
  assert (Hden : 0 < den).
  { unfold den. destruct (0 <=? ex) eqn:E; [|lia].
    apply Z.mul_pos_pos; [lia|]. apply Z.pow_pos_nonneg; lia. }
  assert (Hq : 0 <= num / den) by (apply Z.div_pos; lia).
  destruct (_ || _); [exact I|]. simpl.
  destruct (2 * (num mod den) <? den); [lia|].
  destruct (den <? 2 * (num mod den)); [lia|].
  destruct (Z.even (num / den)); lia.
Qed.

Lemma decimal_to_double_ok neg m e :
  0 <= m -> mantissa_ok (JS.decimal_to_double neg m e).
Proof.
  intros Hm. unfold JS.decimal_to_double.
  destruct (0 <=? e) eqn:E.
  - apply round_to_double_ok; [|lia].
    apply Z.mul_nonneg_nonneg; [lia|]. apply Z.pow_nonneg. lia.
  - apply round_to_double_ok; [lia|]. apply Z.pow_pos_nonneg; lia.
Qed.

Lemma parse_unsigned_decimal_ok neg s :
  mantissa_ok (JS.parse_unsigned_decimal neg s).
Proof.
  unfold JS.parse_unsigned_decimal.
  destruct (String.eqb s "Infinity"); [exact I|].
  pose proof (scan_digits_nonneg 10 s 0 0 ltac:(lia)) as H1.
  destruct (JS.scan_digits 10 0 0 s) as [[ip n1] r1]. simpl in H1.
  destruct (JS.after_char "." r1) as [r|].
  - pose proof (scan_digits_nonneg 10 r ip 0 H1) as H2.
    destruct (JS.scan_digits 10 ip 0 r) as [[m n2] r2]. simpl in H2.
    destruct (0 <? n1 + n2); [|exact I].
    destruct (JS.parse_exponent r2); [|exact I].
    now apply decimal_to_double_ok.
  - destruct (0 <? n1 + 0); [|exact I].
    destruct (JS.parse_exponent r1); [|exact I].
    now apply decimal_to_double_ok.
Qed.

Lemma parse_radix_ok base s : 0 <= base -> mantissa_ok (JS.parse_radix base s).
Proof.
  intros Hb. unfold JS.parse_radix.
  pose proof (scan_digits_nonneg base s 0 0 ltac:(lia)) as H1.
  destruct (JS.scan_digits base 0 0 s) as [[v n] [|c r]]; [|exact I].
  simpl in H1. destruct (0 <? n); [|exact I].
  apply round_to_double_ok; lia.
Qed.

Lemma radix_prefix_base s base digits :
  JS.radix_prefix s = Some (base, digits) -> 0 <= base.
Proof.
  unfold JS.radix_prefix.
  destruct (JS.after_char "0" s) as [[|c r]|]; try discriminate.
  destruct (_ || _); [intros [= <- _]; lia|].
  destruct (_ || _); [intros [= <- _]; lia|].
  destruct (_ || _); [intros [= <- _]; lia|discriminate].
Qed.

Lemma Number_ok s : mantissa_ok (JS.Number s).
Proof.
  unfold JS.Number. cbv zeta.
  destruct (String.eqb (JS.trim s) ""); [simpl; lia|].
  destruct (JS.radix_prefix (JS.trim s)) as [[base digits]|] eqn:Hr.
  - apply parse_radix_ok. eapply radix_prefix_base, Hr.
  - destruct (JS.parse_sign (JS.trim s)) as [neg r].
    apply parse_unsigned_decimal_ok.
Qed.

(** [Number] on some texts a record may hold. *)
Example Number_of_pid_text :
  JS.to_Z (JS.Number ("4242" ++ lf)) = 4242 /\
  JS.Number "abc" = JS.NaN /\
  JS.Number "" = JS.Fin false 0 0 /\
  JS.Number "-5" = JS.Fin true 5629499534213120 (-50) /\
  JS.isInteger (JS.Number "1.5") = false /\
  JS.to_Z (JS.Number "1e3") = 1000 /\
  JS.to_Z (JS.Number "0x10") = 16 /\
  JS.to_Z (JS.Number "9007199254740993") = 9007199254740992 /\
  JS.Number "1e309" = JS.Inf false.
Proof. repeat split; reflexivity. Qed.

(** A number that passes the test of [readPidFile] is a positive integer. *)
Lemma accepted_number_positive x :
  mantissa_ok x ->
  negb (JS.isInteger x) || JS.le_zero x = false -> 0 < JS.to_Z x.
Proof.
  destruct x as [|neg|neg m e]; simpl; try discriminate.
  intros Hm H. apply orb_false_iff in H as [Hint Hle].
  apply orb_false_iff in Hle as [-> Hz]. apply Z.eqb_neq in Hz.
  apply negb_false_iff in Hint.
  destruct (0 <=? e) eqn:E.
  - apply Z.mul_pos_pos; [lia|]. apply Z.pow_pos_nonneg; lia.
  - apply Z.eqb_eq in Hint.
    assert (Hp : 0 < 2 ^ (- e)) by (apply Z.pow_pos_nonneg; lia).
    pose proof (Z.div_mod m (2 ^ (- e)) ltac:(lia)) as Hdm.
    rewrite Hint in Hdm. nia.
Qed.

Lemma recorded_pid_positive node p : recorded_pid node = Some p -> 0 < p.
Proof.
  unfold recorded_pid. destruct node as [[raw|]|]; try discriminate.
  destruct (negb _ || _) eqn:E; [discriminate|]. intros [= <-].
  apply accepted_number_positive; [apply Number_ok|exact E].
Qed.

Lemma truthy_recorded_pid node : truthy (recorded_pid node) = recorded_pid node.
Proof.
  destruct (recorded_pid node) as [p|] eqn:E; [|reflexivity].
  apply recorded_pid_positive in E. simpl.
  destruct (p =? 0) eqn:E0; [lia|reflexivity].
Qed.

End NumberFacts.

(** ** The monad *)

Lemma bind_return {A B} (m : M A) (k : A -> M B) w a w' :
  m w = (Return a, w') -> bind m k w = k a w'.
Proof. intros H. unfold bind. now rewrite H. Qed.

Lemma bind_throw {A B} (m : M A) (k : A -> M B) w e w' :
  m w = (Throw e, w') -> bind m k w = (Throw e, w').
Proof. intros H. unfold bind. now rewrite H. Qed.

Lemma try_return {A} (m : M A) h w a w' :
  m w = (Return a, w') -> try_catch m h w = (Return a, w').
Proof. intros H. unfold try_catch. now rewrite H. Qed.

Lemma try_throw {A} (m : M A) h w e w' :
  m w = (Throw e, w') -> try_catch m h w = h e w'.
Proof. intros H. unfold try_catch. now rewrite H. Qed.

(** ** The helpers of the manager, as equations *)

Section HelperFacts.
Variable P : Platform.

Lemma pingTranslationServer_eq url timeoutMs w :
  pingTranslationServer P url timeoutMs w
  = (Return (probe_ok P url timeoutMs (tick w)), after_probe P url timeoutMs w).
Proof.
  unfold pingTranslationServer, try_catch, bind, fetch_with_abort, probe_ok,
    after_probe, probe_time, ret.
  destruct (http_get P (tick w) (JS.replace_trailing_slashes url))
    as [status latency|latency|]; try destruct (latency <? _); reflexivity.
Qed.

Lemma isProcessRunning_eq pid w :
  isProcessRunning P pid w
  = (Return (proc_alive P (tick w) pid), advance 0 (EKill pid Sig0) w).
Proof.
  unfold isProcessRunning, try_catch, bind, process_kill, ret.
  destruct (proc_alive P (tick w) pid); reflexivity.
Qed.

Lemma readPidFile_eq f w :
  readable (fs w !! f) ->
  readPidFile f w = (Return (recorded_pid (fs w !! f)), w).
Proof.
  unfold readable, readPidFile, try_catch, bind, readFile, recorded_pid, ret.
  destruct (fs w !! f) as [[raw|]|]; try congruence; intros _.
  - destruct (negb _ || _); reflexivity.
  - reflexivity.
Qed.

Lemma readPidFile_directory f w :
  fs w !! f = Some Dir ->
  readPidFile f w = (Throw (SystemError "EISDIR" f), w).
Proof.
  intros H. unfold readPidFile, try_catch, bind, readFile. now rewrite H.
Qed.

Lemma removePidFileIfExists_file f w raw :
  fs w !! f = Some (File raw) ->
  removePidFileIfExists f w = (Return tt, set_fs (delete f (fs w)) (EUnlink f) w).
Proof.
  intros H. unfold removePidFileIfExists, try_catch, unlink. now rewrite H.
Qed.

Lemma removePidFileIfExists_absent f w :
  fs w !! f = None -> removePidFileIfExists f w = (Return tt, w).
Proof.
  intros H. unfold removePidFileIfExists, try_catch, unlink. now rewrite H.
Qed.

End HelperFacts.

Lemma timer_delay_in_range ms :
  1 <= ms <= 2147483647 -> timer_delay ms = ms.
Proof. unfold timer_delay. intros H. destruct (ms <? 1) eqn:E1, (2147483647 <? ms) eqn:E2; simpl; lia. Qed.

(** ** The health probe *)

(** C9. The probe always returns a boolean and never throws; the boolean is
    [true] exactly when a response arrives before the abort timer fires
    and its status code is below 500; a network or transport failure, a
    response that comes too late and silence all give [false]. *)
Theorem ping_total_and_exact (P : Platform) (url : string) (timeoutMs : Z)
    (w : World) :
  exists up : bool,
    fst (pingTranslationServer P url timeoutMs w) = Return up /\
    (up = true <->
     exists status latency,
       http_get P (tick w) (JS.replace_trailing_slashes url)
       = Response status latency /\
       latency < timer_delay timeoutMs /\ status < 500) /\
    match http_get P (tick w) (JS.replace_trailing_slashes url) with
    | Response status latency =>
        up = (latency <? timer_delay timeoutMs) && (status <? 500)
    | Failure _ | NoAnswer => up = false
    end.
Proof.
  exists (probe_ok P url timeoutMs (tick w)).
  rewrite pingTranslationServer_eq. split; [reflexivity|].
  unfold probe_ok.
  destruct (http_get P (tick w) (JS.replace_trailing_slashes url))
    as [status latency|latency|].
  - split; [|reflexivity]. rewrite andb_true_iff, !Z.ltb_lt. split.
    + intros [H1 H2]. eauto.
    + intros (st & lat & Heq & H1 & H2). injection Heq as -> ->. auto.
  - split; [|reflexivity]. split; [discriminate|].
    intros (st & lat & Heq & _). discriminate.
  - split; [|reflexivity]. split; [discriminate|].
    intros (st & lat & Heq & _). discriminate.
Qed.

(** ** [status] *)

Section StatusFacts.
Variable P : Platform.
Variable S : ServerManagementConfig.

(** [status] changes no file. *)
Lemma status_reads_only url timeoutMs w :
  fs (snd (status P S url timeoutMs w)) = fs w.
Proof.
  unfold status.
  rewrite (bind_return _ _ _ _ _ (pingTranslationServer_eq P url _ w)).
  destruct (fs w !! pidFile S) as [[raw|]|] eqn:Hnode.
  - assert (Hr : readable (fs (after_probe P url (Z.min 3000 timeoutMs) w) !! pidFile S))
      by (unfold readable; simpl; rewrite Hnode; discriminate).
    rewrite (bind_return _ _ _ _ _ (readPidFile_eq _ _ Hr)).
    destruct (truthy _); [|reflexivity].
    rewrite (bind_return _ _ _ _ _ (isProcessRunning_eq P _ _)).
    destruct (proc_alive _ _ _); reflexivity.
  - assert (Hd : fs (after_probe P url (Z.min 3000 timeoutMs) w) !! pidFile S = Some Dir)
      by exact Hnode.
    rewrite (bind_throw _ _ _ _ _ (readPidFile_directory _ _ Hd)). reflexivity.
  - assert (Hr : readable (fs (after_probe P url (Z.min 3000 timeoutMs) w) !! pidFile S))
      by (unfold readable; simpl; rewrite Hnode; discriminate).
    rewrite (bind_return _ _ _ _ _ (readPidFile_eq _ _ Hr)).
    simpl. rewrite Hnode. reflexivity.
Qed.

(** C1. [status] probes with the timeout [min(3000, timeoutMs)] and, the
    record's path holding a file or nothing, returns a composite status:
    its [reachable] flag is the probe's result; when the record holds no
    positive integer (no file, or content that is not a positive integer)
    the pid is [null] and the process is missing; otherwise the pid is the
    recorded one and the process is running or stopped as the recorded pid
    is alive or not.  The probe's result has no part in the pid and the
    classification. *)
Theorem status_classification (url : string) (timeoutMs : Z) (w : World) :
  readable (fs w !! pidFile S) ->
  let up := probe_ok P url (Z.min 3000 timeoutMs) (tick w) in
  let w1 := after_probe P url (Z.min 3000 timeoutMs) w in
  pingTranslationServer P url (Z.min 3000 timeoutMs) w = (Return up, w1) /\
  log w1 = EFetch (JS.replace_trailing_slashes url) (Z.min 3000 timeoutMs) :: log w /\
  status P S url timeoutMs w =
    match recorded_pid (fs w !! pidFile S) with
    | None =>
        (Return {| reachable := up; pid := None; process := missing |}, w1)
    | Some p =>
        (Return {| reachable := up; pid := Some p;
                   process := if proc_alive P (tick w1) p
                              then running else stopped |},
         advance 0 (EKill p Sig0) w1)
    end.
Proof.
  intros Hr up w1. split; [apply pingTranslationServer_eq|].
  split; [reflexivity|].
  unfold status.
  rewrite (bind_return _ _ _ _ _ (pingTranslationServer_eq P url _ w)).
  fold up w1.
  assert (Hr1 : readable (fs w1 !! pidFile S)) by exact Hr.
  rewrite (bind_return _ _ _ _ _ (readPidFile_eq _ _ Hr1)).
  rewrite truthy_recorded_pid.
  change (fs w1) with (fs w).
  destruct (recorded_pid (fs w !! pidFile S)) as [p|]; [|reflexivity].
  rewrite (bind_return _ _ _ _ _ (isProcessRunning_eq P _ _)).
  destruct (proc_alive P (tick w1) p); reflexivity.
Qed.

End StatusFacts.

Lemma status_classification_witness :
  readable (fs recorded !! pidFile (config true)) /\
  pingTranslationServer (platform 0 silent) local_url (Z.min 3000 20000) recorded
  = (Return false, after_probe (platform 0 silent) local_url 3000 recorded) /\
  log (after_probe (platform 0 silent) local_url 3000 recorded)
  = [EFetch local_url 3000] /\
  status (platform 0 silent) (config true) local_url 20000 recorded
  = (Return {| reachable := false; pid := Some 4242; process := stopped |},
     checked 4242 (after_probe (platform 0 silent) local_url 3000 recorded)).
Proof.
  assert (Hr : readable (fs recorded !! pidFile (config true)))
    by (vm_compute; discriminate).
  split; [exact Hr|].
  exact (status_classification (platform 0 silent) (config true)
           local_url 20000 recorded Hr).
Defined.


(** ** [start]: the checks before the launch *)

Section StartChecks.
Variable P : Platform.
Variable S : ServerManagementConfig.

Lemma is_loopback_false host :
  host <> "127.0.0.1" -> host <> "localhost" ->
  negb (String.eqb host "127.0.0.1") && negb (String.eqb host "localhost") = true.
Proof.
  intros H1 H2. apply String.eqb_neq in H1, H2. now rewrite H1, H2.
Qed.

Lemma is_loopback_true host :
  is_loopback host = true ->
  negb (String.eqb host "127.0.0.1") && negb (String.eqb host "localhost") = false.
Proof.
  unfold is_loopback.
  destruct (String.eqb host "127.0.0.1"), (String.eqb host "localhost");
    simpl; congruence.
Qed.

Lemma parseHost_eq url host w :
  url_hostname P url = Some host -> parseHost P url w = (Return host, w).
Proof. intros H. unfold parseHost. now rewrite H. Qed.

(** A string that is no URL is refused as well, before anything is done. *)
Lemma start_invalid_url url w :
  url_hostname P url = None ->
  start P S url w = (Throw (TypeError "Invalid URL"), w).
Proof. intros H. unfold start, bind, parseHost. now rewrite H. Qed.

(** C3. For a URL whose host is neither 127.0.0.1 nor localhost, [start]
    throws its configuration error and leaves the world as it was: the same
    files (no record, no directory), the same log (no spawn, nothing
    else), the same clock. *)
Theorem start_rejects_remote_host (url host : string) (w : World) :
  url_hostname P url = Some host ->
  host <> "127.0.0.1" ->
  host <> "localhost" ->
  start P S url w
  = (Throw (JsError ("Server management only supports localhost URLs. Got host: "
                     ++ host)), w).
Proof.
  intros Hh H1 H2. unfold start.
  rewrite (bind_return _ _ _ _ _ (parseHost_eq _ _ w Hh)).
  now rewrite is_loopback_false.
Qed.

(** Past the host check, [start] reads the record. *)
Lemma start_loopback url host w :
  url_hostname P url = Some host ->
  is_loopback host = true ->
  start P S url w
  = (currentPid <- readPidFile (pidFile S) ;;
     alive <- match truthy currentPid with
              | Some p => isProcessRunning P p
              | None => ret false
              end ;;
     if alive then ret tt
     else
       childPid <- launch P S ;;
       t <- Date_now ;;
       start_poll P S (Z.to_nat (startupTimeoutMs S)) url childPid
         (t + startupTimeoutMs S)) w.
Proof.
  intros Hh Hl. unfold start.
  rewrite (bind_return _ _ _ _ _ (parseHost_eq _ _ w Hh)).
  now rewrite is_loopback_true.
Qed.

(** While the recorded process is alive, [start] only checks that it is:
    it returns, and the world differs by the logged liveness check alone. *)
Lemma start_noop_when_running url host w p :
  url_hostname P url = Some host ->
  is_loopback host = true ->
  recorded_pid (fs w !! pidFile S) = Some p ->
  proc_alive P (tick w) p = true ->
  start P S url w = (Return tt, advance 0 (EKill p Sig0) w).
Proof.
  intros Hh Hl Hp Ha. rewrite (start_loopback _ _ _ Hh Hl).
  assert (Hr : readable (fs w !! pidFile S)).
  { unfold readable. intros E. rewrite E in Hp. discriminate. }
  rewrite (bind_return _ _ _ _ _ (readPidFile_eq _ _ Hr)).
  rewrite truthy_recorded_pid, Hp.
  rewrite (bind_return _ _ _ _ _ (isProcessRunning_eq P _ _)).
  now rewrite Ha.
Qed.

(** C8. [ensureRunning] probes with the timeout [min(3000,
    requestTimeoutMs)].  When the probe succeeds it returns at once; when
    it fails and management is disabled it throws the management-disabled
    error; in both cases the world differs from the initial one by the
    probe alone (same files, one fetch logged).  When the probe fails and
    management is enabled it is [start], run after the probe. *)
Theorem ensureRunning_cases (url : string) (requestTimeoutMs : Z) (w : World) :
  let up := probe_ok P url (Z.min 3000 requestTimeoutMs) (tick w) in
  let w1 := after_probe P url (Z.min 3000 requestTimeoutMs) w in
  pingTranslationServer P url (Z.min 3000 requestTimeoutMs) w = (Return up, w1) /\
  fs w1 = fs w /\
  log w1 = EFetch (JS.replace_trailing_slashes url) (Z.min 3000 requestTimeoutMs)
           :: log w /\
  ensureRunning P S url requestTimeoutMs w =
    if up then (Return tt, w1)
    else if enabled S then start P S url w1
    else (Throw (JsError "Translation Server is unreachable and serverManagement.enabled is false."),
          w1).
Proof.
  intros up w1. split; [apply pingTranslationServer_eq|].
  split; [reflexivity|]. split; [reflexivity|].
  unfold ensureRunning.
  rewrite (bind_return _ _ _ _ _ (pingTranslationServer_eq P url _ w)).
  fold up w1. destruct up; [reflexivity|].
  destruct (enabled S); reflexivity.
Qed.

End StartChecks.

Lemma start_rejects_remote_host_witness :
  url_hostname (platform 100 silent) remote_url = Some "example.com"%string /\
  "example.com"%string <> "127.0.0.1"%string /\
  "example.com"%string <> "localhost"%string /\
  start (platform 100 silent) (config true) remote_url fresh
  = (Throw (JsError "Server management only supports localhost URLs. Got host: example.com"),
     fresh).
Proof.
  assert (H0 : url_hostname (platform 100 silent) remote_url
               = Some "example.com"%string) by reflexivity.
  assert (H1 : "example.com"%string <> "127.0.0.1"%string) by discriminate.
  assert (H2 : "example.com"%string <> "localhost"%string) by discriminate.
  split; [exact H0|]. split; [exact H1|]. split; [exact H2|].
  exact (start_rejects_remote_host (platform 100 silent) (config true)
           remote_url "example.com" fresh H0 H1 H2).
Defined.

(** ** [stop] *)

Section StopFacts.
Variable P : Platform.
Variable S : ServerManagementConfig.

Lemma stop_wait_eq fuel p deadline w :
  stop_wait P S fuel p deadline w =
    if now w <? deadline then
      match fuel with
      | O => (OutOfFuel, w)
      | Datatypes.S fuel' =>
          if proc_alive P (tick w) p
          then stop_wait P S fuel' p deadline (slept P 150 (checked p w))
          else (removePidFileIfExists (pidFile S) ;; ret true) (checked p w)
      end
    else (Return false, w).
Proof.
  destruct fuel as [|fuel']; cbn [stop_wait]; unfold bind at 1, Date_now;
    destruct (now w <? deadline); try reflexivity.
  rewrite (bind_return _ _ _ _ _ (isProcessRunning_eq P p w)).
  destruct (proc_alive P (tick w) p); reflexivity.
Qed.

(** Removing the record leaves none, or fails on a directory and changes
    nothing. *)
Lemma removePidFileIfExists_cases f w :
  exists r w' evs,
    removePidFileIfExists f w = (r, w') /\
    log w' = evs ++ log w /\ Forall kill_positive evs /\
    now w' = now w /\ tick w' = tick w /\
    match r with
    | Return _ => fs w' !! f = None
    | Throw _ => fs w' = fs w
    | OutOfFuel => False
    end.
Proof.
  destruct (fs w !! f) as [[raw|]|] eqn:Hf.
  - rewrite (removePidFileIfExists_file _ _ _ Hf).
    eexists _, _, [EUnlink f]. split; [reflexivity|].
    split; [reflexivity|]. split; [repeat constructor|].
    split; [reflexivity|]. split; [reflexivity|].
    simpl. apply lookup_delete_eq.
  - exists (Throw (SystemError "EISDIR" f)), w, [].
    unfold removePidFileIfExists, try_catch, unlink. rewrite Hf. simpl.
    repeat split; constructor.
  - rewrite (removePidFileIfExists_absent _ _ Hf).
    exists (Return tt), w, []. repeat split; try constructor. exact Hf.
Qed.

(** Any run of the grace loop, given fuel for the time left: it signals
    only [p]; it returns [true] with the record gone, or [false] with the
    files untouched and the deadline passed. *)
Lemma stop_wait_spec p deadline : 0 < p -> forall fuel w,
  deadline - now w <= Z.of_nat fuel ->
  exists r w' evs,
    stop_wait P S fuel p deadline w = (r, w') /\
    log w' = evs ++ log w /\ Forall kill_positive evs /\
    match r with
    | Return true => fs w' !! pidFile S = None
    | Return false => fs w' = fs w /\ deadline <= now w'
    | Throw _ => fs w' = fs w
    | OutOfFuel => False
    end.
Proof.
  intros Hp. induction fuel as [|fuel IH]; intros w Hfuel;
    rewrite stop_wait_eq; destruct (now w <? deadline) eqn:Hnow;
    try (apply Z.ltb_lt in Hnow; lia);
    try (apply Z.ltb_ge in Hnow; exists (Return false), w, [];
         repeat split; [constructor|assumption]).
  destruct (proc_alive P (tick w) p).
  - destruct (IH (slept P 150 (checked p w))) as (r & w' & evs & Hrun & Hlog & Hev & Hr).
    { apply Z.ltb_lt in Hnow. unfold slept, checked; simpl.
      unfold timer_delay; simpl. lia. }
    exists r, w', (evs ++ [ESleep 150; EKill p Sig0]).
    split; [exact Hrun|]. split; [rewrite Hlog, <- app_assoc; reflexivity|].
    split; [apply Forall_app; split; [exact Hev|repeat constructor; exact Hp]|].
    exact Hr.
  - destruct (removePidFileIfExists_cases (pidFile S) (checked p w))
      as (r & w' & evs & Hrun & Hlog & Hev & _ & _ & Hr).
    unfold bind. rewrite Hrun. destruct r as [[]|e|]; [| |contradiction].
    + exists (Return true), w', (evs ++ [EKill p Sig0]).
      split; [reflexivity|]. split; [rewrite Hlog, <- app_assoc; reflexivity|].
      split; [apply Forall_app; split; [exact Hev|repeat constructor; exact Hp]|].
      exact Hr.
    + exists (Throw e), w', (evs ++ [EKill p Sig0]).
      split; [reflexivity|]. split; [rewrite Hlog, <- app_assoc; reflexivity|].
      split; [apply Forall_app; split; [exact Hev|repeat constructor; exact Hp]|].
      exact Hr.
Qed.

Lemma process_kill_alive p sig w :
  proc_alive P (tick w) p = true ->
  process_kill P p sig w = (Return tt, advance 0 (EKill p sig) w).
Proof. intros H. unfold process_kill. now rewrite H. Qed.

Lemma process_kill_dead p sig w :
  proc_alive P (tick w) p = false ->
  process_kill P p sig w
  = (Throw (SystemError "ESRCH" ""), advance 0 (EKill p sig) w).
Proof. intros H. unfold process_kill. now rewrite H. Qed.

Lemma recorded_pid_file node p :
  recorded_pid node = Some p -> exists raw, node = Some (File raw).
Proof. destruct node as [[raw|]|]; try discriminate. eauto. Qed.

(** [stop] on a record that holds a pid. *)
Lemma stop_recorded w p :
  recorded_pid (fs w !! pidFile S) = Some p ->
  stop P S w =
    if proc_alive P (tick w) p then
      (process_kill P p SIGTERM ;;
       t <- Date_now ;;
       returned <- stop_wait P S (Z.to_nat 5000) p (t + 5000) ;;
       if returned then ret tt
       else process_kill P p SIGKILL ;; removePidFileIfExists (pidFile S))
        (checked p w)
    else (removePidFileIfExists (pidFile S) ;; ret tt) (checked p w).
Proof.
  intros Hp. unfold stop.
  assert (Hr : readable (fs w !! pidFile S)).
  { unfold readable. intros E. rewrite E in Hp. discriminate. }
  rewrite (bind_return _ _ _ _ _ (readPidFile_eq _ _ Hr)).
  rewrite truthy_recorded_pid, Hp.
  rewrite (bind_return _ _ _ _ _ (isProcessRunning_eq P _ _)).
  destruct (proc_alive P (tick w) p); reflexivity.
Qed.

(** [stop] without a record does nothing. *)
Lemma stop_no_record w :
  readable (fs w !! pidFile S) ->
  recorded_pid (fs w !! pidFile S) = None ->
  stop P S w = (Return tt, w).
Proof.
  intros Hr Hp. unfold stop.
  rewrite (bind_return _ _ _ _ _ (readPidFile_eq _ _ Hr)).
  now rewrite truthy_recorded_pid, Hp.
Qed.

(** Any run of [stop]: it ends, it signals only positive pids, and when it
    returns no record is left. *)
Lemma stop_spec w :
  exists r w' evs,
    stop P S w = (r, w') /\
    log w' = evs ++ log w /\ Forall kill_positive evs /\
    match r with
    | Return _ => recorded_pid (fs w' !! pidFile S) = None
    | Throw _ => True
    | OutOfFuel => False
    end.
Proof.
  destruct (fs w !! pidFile S) as [[raw|]|] eqn:Hf.
  2:{ exists (Throw (SystemError "EISDIR" (pidFile S))), w, [].
      unfold stop. rewrite (bind_throw _ _ _ _ _ (readPidFile_directory _ _ Hf)).
      repeat split. constructor. }
  2:{ exists (Return tt), w, []. rewrite stop_no_record.
      - repeat split; [constructor|]. now rewrite Hf.
      - unfold readable. rewrite Hf. discriminate.
      - now rewrite Hf. }
  destruct (recorded_pid (fs w !! pidFile S)) as [p|] eqn:Hp.
  2:{ exists (Return tt), w, []. rewrite stop_no_record.
      - repeat split; [constructor|exact Hp].
      - unfold readable. rewrite Hf. discriminate.
      - exact Hp. }
  pose proof (recorded_pid_positive _ _ Hp) as Hpos.
  rewrite (stop_recorded _ _ Hp).
  destruct (proc_alive P (tick w) p).
  - destruct (proc_alive P (tick (checked p w)) p) eqn:Ha1.
    2:{ rewrite (bind_throw _ _ _ _ _ (process_kill_dead p SIGTERM _ Ha1)).
        eexists _, _, [EKill p SIGTERM; EKill p Sig0]. split; [reflexivity|].
        split; [reflexivity|]. split; [repeat constructor; exact Hpos|exact I]. }
    rewrite (bind_return _ _ _ _ _ (process_kill_alive p SIGTERM _ Ha1)).
    unfold bind at 1, Date_now.
    set (w1 := advance 0 (EKill p SIGTERM) (checked p w)).
    destruct (stop_wait_spec p (now w1 + 5000) Hpos (Z.to_nat 5000) w1)
      as (r & w2 & evs & Hrun & Hlog & Hev & Hr); [lia|].
    unfold bind at 1. rewrite Hrun.
    destruct r as [[|]|e|]; [| | |contradiction].
    + exists (Return tt), w2, (evs ++ [EKill p SIGTERM; EKill p Sig0]).
      split; [reflexivity|]. split; [log_eq|].
      split; [apply Forall_app; split; [exact Hev|repeat constructor; exact Hpos]|].
      simpl. now rewrite Hr.
    + destruct (proc_alive P (tick w2) p) eqn:Ha2.
      * rewrite (bind_return _ _ _ _ _ (process_kill_alive p SIGKILL _ Ha2)).
        destruct (removePidFileIfExists_cases (pidFile S) (advance 0 (EKill p SIGKILL) w2))
          as (r & w3 & evs3 & Hrun3 & Hlog3 & Hev3 & _ & _ & Hr3).
        exists r, w3, (evs3 ++ EKill p SIGKILL :: evs ++ [EKill p SIGTERM; EKill p Sig0]).
        split; [exact Hrun3|].
        split; [log_eq|].
        split.
        { apply Forall_app; split; [exact Hev3|].
          constructor; [exact Hpos|].
          apply Forall_app; split; [exact Hev|repeat constructor; exact Hpos]. }
        destruct r as [[]|e|]; [|exact I|contradiction]. now rewrite Hr3.
      * rewrite (bind_throw _ _ _ _ _ (process_kill_dead p SIGKILL _ Ha2)).
        eexists _, _, (EKill p SIGKILL :: evs ++ [EKill p SIGTERM; EKill p Sig0]).
        split; [reflexivity|].
        split; [log_eq|].
        split; [|exact I].
        constructor; [exact Hpos|].
        apply Forall_app; split; [exact Hev|repeat constructor; exact Hpos].
    + exists (Throw e), w2, (evs ++ [EKill p SIGTERM; EKill p Sig0]).
      split; [reflexivity|]. split; [log_eq|].
      split; [apply Forall_app; split; [exact Hev|repeat constructor; exact Hpos]|exact I].
  - destruct (removePidFileIfExists_cases (pidFile S) (checked p w))
      as (r & w' & evs & Hrun & Hlog & Hev & _ & _ & Hr).
    unfold bind. rewrite Hrun.
    destruct r as [[]|e|]; [| |contradiction].
    + exists (Return tt), w', (evs ++ [EKill p Sig0]).
      split; [reflexivity|]. split; [log_eq|].
      split; [apply Forall_app; split; [exact Hev|repeat constructor; exact Hpos]|].
      now rewrite Hr.
    + exists (Throw e), w', (evs ++ [EKill p Sig0]).
      split; [reflexivity|]. split; [log_eq|].
      split; [apply Forall_app; split; [exact Hev|repeat constructor; exact Hpos]|exact I].
Qed.

(** C10. [readPidFile] yields a pid only from a file whose trimmed content
    is a number that is an integer and greater than zero, and that pid is
    positive; the contents 0, -5, the empty text, abc and 1.5 yield none.
    Hence every signal that a run of [stop] adds to the log (the liveness
    checks, SIGTERM and SIGKILL) goes to a pid greater than zero. *)
Theorem stop_signals_positive_pids_only (w : World) :
  (forall f,
     match fst (readPidFile f w) with
     | Return (Some p) =>
         0 < p /\
         exists raw, fs w !! f = Some (File raw) /\
           JS.isInteger (JS.Number (JS.trim raw)) = true /\
           JS.le_zero (JS.Number (JS.trim raw)) = false /\
           JS.to_Z (JS.Number (JS.trim raw)) = p
     | _ => True
     end) /\
  Forall (fun raw => recorded_pid (Some (File raw)) = None)
         ["0"; "-5"; ""; "abc"; "1.5"]%string /\
  exists evs,
    log (snd (stop P S w)) = evs ++ log w /\ Forall kill_positive evs.
Proof.
  split; [|split].
  - intros f. destruct (fs w !! f) as [[raw|]|] eqn:Hf.
    + assert (Hr : readable (fs w !! f)) by (unfold readable; rewrite Hf; discriminate).
      rewrite (readPidFile_eq _ _ Hr). simpl.
      destruct (recorded_pid (fs w !! f)) as [p|] eqn:Hp; [|exact I].
      split; [eapply recorded_pid_positive, Hp|].
      exists raw. split; [reflexivity|].
      rewrite Hf in Hp. unfold recorded_pid in Hp.
      destruct (negb _ || _) eqn:E; [discriminate|].
      apply orb_false_iff in E as [E1 E2]. apply negb_false_iff in E1.
      injection Hp as <-. auto.
    + rewrite (readPidFile_directory _ _ Hf). exact I.
    + assert (Hr : readable (fs w !! f)) by (unfold readable; rewrite Hf; discriminate).
      rewrite (readPidFile_eq _ _ Hr). simpl. rewrite Hf. exact I.
  - repeat constructor.
  - destruct (stop_spec w) as (r & w' & evs & Hrun & Hlog & Hev & _).
    exists evs. rewrite Hrun. auto.
Qed.

End StopFacts.

(** ** The grace loop of [stop], turn by turn *)

Section GraceTurns.
Variable P : Platform.
Variable S : ServerManagementConfig.

(** What a turn that stays in the loop is. *)
Lemma wait_turn_inv p deadline w w' :
  wait_turn P p deadline w w' ->
  now w < deadline /\ proc_alive P (tick w) p = true /\
  w' = slept P 150 (checked p w).
Proof.
  intros [w0 w1 w2 Hnow Halive Hsleep].
  rewrite isProcessRunning_eq in Halive. injection Halive as Ha <-.
  unfold sleep in Hsleep. injection Hsleep as <-. auto.
Qed.

Lemma wait_turn_intro p deadline w :
  now w < deadline -> proc_alive P (tick w) p = true ->
  wait_turn P p deadline w (slept P 150 (checked p w)).
Proof.
  intros Hnow Ha. eapply WaitTurn; [exact Hnow| |reflexivity].
  rewrite isProcessRunning_eq, Ha. reflexivity.
Qed.

Lemma stop_wait_turn fuel p deadline w w' :
  wait_turn P p deadline w w' ->
  stop_wait P S (Datatypes.S fuel) p deadline w
  = stop_wait P S fuel p deadline w'.
Proof.
  intros H. apply wait_turn_inv in H as (Hnow & Ha & ->).
  rewrite stop_wait_eq. apply Z.ltb_lt in Hnow. now rewrite Hnow, Ha.
Qed.

Lemma now_checked p w : now (checked p w) = now w.
Proof. unfold checked. simpl. lia. Qed.

Lemma now_signalled p w : now (signalled p w) = now w.
Proof. unfold signalled, checked. simpl. lia. Qed.

Lemma slept_150_clock p w : now w + 150 <= now (slept P 150 (checked p w)).
Proof. unfold slept, checked. simpl. unfold timer_delay. simpl. lia. Qed.

(** After [k] turns the loop has used [k] of its fuel, the clock has
    gained at least 150 ms a turn, no file has changed, and the log has
    gained [k] checks and [k] sleeps. *)
Lemma wait_turns p deadline w1 w :
  rtc (wait_turn P p deadline) w1 w ->
  exists (k : nat) mid,
    now w1 + 150 * Z.of_nat k <= now w /\
    fs w = fs w1 /\
    log w = mid ++ log w1 /\
    Forall (fun ev => ev = ESleep 150 \/ ev = EKill p Sig0) mid /\
    sleeps mid = k /\
    forall fuel,
      stop_wait P S (k + fuel) p deadline w1 = stop_wait P S fuel p deadline w.
Proof.
  induction 1 as [w|w1 w2 w3 Hturn _ (k & mid & Hnow & Hfs & Hlog & Hmid & Hk & Hrun)].
  - exists 0%nat, []. repeat split; try reflexivity; [lia|constructor].
  - pose proof (stop_wait_turn) as Hstep.
    specialize (fun fuel => Hstep fuel _ _ _ _ Hturn).
    apply wait_turn_inv in Hturn as (_ & _ & ->).
    pose proof (slept_150_clock p w1) as Hc.
    exists (Datatypes.S k), (mid ++ [ESleep 150; EKill p Sig0]).
    split; [lia|]. split; [rewrite Hfs; reflexivity|].
    split; [rewrite Hlog, <- List.app_assoc; reflexivity|].
    split.
    { apply Forall_app; split; [exact Hmid|].
      constructor; [now left|]. constructor; [now right|constructor]. }
    split.
    { unfold sleeps in *. rewrite filter_app, length_app, Hk. simpl. lia. }
    intros fuel. cbn [Nat.add]. rewrite Hstep. apply Hrun.
Qed.

(** The fuel [stop] gives its loop lasts to any turn before the deadline. *)
Lemma wait_fuel_left p deadline w1 w :
  rtc (wait_turn P p deadline) w1 w ->
  now w < deadline ->
  deadline <= now w1 + 5000 ->
  exists fuel,
    stop_wait P S (Z.to_nat 5000) p deadline w1
    = stop_wait P S (Datatypes.S fuel) p deadline w.
Proof.
  intros Hturns Hnow Hd.
  destruct (wait_turns _ _ _ _ Hturns) as (k & mid & Hk & _ & _ & _ & _ & Hrun).
  exists (Z.to_nat 5000 - Datatypes.S k)%nat.
  rewrite <- Hrun. f_equal. lia.
Qed.

(** A turn of the grace loop that finds the process dead removes the
    record and ends [stop]. *)
Lemma stop_wait_dead fuel p deadline w raw :
  now w < deadline ->
  proc_alive P (tick w) p = false ->
  fs w !! pidFile S = Some (File raw) ->
  stop_wait P S (Datatypes.S fuel) p deadline w
  = (Return true,
     set_fs (delete (pidFile S) (fs w)) (EUnlink (pidFile S)) (checked p w)).
Proof.
  intros Hnow Hdead Hf. rewrite stop_wait_eq.
  apply Z.ltb_lt in Hnow. rewrite Hnow, Hdead.
  rewrite (bind_return _ _ _ _ _
             (removePidFileIfExists_file (pidFile S) (checked p w) raw Hf)).
  reflexivity.
Qed.

(** [stop] up to its grace loop, when the process is there for the first
    check and for SIGTERM. *)
Lemma stop_signalled w p :
  recorded_pid (fs w !! pidFile S) = Some p ->
  proc_alive P (tick w) p = true ->
  proc_alive P (tick (checked p w)) p = true ->
  stop P S w =
    (returned <- stop_wait P S (Z.to_nat 5000) p (now w + 5000) ;;
     if returned then ret tt
     else process_kill P p SIGKILL ;; removePidFileIfExists (pidFile S))
      (signalled p w).
Proof.
  intros Hp Ha Ha1. rewrite (stop_recorded _ _ _ _ Hp), Ha.
  rewrite (bind_return _ _ _ _ _ (process_kill_alive P p SIGTERM _ Ha1)).
  unfold bind at 1, Date_now. fold (signalled p w).
  rewrite now_signalled. reflexivity.
Qed.

(** [stop] when a turn of the grace loop finds the process dead. *)
Lemma stop_dead_in_grace w p wk :
  recorded_pid (fs w !! pidFile S) = Some p ->
  proc_alive P (tick w) p = true ->
  proc_alive P (tick (checked p w)) p = true ->
  rtc (wait_turn P p (now w + 5000)) (signalled p w) wk ->
  now wk < now w + 5000 ->
  proc_alive P (tick wk) p = false ->
  stop P S w
  = (Return tt,
     set_fs (delete (pidFile S) (fs w)) (EUnlink (pidFile S)) (checked p wk)).
Proof.
  intros Hp Ha Ha1 Hturns Hnow Hdead.
  destruct (recorded_pid_file _ _ Hp) as [raw Hraw].
  rewrite (stop_signalled _ _ Hp Ha Ha1).
  destruct (wait_turns _ _ _ _ Hturns) as (_ & _ & _ & Hfs & _).
  change (fs (signalled p w)) with (fs w) in Hfs.
  destruct (wait_fuel_left p _ (signalled p w) wk Hturns Hnow) as [fuel Hfuel];
    [rewrite now_signalled; lia|].
  assert (Hf : fs wk !! pidFile S = Some (File raw)) by (rewrite Hfs; exact Hraw).
  rewrite (stop_wait_dead fuel p _ wk raw Hnow Hdead Hf) in Hfuel.
  rewrite (bind_return _ _ _ _ _ Hfuel), Hfs. reflexivity.
Qed.



End GraceTurns.



(** ** The record written by [start] reads back *)

Section RoundTrip.

Lemma decimal_digit_code c :
  is_decimal_digit c = true -> 48 <= Z.of_N (N_of_ascii c) <= 57.
Proof. unfold is_decimal_digit. intros H. apply andb_true_iff in H. lia. Qed.

Lemma decimal_digit_not_space c :
  is_decimal_digit c = true -> JS.is_white_space c = false.
Proof.
  intros H. apply decimal_digit_code in H. unfold JS.is_white_space.
  repeat (apply orb_false_iff; split); try apply andb_false_iff; lia.
Qed.

Lemma decimal_digit_value c :
  is_decimal_digit c = true ->
  JS.digit_value 10 c = Some (Z.of_N (N_of_ascii c) - 48).
Proof.
  intros H. unfold JS.digit_value. unfold is_decimal_digit in H. rewrite H.
  apply decimal_digit_code in H.
  destruct (_ <? 10) eqn:E; [reflexivity|lia].
Qed.

Lemma decimal_digit_neq c c' :
  is_decimal_digit c = true -> is_decimal_digit c' = false ->
  Ascii.eqb c c' = false.
Proof.
  intros H H'. destruct (Ascii.eqb_spec c c') as [->|]; congruence.
Qed.

Lemma scan_all_decimal d : forall acc cnt,
  all_decimal d = true ->
  JS.scan_digits 10 acc cnt d
  = (decimal_value acc d, cnt + Z.of_nat (String.length d), EmptyString).
Proof.
  induction d as [|c d IH]; intros acc cnt H; simpl in *.
  - f_equal. f_equal. lia.
  - apply andb_true_iff in H as [Hc Hd].
    rewrite (decimal_digit_value _ Hc), (IH _ _ Hd).
    f_equal. f_equal. lia.
Qed.

Lemma trim_end_decimal d :
  all_decimal d = true -> JS.trim_end (d ++ lf) = d /\ JS.trim_end d = d.
Proof.
  induction d as [|c d IH]; intros H; [split; reflexivity|].
  change (String c d ++ lf)%string with (String c (d ++ lf)).
  simpl in *.
  apply andb_true_iff in H as [Hc Hd].
  destruct (IH Hd) as [-> ->].
  now rewrite (decimal_digit_not_space _ Hc).
Qed.

Lemma trim_decimal d :
  all_decimal d = true -> d <> EmptyString ->
  JS.trim (d ++ lf) = d /\ JS.trim d = d.
Proof.
  intros H Hne. destruct d as [|c d]; [congruence|].
  unfold JS.trim. simpl in H. apply andb_true_iff in H as [Hc Hd].
  change (String c d ++ lf)%string with (String c (d ++ lf)).
  simpl JS.trim_start. rewrite (decimal_digit_not_space _ Hc).
  apply (trim_end_decimal (String c d)). simpl. now rewrite Hc, Hd.
Qed.

(** An integer below [2^53] is a double. *)
Lemma round_small_integer p :
  0 < p < 2 ^ 53 ->
  exists m e,
    JS.round_to_double false p 1 = JS.Fin false m e /\
    e <= 0 /\ m = p * 2 ^ (- e).
Proof.
  intros Hp. unfold JS.round_to_double.
  destruct (p =? 0) eqn:E0; [lia|]. cbv zeta.
  pose proof (Z.log2_spec p ltac:(lia)) as [Hlo Hhi].
  pose proof (Z.log2_nonneg p) as Ha.
  assert (Ha52 : Z.log2 p <= 52).
  { destruct (Z.le_gt_cases (Z.log2 p) 52) as [|Hgt]; [assumption|].
    assert (2 ^ 53 <= 2 ^ Z.log2 p) by (apply Z.pow_le_mono_r; lia). lia. }
  change (Z.log2 1) with 0. rewrite Z.sub_0_r.
  destruct (0 <=? Z.log2 p) eqn:E1; [|lia].
  destruct (p <? 1 * 2 ^ Z.log2 p) eqn:E2; [lia|].
  rewrite Z.max_l by lia.
  destruct (0 <=? Z.log2 p - 52) eqn:E3.
  - assert (Hex : Z.log2 p - 52 = 0) by lia. rewrite Hex.
    change (1 * 2 ^ 0) with 1. rewrite Z.div_1_r, Z.mod_1_r.
    simpl (2 * 0 <? 1). cbv iota.
    destruct (_ || _) eqn:Eo.
    { apply orb_true_iff in Eo as [Eo|Eo]; [discriminate|].
      apply andb_true_iff in Eo as [Eo _]. discriminate. }
    exists p, 0. repeat split; [lia|]. change (- 0) with 0. lia.
  - rewrite Z.div_1_r, Z.mod_1_r.
    simpl (2 * 0 <? 1). cbv iota.
    destruct (_ || _) eqn:Eo.
    { apply orb_true_iff in Eo as [Eo|Eo]; [lia|].
      apply andb_true_iff in Eo as [Eo _]. lia. }
    exists (p * 2 ^ (- (Z.log2 p - 52))), (Z.log2 p - 52).
    repeat split. lia.
Qed.

(** The test of [readPidFile] on such a double. *)
Lemma small_integer_accepted p x :
  0 < p ->
  (exists m e, x = JS.Fin false m e /\ e <= 0 /\ m = p * 2 ^ (- e)) ->
  negb (JS.isInteger x) || JS.le_zero x = false /\ JS.to_Z x = p.
Proof.
  intros Hp (m & e & -> & He & ->).
  assert (Hpow : 0 < 2 ^ (- e)) by (apply Z.pow_pos_nonneg; lia).
  simpl. destruct (0 <=? e) eqn:E.
  - assert (e = 0) by lia. subst e. change (- 0) with 0.
    change (2 ^ 0) with 1. rewrite !Z.mul_1_r.
    destruct (p =? 0) eqn:E0; [lia|]. auto.
  - rewrite Z.mod_mul by lia. rewrite Z.div_mul by lia.
    destruct (p * 2 ^ (- e) =? 0) eqn:E0; [nia|]. auto.
Qed.

(** [Number] on a string of decimal digits. *)
Lemma Number_decimal d :
  all_decimal d = true -> d <> EmptyString ->
  JS.Number d = JS.round_to_double false (decimal_value 0 d) 1.
Proof.
  intros Hd Hne. unfold JS.Number. cbv zeta.
  rewrite (proj2 (trim_decimal d Hd Hne)).
  destruct d as [|c d]; [congruence|]. clear Hne.
  change (String.eqb (String c d) "") with false. cbv iota.
  pose proof Hd as Hcd. simpl in Hcd. apply andb_true_iff in Hcd as [Hc Hrest].
  assert (Hradix : JS.radix_prefix (String c d) = None).
  { unfold JS.radix_prefix, JS.after_char.
    destruct (Ascii.eqb c "0"); [|reflexivity].
    destruct d as [|c' d']; [reflexivity|].
    simpl in Hrest. apply andb_true_iff in Hrest as [Hc' _].
    rewrite !(decimal_digit_neq c') by (assumption || reflexivity).
    reflexivity. }
  rewrite Hradix.
  assert (Hsign : JS.parse_sign (String c d) = (false, String c d)).
  { unfold JS.parse_sign, JS.after_char.
    rewrite !(decimal_digit_neq c) by (assumption || reflexivity).
    reflexivity. }
  rewrite Hsign. unfold JS.parse_unsigned_decimal.
  assert (Hinf : String.eqb (String c d) "Infinity" = false).
  { destruct (String.eqb_spec (String c d) "Infinity") as [E|]; [|reflexivity].
    rewrite E in Hd. discriminate. }
  rewrite Hinf, (scan_all_decimal _ 0 0 Hd).
  change (JS.after_char "." "") with (@None string). cbv iota beta.
  destruct (0 <? _) eqn:E;
    [|apply Z.ltb_ge in E; cbn [String.length] in E; lia].
  simpl JS.parse_exponent. cbv iota.
  unfold JS.decimal_to_double.
  rewrite Z.sub_0_r. simpl (0 <=? 0). cbv iota.
  change (10 ^ 0) with 1. now rewrite Z.mul_1_r.
Qed.

Lemma append_cons x (a b : string) :
  (String x a ++ b)%string = String x (a ++ b).
Proof. reflexivity. Qed.

Lemma string_app_assoc (a b c : string) :
  ((a ++ b) ++ c = a ++ (b ++ c))%string.
Proof.
  induction a as [|x a IH]; [reflexivity|].
  rewrite !append_cons. f_equal. exact IH.
Qed.

Lemma all_decimal_app a b :
  all_decimal (a ++ b) = all_decimal a && all_decimal b.
Proof.
  induction a as [|x a IH]; [reflexivity|].
  rewrite append_cons. simpl. now rewrite IH, andb_assoc.
Qed.

Lemma decimal_value_app a b : forall acc,
  decimal_value acc (a ++ b) = decimal_value (decimal_value acc a) b.
Proof.
  induction a as [|x a IH]; intros acc; [reflexivity|].
  rewrite append_cons. simpl. apply IH.
Qed.

Lemma pretty_N_char_digit y :
  (y < 10)%N ->
  is_decimal_digit (pretty_N_char y) = true /\
  Z.of_N (N_of_ascii (pretty_N_char y)) - 48 = Z.of_N y.
Proof.
  intros H.
  assert (y = 0 \/ y = 1 \/ y = 2 \/ y = 3 \/ y = 4 \/ y = 5 \/ y = 6
          \/ y = 7 \/ y = 8 \/ y = 9)%N as Hy by lia.
  repeat destruct Hy as [->|Hy]; try subst y; split; reflexivity.
Qed.

(** The digits stdpp prints are decimal digits with the number's value. *)
Lemma pretty_N_go_decimal x : forall s,
  exists d,
    pretty_N_go x s = (d ++ s)%string /\
    all_decimal d = true /\
    decimal_value 0 d = Z.of_N x /\
    (x <> 0%N -> d <> EmptyString).
Proof.
  induction (N.lt_wf_0 x) as [x _ IH]. intros s.
  destruct (N.eq_dec x 0%N) as [->|Hx].
  - exists EmptyString. rewrite pretty_N_go_0. repeat split. congruence.
  - rewrite pretty_N_go_step by lia.
    destruct (IH (x `div` 10)%N ltac:(apply N.div_lt; lia)
                 (String (pretty_N_char (x `mod` 10)) s))
      as (d & Hgo & Hall & Hval & _).
    destruct (pretty_N_char_digit (x `mod` 10)%N) as [Hdig Hcode];
      [apply N.mod_lt; lia|].
    exists (d ++ String (pretty_N_char (x `mod` 10)) EmptyString)%string.
    split; [rewrite Hgo, string_app_assoc; reflexivity|].
    split; [rewrite all_decimal_app, Hall; simpl; now rewrite Hdig|].
    split.
    + rewrite decimal_value_app, Hval. simpl. rewrite Hcode.
      rewrite (N.div_mod x 10) at 3 by lia. lia.
    + intros _. destruct d; discriminate.
Qed.

Lemma toString_decimal p :
  0 < p ->
  exists d,
    JS.toString p = d /\ all_decimal d = true /\
    decimal_value 0 d = p /\ d <> EmptyString.
Proof.
  intros Hp. destruct p as [|q|q]; try lia.
  destruct (pretty_N_go_decimal (N.pos q) EmptyString) as (d & Hgo & Hall & Hval & Hne).
  exists d. split; [|split; [exact Hall|split; [exact Hval|apply Hne; lia]]].
  unfold JS.toString, pretty, pretty_Z, pretty, pretty_positive, pretty, pretty_N.
  destruct (decide (N.pos q = 0%N)); [lia|].
  rewrite Hgo. clear.
  induction d as [|x d IH]; [reflexivity|]. rewrite append_cons. now f_equal.
Qed.

(** The record [start] writes for a child pid below [2^53] holds that
    pid. *)
Lemma written_record_reads_back p :
  0 < p < 2 ^ 53 ->
  recorded_pid (Some (File (pid_text (Some p) ++ lf))) = Some p.
Proof.
  intros Hp. unfold recorded_pid, pid_text.
  destruct (toString_decimal p ltac:(lia)) as (d & -> & Hall & Hval & Hne).
  rewrite (proj1 (trim_decimal d Hall Hne)), (Number_decimal d Hall Hne), Hval.
  destruct (small_integer_accepted p _ ltac:(lia) (round_small_integer p Hp))
    as [-> ->].
  reflexivity.
Qed.

End RoundTrip.

(** ** [start]: the launch and the poll loop *)

Section StartFacts.
Variable P : Platform.
Variable S : ServerManagementConfig.
Variable url : string.
Variable childPid : option Z.

Lemma start_poll_eq fuel deadline w :
  start_poll P S fuel url childPid deadline w =
    if now w <? deadline then
      match fuel with
      | O => (OutOfFuel, w)
      | Datatypes.S fuel' =>
          if probe_ok P url 1500 (tick w)
          then (Return tt, after_probe P url 1500 w)
          else if proc_alive P (tick (after_probe P url 1500 w)) (default (-1) childPid)
          then start_poll P S fuel' url childPid deadline
                 (slept P (pollIntervalMs S) (checked (default (-1) childPid) (after_probe P url 1500 w)))
          else (removePidFileIfExists (pidFile S) ;; throw (exited_early S))
                 (checked (default (-1) childPid) (after_probe P url 1500 w))
      end
    else (Throw (timed_out S), w).
Proof.
  destruct fuel as [|fuel']; cbn [start_poll]; unfold bind at 1, Date_now;
    destruct (now w <? deadline); try reflexivity.
  rewrite (bind_return _ _ _ _ _ (pingTranslationServer_eq P url 1500 w)).
  destruct (probe_ok P url 1500 (tick w)); [reflexivity|].
  rewrite (bind_return _ _ _ _ _ (isProcessRunning_eq P _ _)).
  destruct (proc_alive P _ (default (-1) childPid)); reflexivity.
Qed.

Lemma timer_delay_pos ms : 1 <= timer_delay ms.
Proof.
  unfold timer_delay. destruct (ms <? 1) eqn:E; simpl; [lia|].
  destruct (2147483647 <? ms); lia.
Qed.

Lemma probe_time_nonneg u t n : 0 <= probe_time P u t n.
Proof.
  unfold probe_time. pose proof (timer_delay_pos t).
  destruct (http_get P n _) as [st l|l|];
    try destruct (l <? timer_delay t); lia.
Qed.

(** What a turn that stays in the loop is. *)
Lemma poll_turn_inv deadline w w' :
  poll_turn P S url childPid deadline w w' ->
  now w < deadline /\
  probe_ok P url 1500 (tick w) = false /\
  proc_alive P (tick (after_probe P url 1500 w)) (default (-1) childPid) = true /\
  w' = slept P (pollIntervalMs S) (checked (default (-1) childPid) (after_probe P url 1500 w)).
Proof.
  intros [w0 w1 w2 w3 Hnow Hping Halive Hsleep].
  rewrite pingTranslationServer_eq in Hping. injection Hping as Hok <-.
  rewrite isProcessRunning_eq in Halive. injection Halive as Ha <-.
  unfold sleep in Hsleep. injection Hsleep as <-. auto.
Qed.

Lemma poll_turn_frame deadline w w' :
  poll_turn P S url childPid deadline w w' ->
  now w + 1 <= now w' /\ fs w' = fs w /\
  spawns (log w') = spawns (log w) /\ (tick w <= tick w')%nat.
Proof.
  intros H. apply poll_turn_inv in H as (_ & _ & _ & ->).
  pose proof (probe_time_nonneg url 1500 (tick w)).
  pose proof (timer_delay_pos (pollIntervalMs S)).
  unfold slept, checked, after_probe; simpl. repeat split; lia.
Qed.

Lemma start_poll_turn fuel deadline w w' :
  poll_turn P S url childPid deadline w w' ->
  start_poll P S (Datatypes.S fuel) url childPid deadline w
  = start_poll P S fuel url childPid deadline w'.
Proof.
  intros H. apply poll_turn_inv in H as (Hnow & Hok & Ha & ->).
  rewrite start_poll_eq. apply Z.ltb_lt in Hnow. now rewrite Hnow, Hok, Ha.
Qed.

(** After some turns the loop has used as much fuel as turns, the clock
    has gained at least a millisecond a turn, and no file has changed. *)
Lemma poll_turns deadline w1 w :
  rtc (poll_turn P S url childPid deadline) w1 w ->
  exists k : nat,
    now w1 + Z.of_nat k <= now w /\
    fs w = fs w1 /\
    spawns (log w) = spawns (log w1) /\
    forall fuel,
      start_poll P S (k + fuel) url childPid deadline w1
      = start_poll P S fuel url childPid deadline w.
Proof.
  induction 1 as [w|w1 w2 w3 Hturn _ (k & Hnow & Hfs & Hsp & Hrun)].
  - exists 0%nat. repeat split; try reflexivity; lia.
  - destruct (poll_turn_frame _ _ _ Hturn) as (Hn & Hf & Hs & _).
    exists (Datatypes.S k). split; [lia|]. split; [congruence|].
    split; [congruence|]. intros fuel. cbn [Nat.add].
    rewrite (start_poll_turn _ _ _ _ Hturn). apply Hrun.
Qed.

(** The fuel [start] gives its loop lasts to any turn before the deadline. *)
Lemma poll_fuel_left w1 w :
  rtc (poll_turn P S url childPid (now w1 + startupTimeoutMs S)) w1 w ->
  now w < now w1 + startupTimeoutMs S ->
  exists fuel,
    start_poll P S (Z.to_nat (startupTimeoutMs S)) url childPid
      (now w1 + startupTimeoutMs S) w1
    = start_poll P S (Datatypes.S fuel) url childPid
        (now w1 + startupTimeoutMs S) w /\
    fs w = fs w1.
Proof.
  intros Hturns Hnow.
  destruct (poll_turns _ _ _ Hturns) as (k & Hk & Hfs & _ & Hrun).
  exists (Z.to_nat (startupTimeoutMs S) - Datatypes.S k)%nat.
  split; [|exact Hfs]. rewrite <- Hrun. f_equal. lia.
Qed.

(** The steps of the launch, when they return. *)
Lemma access_returns path h w w' :
  try_catch (access path) h w = (Return tt, w') ->
  (forall e w0, fst (h e w0) <> Return tt) -> w' = w.
Proof.
  unfold try_catch, access. destruct (fs w !! path).
  - now intros [= <-].
  - intros H Hh. exfalso. eapply Hh. rewrite H. reflexivity.
Qed.

Lemma mkdir_returns path w w' :
  mkdir path w = (Return tt, w') ->
  now w' = now w /\ tick w' = tick w /\ spawns (log w') = spawns (log w).
Proof.
  unfold mkdir. destruct (fs w !! path) as [[c|]|];
    [discriminate| |]; intros [= <-]; auto.
Qed.

Lemma openSync_returns path w out w' :
  openSync P path w = (Return out, w') ->
  now w' = now w /\ tick w' = tick w /\ spawns (log w') = spawns (log w).
Proof.
  unfold openSync. destruct (fs w !! path) as [[c|]|]; [|discriminate|].
  - intros [= <- <-]; auto.
  - destruct (parent_exists P path w); [|discriminate]. intros [= <- <-]; auto.
Qed.

Lemma spawn_returns command args cwd out w cp w' :
  spawn P command args cwd out w = (Return cp, w') ->
  cp = spawn_pid P (tick w) /\ now w' = now w /\
  spawns (log w') = Datatypes.S (spawns (log w)).
Proof.
  unfold spawn. destruct (String.eqb command ""); [discriminate|].
  intros [= <- <-]. repeat split. simpl. lia.
Qed.

Lemma writeFile_returns path content w w' :
  writeFile P path content w = (Return tt, w') ->
  fs w' !! path = Some (File content) /\ now w' = now w /\
  spawns (log w') = spawns (log w).
Proof.
  unfold writeFile. destruct (fs w !! path) as [[c|]|]; [|discriminate|].
  - intros [= <-]. simpl. rewrite lookup_insert_eq. auto.
  - destruct (parent_exists P path w); [|discriminate].
    intros [= <-]. simpl. rewrite lookup_insert_eq. auto.
Qed.

(** A launch that returns has spawned one process and left its pid in the
    record. *)
Lemma launch_returns wa w1 :
  launch P S wa = (Return childPid, w1) ->
  fs w1 !! pidFile S = Some (File (pid_text childPid ++ lf)) /\
  (exists n, childPid = spawn_pid P n) /\
  now w1 = now wa /\
  spawns (log w1) = Datatypes.S (spawns (log wa)).
Proof.
  unfold launch. destruct (String.eqb _ _ || _); [discriminate|].
  cbv zeta. intros H.
  unfold bind at 1 in H.
  destruct (try_catch _ _ wa) as [[[]|e|] w2] eqn:H2; try discriminate.
  apply access_returns in H2; [|intros e w0; discriminate]. subst w2.
  unfold bind at 1 in H.
  destruct (mkdir _ wa) as [[[]|e|] w3] eqn:H3; try discriminate.
  apply mkdir_returns in H3 as (Hn3 & _ & Hs3).
  unfold bind at 1 in H.
  destruct (mkdir _ w3) as [[[]|e|] w4] eqn:H4; try discriminate.
  apply mkdir_returns in H4 as (Hn4 & _ & Hs4).
  unfold bind at 1 in H.
  destruct (openSync _ _ w4) as [[out|e|] w5] eqn:H5; try discriminate.
  apply openSync_returns in H5 as (Hn5 & _ & Hs5).
  unfold bind at 1 in H.
  destruct (spawn _ _ _ _ _ w5) as [[cp|e|] w6] eqn:H6; try discriminate.
  apply spawn_returns in H6 as (Hcp & Hn6 & Hs6).
  unfold bind at 1 in H.
  destruct (writeFile _ _ _ w6) as [[[]|e|] w7] eqn:H7; try discriminate.
  apply writeFile_returns in H7 as (Hf7 & Hn7 & Hs7).
  injection H as -> ->.
  split; [exact Hf7|]. split; [eauto|]. split; lia.
Qed.

(** Once launched, [start] is its poll loop. *)
Lemma start_launched w0 w1 :
  launches P S url w0 childPid w1 ->
  start P S url w0
  = start_poll P S (Z.to_nat (startupTimeoutMs S)) url childPid
      (now w1 + startupTimeoutMs S) w1.
Proof.
  intros (host & cur & wr & wa & Hhost & Hloop & Hread & Halive & Hlaunch).
  unfold parseHost in Hhost.
  destruct (url_hostname P url) as [h|] eqn:Hh; [|discriminate].
  injection Hhost as ->.
  rewrite (start_loopback _ _ _ _ _ Hh Hloop).
  rewrite (bind_return _ _ _ _ _ Hread).
  assert (Hcheck : match truthy cur with
                   | Some p => isProcessRunning P p
                   | None => ret false
                   end wr = (Return false, wa)).
  { destruct (truthy cur); exact Halive. }
  rewrite (bind_return _ _ _ _ _ Hcheck).
  rewrite (bind_return _ _ _ _ _ Hlaunch). reflexivity.
Qed.

(** One turn on which the endpoint is down and the child is dead. *)
Lemma start_poll_child_dead fuel deadline w raw :
  now w < deadline ->
  probe_ok P url 1500 (tick w) = false ->
  proc_alive P (tick (after_probe P url 1500 w)) (default (-1) childPid) = false ->
  fs w !! pidFile S = Some (File raw) ->
  start_poll P S (Datatypes.S fuel) url childPid deadline w
  = (Throw (exited_early S),
     set_fs (delete (pidFile S) (fs w)) (EUnlink (pidFile S))
       (checked (default (-1) childPid) (after_probe P url 1500 w))).
Proof.
  intros Hnow Hok Hdead Hf. rewrite start_poll_eq.
  apply Z.ltb_lt in Hnow. rewrite Hnow, Hok, Hdead.
  rewrite (bind_return _ _ _ _ _
             (removePidFileIfExists_file (pidFile S)
                (checked (default (-1) childPid) (after_probe P url 1500 w))
                raw Hf)).
  reflexivity.
Qed.

(** C5. At any turn of the poll loop of [start] (after any number of
    turns that stayed in the loop, the deadline still ahead): when the
    probe fails and the launched pid is found dead, [start] removes the
    record and then throws the exited-early error; reading the record
    afterwards yields none. *)
Theorem start_exits_early (w0 w1 w wp wc : World) :
  launches P S url w0 childPid w1 ->
  rtc (poll_turn P S url childPid (now w1 + startupTimeoutMs S)) w1 w ->
  now w < now w1 + startupTimeoutMs S ->
  pingTranslationServer P url 1500 w = (Return false, wp) ->
  isProcessRunning P (default (-1) childPid) wp = (Return false, wc) ->
  exists w',
    start P S url w0 = (Throw (exited_early S), w') /\
    fs w' = delete (pidFile S) (fs w1) /\
    log w' = EUnlink (pidFile S) :: log wc /\
    fs w' !! pidFile S = None /\
    readPidFile (pidFile S) w' = (Return None, w').
Proof.
  intros Hl Hturns Hnow Hping Hdead.
  rewrite (start_launched _ _ Hl).
  destruct Hl as (_ & _ & _ & wa & _ & _ & _ & _ & Hlaunch).
  apply launch_returns in Hlaunch as (Hrec & _).
  destruct (poll_fuel_left _ _ Hturns Hnow) as (fuel & -> & Hfs).
  rewrite pingTranslationServer_eq in Hping. injection Hping as Hok <-.
  rewrite isProcessRunning_eq in Hdead. injection Hdead as Hd <-.
  erewrite start_poll_child_dead; try eassumption; [|rewrite Hfs; exact Hrec].
  eexists. split; [reflexivity|].
  assert (Hnone : delete (pidFile S) (fs w) !! pidFile S = None)
    by apply lookup_delete_eq.
  split; [simpl; now rewrite Hfs|]. split; [reflexivity|].
  split; [exact Hnone|].
  rewrite readPidFile_eq; simpl; rewrite Hnone; [reflexivity|discriminate].
Qed.

(** The loop from a turn on, when every turn finds the endpoint down and
    the child alive: it ends by the timeout, files untouched. *)
Lemma start_poll_times_out deadline w1 :
  (forall w, rtc (poll_turn P S url childPid deadline) w1 w ->
             now w < deadline ->
             exists wp wc,
               pingTranslationServer P url 1500 w = (Return false, wp) /\
               isProcessRunning P (default (-1) childPid) wp = (Return true, wc)) ->
  forall fuel w,
    rtc (poll_turn P S url childPid deadline) w1 w ->
    deadline - now w <= Z.of_nat fuel ->
    exists w',
      start_poll P S fuel url childPid deadline w = (Throw (timed_out S), w') /\
      rtc (poll_turn P S url childPid deadline) w1 w' /\
      deadline <= now w'.
Proof.
  intros Hdown. induction fuel as [|fuel IH]; intros w Hturns Hfuel.
  - exists w. rewrite start_poll_eq.
    destruct (now w <? deadline) eqn:Hnow; [apply Z.ltb_lt in Hnow; lia|].
    apply Z.ltb_ge in Hnow. auto.
  - destruct (now w <? deadline) eqn:Hnow.
    + apply Z.ltb_lt in Hnow.
      destruct (Hdown w Hturns Hnow) as (wp & wc & Hping & Halive).
      assert (Hturn : poll_turn P S url childPid deadline w
                        (slept P (pollIntervalMs S) wc))
        by (econstructor; eauto; reflexivity).
      rewrite (start_poll_turn _ _ _ _ Hturn).
      apply IH.
      * eapply rtc_r; eassumption.
      * apply poll_turn_frame in Hturn. lia.
    + exists w. rewrite start_poll_eq, Hnow. apply Z.ltb_ge in Hnow. auto.
Qed.

(** C6. When every turn of the poll loop that [start] gets to before its
    deadline ([now + startupTimeoutMs], taken right after the record is
    written) finds the endpoint unreachable and the launched pid alive,
    [start] throws the startup-timeout error once the deadline has passed;
    the files are as the launch left them, and the record still holds the
    text written after the spawn, which reads back as the child's pid. *)
Theorem start_times_out (w0 w1 : World) :
  launches P S url w0 childPid w1 ->
  (forall w,
     rtc (poll_turn P S url childPid (now w1 + startupTimeoutMs S)) w1 w ->
     now w < now w1 + startupTimeoutMs S ->
     exists wp wc,
       pingTranslationServer P url 1500 w = (Return false, wp) /\
       isProcessRunning P (default (-1) childPid) wp = (Return true, wc)) ->
  exists w',
    start P S url w0 = (Throw (timed_out S), w') /\
    now w1 + startupTimeoutMs S <= now w' /\
    fs w' = fs w1 /\
    fs w' !! pidFile S = Some (File (pid_text childPid ++ lf)) /\
    match childPid with
    | Some p => 0 < p < 2 ^ 53 -> recorded_pid (fs w' !! pidFile S) = Some p
    | None => recorded_pid (fs w' !! pidFile S) = None
    end.
Proof.
  intros Hl Hdown. rewrite (start_launched _ _ Hl).
  destruct Hl as (_ & _ & _ & wa & _ & _ & _ & _ & Hlaunch).
  apply launch_returns in Hlaunch as (Hrec & _).
  destruct (start_poll_times_out _ _ Hdown (Z.to_nat (startupTimeoutMs S)) w1)
    as (w' & Hrun & Hturns & Hnow); [apply rtc_refl|lia|].
  destruct (poll_turns _ _ _ Hturns) as (_ & _ & Hfs & _).
  exists w'. split; [exact Hrun|]. split; [exact Hnow|].
  split; [exact Hfs|]. rewrite Hfs. split; [exact Hrec|].
  rewrite Hrec. destruct childPid as [p|].
  - apply written_record_reads_back.
  - reflexivity.
Qed.

End StartFacts.

Lemma start_exits_early_witness :
  launches (platform 4 refused) (config true) local_url fresh (Some 4242)
    (launched (platform 4 refused)) /\
  rtc (poll_turn (platform 4 refused) (config true) local_url (Some 4242)
         (now (launched (platform 4 refused)) + startupTimeoutMs (config true)))
    (launched (platform 4 refused)) (turned (platform 4 refused)) /\
  now (turned (platform 4 refused))
  < now (launched (platform 4 refused)) + startupTimeoutMs (config true) /\
  pingTranslationServer (platform 4 refused) local_url 1500 (turned (platform 4 refused))
  = (Return false, after_probe (platform 4 refused) local_url 1500
                     (turned (platform 4 refused))) /\
  isProcessRunning (platform 4 refused) (default (-1) (Some 4242))
    (after_probe (platform 4 refused) local_url 1500 (turned (platform 4 refused)))
  = (Return false,
     checked 4242 (after_probe (platform 4 refused) local_url 1500
                     (turned (platform 4 refused)))) /\
  exists w',
    start (platform 4 refused) (config true) local_url fresh
    = (Throw (exited_early (config true)), w') /\
    fs w' = delete (pidFile (config true)) (fs (launched (platform 4 refused))) /\
    log w' = EUnlink (pidFile (config true))
             :: log (checked 4242 (after_probe (platform 4 refused) local_url 1500
                                     (turned (platform 4 refused)))) /\
    fs w' !! pidFile (config true) = None /\
    readPidFile (pidFile (config true)) w' = (Return None, w').
Proof.
  set (P := platform 4 refused).
  assert (H1 : launches P (config true) local_url fresh (Some 4242) (launched P)).
  { exists "localhost"%string, None, fresh, fresh.
    split; [reflexivity|]. split; [reflexivity|]. split; [reflexivity|].
    split; [reflexivity|]. vm_compute. reflexivity. }
  assert (H2 : rtc (poll_turn P (config true) local_url (Some 4242)
                      (now (launched P) + startupTimeoutMs (config true)))
                 (launched P) (turned P)).
  { eapply rtc_l; [|apply rtc_refl].
    apply (PollTurn P (config true) local_url (Some 4242) _ (launched P)
             (after_probe P local_url 1500 (launched P))
             (checked 4242 (after_probe P local_url 1500 (launched P))) (turned P));
      vm_compute; reflexivity. }
  assert (H3 : now (turned P) < now (launched P) + startupTimeoutMs (config true))
    by (vm_compute; reflexivity).
  assert (H4 : pingTranslationServer P local_url 1500 (turned P)
               = (Return false, after_probe P local_url 1500 (turned P)))
    by (vm_compute; reflexivity).
  assert (H5 : isProcessRunning P (default (-1) (Some 4242))
                 (after_probe P local_url 1500 (turned P))
               = (Return false, checked 4242 (after_probe P local_url 1500 (turned P))))
    by (vm_compute; reflexivity).
  split; [exact H1|]. split; [exact H2|]. split; [exact H3|].
  split; [exact H4|]. split; [exact H5|].
  exact (start_exits_early P (config true) local_url (Some 4242) fresh (launched P)
           (turned P) _ _ H1 H2 H3 H4 H5).
Defined.

Lemma start_times_out_witness :
  launches (immortal silent) (config true) local_url fresh (Some 4242)
    (launched (immortal silent)) /\
  (forall w,
     rtc (poll_turn (immortal silent) (config true) local_url (Some 4242)
            (now (launched (immortal silent)) + startupTimeoutMs (config true)))
       (launched (immortal silent)) w ->
     now w < now (launched (immortal silent)) + startupTimeoutMs (config true) ->
     exists wp wc,
       pingTranslationServer (immortal silent) local_url 1500 w = (Return false, wp) /\
       isProcessRunning (immortal silent) (default (-1) (Some 4242)) wp
       = (Return true, wc)) /\
  exists w',
    start (immortal silent) (config true) local_url fresh
    = (Throw (timed_out (config true)), w') /\
    now (launched (immortal silent)) + startupTimeoutMs (config true) <= now w' /\
    fs w' = fs (launched (immortal silent)) /\
    fs w' !! pidFile (config true) = Some (File (pid_text (Some 4242) ++ lf)) /\
    (0 < 4242 < 2 ^ 53 ->
     recorded_pid (fs w' !! pidFile (config true)) = Some 4242).
Proof.
  set (P := immortal silent).
  assert (H1 : launches P (config true) local_url fresh (Some 4242) (launched P)).
  { exists "localhost"%string, None, fresh, fresh.
    split; [reflexivity|]. split; [reflexivity|]. split; [reflexivity|].
    split; [reflexivity|]. vm_compute. reflexivity. }
  assert (H2 : forall w,
     rtc (poll_turn P (config true) local_url (Some 4242)
            (now (launched P) + startupTimeoutMs (config true))) (launched P) w ->
     now w < now (launched P) + startupTimeoutMs (config true) ->
     exists wp wc,
       pingTranslationServer P local_url 1500 w = (Return false, wp) /\
       isProcessRunning P (default (-1) (Some 4242)) wp = (Return true, wc)).
  { intros w _ _. eexists _, _. split; reflexivity. }
  split; [exact H1|]. split; [exact H2|].
  exact (start_times_out P (config true) local_url (Some 4242) fresh (launched P) H1 H2).
Defined.


(** ** [start] twice *)

Section Idempotence.
Variable P : Platform.
Variable S : ServerManagementConfig.
Variable url : string.

(** Any run of the poll loop, given fuel for the time left: it ends, it
    spawns nothing, and when it returns the files are untouched. *)
Lemma start_poll_spec childPid deadline : forall fuel w,
  deadline - now w <= Z.of_nat fuel ->
  exists r w',
    start_poll P S fuel url childPid deadline w = (r, w') /\
    spawns (log w') = spawns (log w) /\
    match r with
    | Return _ => fs w' = fs w
    | Throw _ => True
    | OutOfFuel => False
    end.
Proof.
  induction fuel as [|fuel IH]; intros w Hfuel;
    rewrite start_poll_eq; destruct (now w <? deadline) eqn:Hnow;
    try (apply Z.ltb_lt in Hnow; lia);
    try (eexists _, _; split; [reflexivity|split; [reflexivity|exact I]]).
  destruct (probe_ok P url 1500 (tick w)).
  { eexists _, _. split; [reflexivity|]. split; reflexivity. }
  destruct (proc_alive P _ _).
  - set (w2 := slept P _ _).
    destruct (IH w2) as (r & w' & Hrun & Hsp & Hr).
    { apply Z.ltb_lt in Hnow.
      pose proof (probe_time_nonneg P url 1500 (tick w)).
      pose proof (timer_delay_pos (pollIntervalMs S)).
      unfold w2, slept, checked, after_probe; simpl. lia. }
    exists r, w'. split; [exact Hrun|]. split; [rewrite Hsp; reflexivity|].
    destruct r; [rewrite Hr; reflexivity|exact I|exact Hr].
  - destruct (removePidFileIfExists_cases (pidFile S)
                (checked (default (-1) childPid) (after_probe P url 1500 w)))
      as (r & w' & evs & Hrun & Hlog & _ & _ & _ & Hr).
    unfold bind. rewrite Hrun.
    assert (Hsp : spawns (log w') = spawns (log w)).
    { destruct (fs (checked (default (-1) childPid) (after_probe P url 1500 w))
                !! pidFile S) as [[raw|]|] eqn:Hf.
      - rewrite (removePidFileIfExists_file _ _ _ Hf) in Hrun.
        injection Hrun as _ <-. reflexivity.
      - unfold removePidFileIfExists, try_catch, unlink in Hrun.
        rewrite Hf in Hrun. injection Hrun as _ <-. reflexivity.
      - rewrite (removePidFileIfExists_absent _ _ Hf) in Hrun.
        injection Hrun as _ <-. reflexivity. }
    destruct r as [[]|e|]; [| |contradiction];
      eexists _, _; (split; [reflexivity|split; [exact Hsp|exact I]]).
Qed.

(** How [start] can return. *)
Lemma start_returns host w w1 :
  url_hostname P url = Some host ->
  is_loopback host = true ->
  start P S url w = (Return tt, w1) ->
  (exists p,
     recorded_pid (fs w !! pidFile S) = Some p /\
     proc_alive P (tick w) p = true /\ w1 = checked p w) \/
  (exists childPid n,
     childPid = spawn_pid P n /\
     fs w1 !! pidFile S = Some (File (pid_text childPid ++ lf)) /\
     spawns (log w1) = Datatypes.S (spawns (log w))).
Proof.
  intros Hh Hl. rewrite (start_loopback _ _ _ _ _ Hh Hl).
  destruct (fs w !! pidFile S) as [[raw|]|] eqn:Hf.
  2:{ rewrite (bind_throw _ _ _ _ _ (readPidFile_directory _ _ Hf)). discriminate. }
  all: assert (Hr : readable (fs w !! pidFile S))
         by (unfold readable; rewrite Hf; discriminate);
       rewrite (bind_return _ _ _ _ _ (readPidFile_eq _ _ Hr));
       rewrite truthy_recorded_pid, Hf.
  all: assert (Hgo : forall wa,
         spawns (log wa) = spawns (log w) ->
         (childPid <- launch P S ;;
          t <- Date_now ;;
          start_poll P S (Z.to_nat (startupTimeoutMs S)) url childPid
            (t + startupTimeoutMs S)) wa = (Return tt, w1) ->
         exists childPid n,
           childPid = spawn_pid P n /\
           fs w1 !! pidFile S = Some (File (pid_text childPid ++ lf)) /\
           spawns (log w1) = Datatypes.S (spawns (log w))).
  1,3: intros wa Hwa Hrun; unfold bind at 1 in Hrun;
       destruct (launch P S wa) as [[cp|e|] wl] eqn:Hlaunch; try discriminate;
       apply launch_returns in Hlaunch as (Hrec & [n Hn] & _ & Hsp);
       unfold bind at 1, Date_now in Hrun;
       destruct (start_poll_spec cp (now wl + startupTimeoutMs S)
                   (Z.to_nat (startupTimeoutMs S)) wl ltac:(lia))
         as (r & w' & Hpoll & Hsp' & Hres);
       rewrite Hrun in Hpoll; injection Hpoll as <- <-;
       exists cp, n; split; [exact Hn|];
       split; [rewrite Hres; exact Hrec|]; rewrite Hsp', Hsp, Hwa; reflexivity.
  - destruct (recorded_pid (Some (File raw))) as [p|] eqn:Hp.
    + rewrite (bind_return _ _ _ _ _ (isProcessRunning_eq P _ _)).
      destruct (proc_alive P (tick w) p) eqn:Ha.
      * intros [= <-]. left. exists p. auto.
      * intros Hrun. right. eapply Hgo; [|exact Hrun]. reflexivity.
    + intros Hrun. right. eapply Hgo; [|exact Hrun]. reflexivity.
  - simpl recorded_pid. intros Hrun. right. eapply Hgo; [|exact Hrun]. reflexivity.
Qed.

(** Past both checks, [start] is its launch and poll loop, run from the
    state the first check leaves. *)
Lemma start_past_checks host w :
  url_hostname P url = Some host ->
  is_loopback host = true ->
  readable (fs w !! pidFile S) ->
  nothing_running P S w ->
  start P S url w
  = (childPid <- launch P S ;;
     t <- Date_now ;;
     start_poll P S (Z.to_nat (startupTimeoutMs S)) url childPid
       (t + startupTimeoutMs S)) (first_checked S w).
Proof.
  intros Hh Hl Hr Hn. rewrite (start_loopback _ _ _ _ _ Hh Hl).
  rewrite (bind_return _ _ _ _ _ (readPidFile_eq _ _ Hr)).
  rewrite truthy_recorded_pid.
  unfold nothing_running in Hn. unfold first_checked.
  destruct (recorded_pid (fs w !! pidFile S)) as [p|].
  - rewrite (bind_return _ _ _ _ _ (isProcessRunning_eq P _ _)).
    now rewrite Hn.
  - reflexivity.
Qed.

Lemma first_checked_frame w :
  fs (first_checked S w) = fs w /\
  spawns (log (first_checked S w)) = spawns (log w).
Proof.
  unfold first_checked.
  destruct (recorded_pid (fs w !! pidFile S)); split; reflexivity.
Qed.

(** A [start] that returns without having found a live recorded process
    has been through its launch. *)
Lemma start_launches host w w1 :
  url_hostname P url = Some host ->
  is_loopback host = true ->
  nothing_running P S w ->
  start P S url w = (Return tt, w1) ->
  exists childPid wl, launches P S url w childPid wl.
Proof.
  intros Hh Hl Hn Hrun.
  assert (Hr : readable (fs w !! pidFile S)).
  { intros Hd. rewrite (start_loopback _ _ _ _ _ Hh Hl) in Hrun.
    rewrite (bind_throw _ _ _ _ _ (readPidFile_directory _ _ Hd)) in Hrun.
    discriminate. }
  rewrite (start_past_checks _ _ Hh Hl Hr Hn) in Hrun.
  unfold bind at 1 in Hrun.
  destruct (launch P S (first_checked S w)) as [[cp|e|] wl] eqn:Hlaunch;
    try discriminate.
  exists cp, wl, host, (recorded_pid (fs w !! pidFile S)), w, (first_checked S w).
  split; [unfold parseHost; rewrite Hh; reflexivity|].
  split; [exact Hl|].
  split; [apply readPidFile_eq, Hr|].
  split; [|exact Hlaunch].
  rewrite truthy_recorded_pid. unfold first_checked, nothing_running in *.
  destruct (recorded_pid (fs w !! pidFile S)) as [p|]; [|reflexivity].
  rewrite isProcessRunning_eq, Hn. reflexivity.
Qed.

(** A [start] that returns after its launch has spawned one process, and
    its poll loop has left the files of the launch as they were, the
    record holding the text of the child's pid. *)
Lemma start_after_launch w childPid wl w1 :
  launches P S url w childPid wl ->
  start P S url w = (Return tt, w1) ->
  spawns (log w1) = Datatypes.S (spawns (log w)) /\
  fs w1 = fs wl /\
  fs w1 !! pidFile S = Some (File (pid_text childPid ++ lf)).
Proof.
  intros Hl Hrun. rewrite (start_launched _ _ _ _ _ _ Hl) in Hrun.
  destruct Hl as (host & cur & wr & wa & _ & _ & Hread & Halive & Hlaunch).
  assert (Hwa : spawns (log wa) = spawns (log w)).
  { assert (Hr : readable (fs w !! pidFile S)).
    { intros Hd. rewrite (readPidFile_directory _ _ Hd) in Hread. discriminate. }
    rewrite (readPidFile_eq _ _ Hr) in Hread. injection Hread as _ <-.
    destruct (truthy cur) as [p|].
    - rewrite isProcessRunning_eq in Halive. injection Halive as _ <-. reflexivity.
    - injection Halive as <-. reflexivity. }
  apply launch_returns in Hlaunch as (Hrec & _ & _ & Hsp).
  destruct (start_poll_spec childPid (now wl + startupTimeoutMs S)
              (Z.to_nat (startupTimeoutMs S)) wl ltac:(lia))
    as (r & w' & Hpoll & Hsp' & Hres).
  rewrite Hrun in Hpoll. injection Hpoll as <- <-.
  split; [rewrite Hsp', Hsp, Hwa; reflexivity|].
  split; [exact Hres|]. rewrite Hres. exact Hrec.
Qed.

(** C4. With a loopback endpoint: (1) in every state whose record holds a
    pid that is alive, [start] returns after checking that pid and
    nothing else: no file changes and the log gains the liveness check
    only, so nothing is spawned; (2) hence after a [start] that returned,
    the recorded process being alive at the second call (pids that spawn
    hands out being positive integers below [2^53]), a second [start]
    also returns without spawning and without touching the record, whose
    pid stays the same; the two calls together have spawned at most the
    one process of the first call; (3) and exactly one when the first call
    did launch: if the first [start] spawned the child [c] and returned,
    and [c] is alive at the second call, then the first call has spawned
    exactly one process and recorded [c], the second call returns after
    its liveness check of [c], and after both calls the count of spawned
    processes is still one more than before the first and the record
    still holds [c]; (4) and a first call that returns without having
    found a live recorded process is such a launching call, and has
    spawned exactly one process. *)
Theorem start_idempotent (host : string) (w : World) :
  url_hostname P url = Some host ->
  is_loopback host = true ->
  (forall p,
     recorded_pid (fs w !! pidFile S) = Some p ->
     proc_alive P (tick w) p = true ->
     start P S url w = (Return tt, checked p w) /\
     fs (checked p w) = fs w /\
     log (checked p w) = EKill p Sig0 :: log w) /\
  (forall w1,
     start P S url w = (Return tt, w1) ->
     (forall n c, spawn_pid P n = Some c -> 0 < c < 2 ^ 53) ->
     (forall n, spawn_pid P n <> None) ->
     (forall p, recorded_pid (fs w1 !! pidFile S) = Some p ->
                proc_alive P (tick w1) p = true) ->
     exists p w2,
       recorded_pid (fs w1 !! pidFile S) = Some p /\
       start P S url w1 = (Return tt, w2) /\
       fs w2 = fs w1 /\
       recorded_pid (fs w2 !! pidFile S) = Some p /\
       spawns (log w2) = spawns (log w1) /\
       (spawns (log w2) <= 1 + spawns (log w))%nat) /\
  (forall c wl w1,
     launches P S url w (Some c) wl ->
     start P S url w = (Return tt, w1) ->
     0 < c < 2 ^ 53 ->
     proc_alive P (tick w1) c = true ->
     spawns (log w1) = Datatypes.S (spawns (log w)) /\
     recorded_pid (fs w1 !! pidFile S) = Some c /\
     start P S url w1 = (Return tt, checked c w1) /\
     spawns (log (checked c w1)) = Datatypes.S (spawns (log w)) /\
     recorded_pid (fs (checked c w1) !! pidFile S) = Some c) /\
  (forall w1,
     nothing_running P S w ->
     start P S url w = (Return tt, w1) ->
     exists childPid wl,
       launches P S url w childPid wl /\
       spawns (log w1) = Datatypes.S (spawns (log w))).
Proof.
  intros Hh Hl. split; [|split; [|split]].
  - intros p Hp Ha. split; [|split; reflexivity].
    eapply start_noop_when_running; eassumption.
  - intros w1 Hrun Hvalid Hsome Halive.
    assert (Hrec : exists p, recorded_pid (fs w1 !! pidFile S) = Some p /\
                             (spawns (log w1) <= 1 + spawns (log w))%nat).
    { destruct (start_returns _ _ _ Hh Hl Hrun)
        as [(p & Hp & _ & ->)|(cp & n & Hcp & Hf & Hsp)].
      - exists p. split; [exact Hp|].
        change (spawns (log (checked p w))) with (spawns (log w)). lia.
      - destruct cp as [c|]; [|exfalso; eapply Hsome; eauto].
        exists c. rewrite Hf. split; [|lia].
        apply written_record_reads_back. eapply Hvalid. eauto. }
    destruct Hrec as (p & Hp & Hsp).
    exists p, (checked p w1).
    split; [exact Hp|].
    split; [eapply start_noop_when_running; eauto|].
    split; [reflexivity|]. split; [exact Hp|]. split; [reflexivity|exact Hsp].
  - intros c wl w1 Hlaunch Hrun Hc Ha.
    destruct (start_after_launch _ _ _ _ Hlaunch Hrun) as (Hsp & _ & Hf).
    assert (Hrec : recorded_pid (fs w1 !! pidFile S) = Some c).
    { rewrite Hf. now apply written_record_reads_back. }
    split; [exact Hsp|]. split; [exact Hrec|].
    split; [eapply start_noop_when_running; eassumption|].
    split; [exact Hsp|exact Hrec].
  - intros w1 Hn Hrun.
    destruct (start_launches _ _ _ Hh Hl Hn Hrun) as (cp & wl & Hlaunch).
    destruct (start_after_launch _ _ _ _ Hlaunch Hrun) as (Hsp & _).
    exists cp, wl. auto.
Qed.

End Idempotence.

Lemma start_idempotent_witness :
  url_hostname (immortal healthy) local_url = Some "localhost"%string /\
  is_loopback "localhost" = true /\
  (start (immortal healthy) (config true) local_url recorded
   = (Return tt, checked 4242 recorded) /\
   fs (checked 4242 recorded) = fs recorded /\
   log (checked 4242 recorded) = EKill 4242 Sig0 :: log recorded) /\
  (exists p w2,
    recorded_pid (fs (snd (start (immortal healthy) (config true) local_url fresh))
                  !! pidFile (config true)) = Some p /\
    start (immortal healthy) (config true) local_url
      (snd (start (immortal healthy) (config true) local_url fresh))
    = (Return tt, w2) /\
    fs w2 = fs (snd (start (immortal healthy) (config true) local_url fresh)) /\
    recorded_pid (fs w2 !! pidFile (config true)) = Some p /\
    spawns (log w2)
    = spawns (log (snd (start (immortal healthy) (config true) local_url fresh))) /\
    (spawns (log w2) <= 1 + spawns (log fresh))%nat) /\
  launches (immortal healthy) (config true) local_url fresh (Some 4242)
    (launched (immortal healthy)) /\
  spawns (log (snd (start (immortal healthy) (config true) local_url fresh)))
  = Datatypes.S (spawns (log fresh)) /\
  recorded_pid (fs (snd (start (immortal healthy) (config true) local_url fresh))
                !! pidFile (config true)) = Some 4242 /\
  start (immortal healthy) (config true) local_url
    (snd (start (immortal healthy) (config true) local_url fresh))
  = (Return tt,
     checked 4242 (snd (start (immortal healthy) (config true) local_url fresh))) /\
  spawns (log (checked 4242
                 (snd (start (immortal healthy) (config true) local_url fresh))))
  = Datatypes.S (spawns (log fresh)) /\
  recorded_pid
    (fs (checked 4242 (snd (start (immortal healthy) (config true) local_url fresh)))
     !! pidFile (config true)) = Some 4242 /\
  nothing_running (immortal healthy) (config true) fresh /\
  exists childPid wl,
    launches (immortal healthy) (config true) local_url fresh childPid wl /\
    spawns (log (snd (start (immortal healthy) (config true) local_url fresh)))
    = Datatypes.S (spawns (log fresh)).
Proof.
  set (P := immortal healthy).
  assert (H0 : url_hostname P local_url = Some "localhost"%string) by reflexivity.
  assert (H1 : is_loopback "localhost" = true) by reflexivity.
  assert (H2 : launches P (config true) local_url fresh (Some 4242) (launched P)).
  { exists "localhost"%string, None, fresh, fresh.
    split; [reflexivity|]. split; [reflexivity|]. split; [reflexivity|].
    split; [reflexivity|]. vm_compute. reflexivity. }
  assert (H3 : start P (config true) local_url fresh
               = (Return tt, snd (start P (config true) local_url fresh)))
    by (vm_compute; reflexivity).
  pose proof (start_idempotent P (config true) local_url "localhost" recorded H0 H1)
    as (Hnoop & _).
  pose proof (start_idempotent P (config true) local_url "localhost" fresh H0 H1)
    as (_ & Hagain & Hexact & Hlaunched).
  assert (H4 : nothing_running P (config true) fresh) by (vm_compute; exact I).
  split; [exact H0|]. split; [exact H1|]. split.
  - apply (Hnoop 4242); vm_compute; reflexivity.
  - split.
    + apply Hagain.
      * vm_compute. reflexivity.
      * intros n c [= <-]. vm_compute. split; reflexivity.
      * intros n. discriminate.
      * intros p Hp. vm_compute in Hp. injection Hp as <-. reflexivity.
    + split; [exact H2|].
      pose proof (Hexact 4242 (launched P) _ H2 H3
                    ltac:(vm_compute; split; reflexivity) eq_refl)
        as (E1 & E2 & E3 & E4 & E5).
      split; [exact E1|]. split; [exact E2|]. split; [exact E3|].
      split; [exact E4|]. split; [exact E5|].
      split; [exact H4|]. exact (Hlaunched _ H4 H3).
Defined.

(** ** Where the record is removed, and where it is not *)

Section RecordRemoval.
Variable P : Platform.
Variable S : ServerManagementConfig.

(** [start] past a recorded pid that is dead: the record stays as it is
    while the launch steps run from the state after the check. *)
Lemma start_past_dead_record url host w p :
  url_hostname P url = Some host ->
  is_loopback host = true ->
  recorded_pid (fs w !! pidFile S) = Some p ->
  proc_alive P (tick w) p = false ->
  start P S url w
  = (childPid <- launch P S ;;
     t <- Date_now ;;
     start_poll P S (Z.to_nat (startupTimeoutMs S)) url childPid
       (t + startupTimeoutMs S)) (checked p w).
Proof.
  intros Hh Hl Hp Ha. rewrite (start_loopback _ _ _ _ _ Hh Hl).
  assert (Hr : readable (fs w !! pidFile S)).
  { unfold readable. intros E. rewrite E in Hp. discriminate. }
  rewrite (bind_return _ _ _ _ _ (readPidFile_eq _ _ Hr)).
  rewrite truthy_recorded_pid, Hp.
  rewrite (bind_return _ _ _ _ _ (isProcessRunning_eq P _ _)).
  now rewrite Ha.
Qed.

(** C2, amended to what the code does.  The record is removed by [stop]
    when it finds the recorded pid dead, be it at its first check or at a
    check of the grace loop (after SIGTERM and any number of turns that
    found the process alive, the deadline still ahead): in both cases
    [stop] removes the record right after that check and returns; and no
    record is left whenever [stop] returns.  The record is removed by the
    poll loop of [start] when the probe fails and the launched pid is found
    dead.  [status] changes no file, whatever it observes, and the first
    check of [start] leaves a record whose pid is dead in place: the launch
    steps run next, from the same files. *)
Theorem record_removal (w : World) :
  (forall url timeoutMs, fs (snd (status P S url timeoutMs w)) = fs w) /\
  (forall p,
     recorded_pid (fs w !! pidFile S) = Some p ->
     proc_alive P (tick w) p = false ->
     stop P S w
     = (Return tt,
        set_fs (delete (pidFile S) (fs w)) (EUnlink (pidFile S)) (checked p w))) /\
  (forall p wk,
     recorded_pid (fs w !! pidFile S) = Some p ->
     proc_alive P (tick w) p = true ->
     proc_alive P (tick (checked p w)) p = true ->
     rtc (wait_turn P p (now w + 5000)) (signalled p w) wk ->
     now wk < now w + 5000 ->
     proc_alive P (tick wk) p = false ->
     stop P S w
     = (Return tt,
        set_fs (delete (pidFile S) (fs w)) (EUnlink (pidFile S)) (checked p wk))) /\
  (forall w',
     stop P S w = (Return tt, w') ->
     recorded_pid (fs w' !! pidFile S) = None) /\
  (forall url childPid deadline fuel raw,
     now w < deadline ->
     probe_ok P url 1500 (tick w) = false ->
     proc_alive P (tick (after_probe P url 1500 w)) (default (-1) childPid) = false ->
     fs w !! pidFile S = Some (File raw) ->
     start_poll P S (Datatypes.S fuel) url childPid deadline w
     = (Throw (exited_early S),
        set_fs (delete (pidFile S) (fs w)) (EUnlink (pidFile S))
          (checked (default (-1) childPid) (after_probe P url 1500 w)))) /\
  (forall url host p,
     url_hostname P url = Some host ->
     is_loopback host = true ->
     recorded_pid (fs w !! pidFile S) = Some p ->
     proc_alive P (tick w) p = false ->
     start P S url w
     = (childPid <- launch P S ;;
        t <- Date_now ;;
        start_poll P S (Z.to_nat (startupTimeoutMs S)) url childPid
          (t + startupTimeoutMs S)) (checked p w) /\
     fs (checked p w) = fs w).
Proof.
  split; [intros; apply status_reads_only|].
  split.
  { intros p Hp Ha. destruct (recorded_pid_file _ _ Hp) as [raw Hraw].
    rewrite (stop_recorded _ _ _ _ Hp), Ha.
    assert (Hf : fs (checked p w) !! pidFile S = Some (File raw)) by exact Hraw.
    rewrite (bind_return _ _ _ _ _ (removePidFileIfExists_file _ _ _ Hf)).
    reflexivity. }
  split.
  { intros p wk. apply stop_dead_in_grace. }
  split.
  { intros w' Hrun. destruct (stop_spec P S w) as (r & w2 & evs & Hrun2 & _ & _ & Hr).
    rewrite Hrun in Hrun2. injection Hrun2 as <- <-. exact Hr. }
  split.
  { intros. eapply start_poll_child_dead; eassumption. }
  intros url host p Hh Hl Hp Ha. split; [|reflexivity].
  eapply start_past_dead_record; eassumption.
Qed.

End RecordRemoval.

(** C2 as stated fails: [status] finds the recorded pid 4242 dead (it
    reports the process as stopped) and the record file is still there
    afterwards. *)
Lemma status_keeps_dead_record :
  recorded_pid (fs recorded !! pidFile (config true)) = Some 4242 /\
  fst (status (platform 0 silent) (config true) local_url 20000 recorded)
  = Return {| reachable := false; pid := Some 4242; process := stopped |} /\
  fs (snd (status (platform 0 silent) (config true) local_url 20000 recorded))
    !! pidFile (config true)
  = Some (File ("4242" ++ lf)).
Proof. vm_compute. repeat split; reflexivity. Qed.

Lemma record_removal_witness :
  recorded_pid (fs recorded !! pidFile (config true)) = Some 4242 /\
  proc_alive (platform 0 silent) (tick recorded) 4242 = false /\
  stop (platform 0 silent) (config true) recorded
  = (Return tt,
     set_fs (delete (pidFile (config true)) (fs recorded))
       (EUnlink (pidFile (config true))) (checked 4242 recorded)) /\
  recorded_pid
    (fs (snd (stop (platform 0 silent) (config true) recorded))
     !! pidFile (config true)) = None /\
  rtc (wait_turn Scenario.dying 4242 (now recorded + 5000))
    (signalled 4242 recorded) (Scenario.waited_twice Scenario.dying) /\
  proc_alive Scenario.dying (tick (Scenario.waited_twice Scenario.dying)) 4242
  = false /\
  stop Scenario.dying (config true) recorded
  = (Return tt,
     set_fs (delete (pidFile (config true)) (fs recorded))
       (EUnlink (pidFile (config true)))
       (checked 4242 (Scenario.waited_twice Scenario.dying))).
Proof.
  assert (H1 : recorded_pid (fs recorded !! pidFile (config true)) = Some 4242)
    by (vm_compute; reflexivity).
  assert (H2 : proc_alive (platform 0 silent) (tick recorded) 4242 = false)
    by reflexivity.
  pose proof (record_removal (platform 0 silent) (config true) recorded)
    as (_ & Hdead & _ & Hdone & _).
  split; [exact H1|]. split; [exact H2|].
  split; [exact (Hdead 4242 H1 H2)|].
  split; [apply Hdone; rewrite (Hdead 4242 H1 H2); reflexivity|].
  assert (H3 : rtc (wait_turn Scenario.dying 4242 (now recorded + 5000))
                 (signalled 4242 recorded) (Scenario.waited_twice Scenario.dying)).
  { eapply rtc_l; [apply wait_turn_intro; [vm_compute|]; reflexivity|].
    eapply rtc_l; [apply wait_turn_intro; [vm_compute|]; reflexivity|].
    apply rtc_refl. }
  assert (H4 : proc_alive Scenario.dying
                 (tick (Scenario.waited_twice Scenario.dying)) 4242 = false)
    by reflexivity.
  split; [exact H3|]. split; [exact H4|].
  pose proof (record_removal Scenario.dying (config true) recorded)
    as (_ & _ & Hgrace & _).
  apply (Hgrace 4242 (Scenario.waited_twice Scenario.dying) H1);
    [reflexivity|reflexivity|exact H3|vm_compute; reflexivity|exact H4].
Defined.

(** ** The loops are bounded *)

Section Termination.
Variable P : Platform.
Variable S : ServerManagementConfig.

Lemma ends_ret {A} (a : A) : ends (ret a).
Proof. intros w. discriminate. Qed.

Lemma ends_throw {A} e : ends (@throw A e).
Proof. intros w. discriminate. Qed.

Lemma ends_bind {A B} (m : M A) (k : A -> M B) :
  ends m -> (forall a, ends (k a)) -> ends (bind m k).
Proof.
  intros Hm Hk w. unfold bind. specialize (Hm w).
  destruct (m w) as [[a|e|] w']; simpl in *; [apply Hk|discriminate|congruence].
Qed.

Lemma ends_try_catch {A} (m : M A) h :
  ends m -> (forall e, ends (h e)) -> ends (try_catch m h).
Proof.
  intros Hm Hh w. unfold try_catch. specialize (Hm w).
  destruct (m w) as [[a|e|] w']; simpl in *; [discriminate|apply Hh|congruence].
Qed.

Lemma ends_readPidFile f : ends (readPidFile f).
Proof.
  apply ends_try_catch.
  - apply ends_bind.
    + intros w. unfold readFile. destruct (fs w !! f) as [[c|]|]; discriminate.
    + intros raw. cbv zeta.
      destruct (negb (JS.isInteger _) || JS.le_zero _); apply ends_ret.
  - intros e. destruct (has_code e "ENOENT"); [apply ends_ret|apply ends_throw].
Qed.

Lemma ends_isProcessRunning p : ends (isProcessRunning P p).
Proof. intros w. rewrite isProcessRunning_eq. discriminate. Qed.

Lemma ends_launch : ends (launch P S).
Proof.
  unfold launch. destruct (String.eqb _ _ || _); [apply ends_throw|]. cbv zeta.
  apply ends_bind.
  { apply ends_try_catch; [|intros e; apply ends_throw].
    intros w. unfold access. destruct (fs w !! _); discriminate. }
  intros _. apply ends_bind.
  { intros w. unfold mkdir. destruct (fs w !! _) as [[c|]|]; discriminate. }
  intros _. apply ends_bind.
  { intros w. unfold mkdir. destruct (fs w !! _) as [[c|]|]; discriminate. }
  intros _. apply ends_bind.
  { intros w. unfold openSync. destruct (fs w !! _) as [[c|]|]; try discriminate.
    destruct (parent_exists P _ w); discriminate. }
  intros out. apply ends_bind.
  { intros w. unfold spawn. destruct (String.eqb _ ""); discriminate. }
  intros cp. apply ends_bind; [|intros _; apply ends_ret].
  intros w. unfold writeFile. destruct (fs w !! _) as [[c|]|]; try discriminate.
  destruct (parent_exists P _ w); discriminate.
Qed.

(** [start] and [stop] give their loops enough fuel: both always end, by
    returning or by throwing. *)
Lemma start_ends url : ends (start P S url).
Proof.
  unfold start. apply ends_bind.
  { intros w. unfold parseHost. destruct (url_hostname P url); discriminate. }
  intros host. destruct (negb _ && negb _); [apply ends_throw|].
  apply ends_bind; [apply ends_readPidFile|]. intros cur.
  apply ends_bind.
  { destruct (truthy cur); [apply ends_isProcessRunning|apply ends_ret]. }
  intros [|]; [apply ends_ret|].
  apply ends_bind; [apply ends_launch|]. intros cp w.
  unfold bind, Date_now.
  destruct (start_poll_spec P S url cp (now w + startupTimeoutMs S)
              (Z.to_nat (startupTimeoutMs S)) w ltac:(lia))
    as (r & w' & -> & _ & Hr).
  destruct r; [discriminate|discriminate|contradiction].
Qed.

Lemma stop_ends : ends (stop P S).
Proof.
  intros w. destruct (stop_spec P S w) as (r & w' & evs & -> & _ & _ & Hr).
  destruct r; [discriminate|discriminate|contradiction].
Qed.

End Termination.

(** * Further properties of the manager and its caller *)

(** ** The events a run adds *)

Lemma added_app w w' evs : log w' = evs ++ log w -> added w w' = evs.
Proof.
  intros H. unfold added. rewrite H, length_app, Nat.add_sub. clear H.
  induction evs as [|ev evs IH]; simpl; [reflexivity|]. now f_equal.
Qed.

Lemma added_same w : added w w = [].
Proof. apply added_app. reflexivity. Qed.

Lemma sleeps_app l1 l2 : sleeps (l1 ++ l2) = (sleeps l1 + sleeps l2)%nat.
Proof. unfold sleeps. now rewrite filter_app, length_app. Qed.

Lemma fetches_app l1 l2 : fetches (l1 ++ l2) = (fetches l1 + fetches l2)%nat.
Proof. unfold fetches. now rewrite filter_app, length_app. Qed.

Lemma spawns_app l1 l2 : spawns (l1 ++ l2) = (spawns l1 + spawns l2)%nat.
Proof. unfold spawns. now rewrite filter_app, length_app. Qed.

(** ** [stop], run by run *)

Section StopRuns.
Variable P : Platform.
Variable S : ServerManagementConfig.

Lemma wait_event_stop_event f p ev : wait_event f p ev -> stop_event f p ev.
Proof. destruct ev as [| q [] | | | | | |]; simpl; tauto. Qed.

Lemma wait_events_no_sigkill f p q evs :
  Forall (wait_event f p) evs -> ~ In (EKill q SIGKILL) evs.
Proof.
  intros H Hin. rewrite Forall_forall in H.
  apply list_elem_of_In in Hin. apply H in Hin. exact Hin.
Qed.

(** Any run of the grace loop over a record that is a file. *)
Lemma stop_wait_run p deadline : forall fuel w raw,
  fs w !! pidFile S = Some (File raw) ->
  deadline - now w <= Z.of_nat fuel ->
  exists r w' evs,
    stop_wait P S fuel p deadline w = (Return r, w') /\
    log w' = evs ++ log w /\
    Forall (wait_event (pidFile S) p) evs /\
    150 * Z.of_nat (sleeps evs) <= Z.max 0 (deadline - now w + 149) /\
    now w <= now w' /\
    if r then fs w' = delete (pidFile S) (fs w)
    else fs w' = fs w /\ deadline <= now w'.
Proof.
  assert (Hpast : forall w, (now w <? deadline) = false ->
            exists r w' evs,
              (Return false, w) = (Return r, w') /\
              log w' = evs ++ log w /\
              Forall (wait_event (pidFile S) p) evs /\
              150 * Z.of_nat (sleeps evs) <= Z.max 0 (deadline - now w + 149) /\
              now w <= now w' /\
              if r then fs w' = delete (pidFile S) (fs w)
              else fs w' = fs w /\ deadline <= now w').
  { intros w Hnow. apply Z.ltb_ge in Hnow. exists false, w, [].
    split; [reflexivity|]. split; [reflexivity|]. split; [constructor|].
    split; [change (sleeps []) with 0%nat; lia|]. split; [lia|].
    split; [reflexivity|lia]. }
  induction fuel as [|fuel IH]; intros w raw Hf Hfuel;
    rewrite stop_wait_eq; destruct (now w <? deadline) eqn:Hnow;
    [apply Z.ltb_lt in Hnow; lia|now apply Hpast| |now apply Hpast].
  apply Z.ltb_lt in Hnow.
  destruct (proc_alive P (tick w) p).
  - destruct (IH (slept P 150 (checked p w)) raw Hf)
      as (r & w' & evs & Hrun & Hlog & Hev & Hsl & Hnw & Hr).
    { unfold slept, checked; simpl. unfold timer_delay; simpl. lia. }
    exists r, w', (evs ++ [ESleep 150; EKill p Sig0]).
    split; [exact Hrun|]. split; [log_eq|].
    split; [apply Forall_app; split; [exact Hev|repeat constructor]|].
    split.
    { rewrite sleeps_app. change (sleeps [ESleep 150; EKill p Sig0]) with 1%nat.
      unfold slept, checked in Hsl; simpl in Hsl. unfold timer_delay in Hsl;
        simpl in Hsl. lia. }
    split.
    { unfold slept, checked in Hnw; simpl in Hnw. unfold timer_delay in Hnw;
        simpl in Hnw. lia. }
    destruct r; [exact Hr|].
    destruct Hr as [Hr1 Hr2]. split; [exact Hr1|exact Hr2].
  - assert (Hf' : fs (checked p w) !! pidFile S = Some (File raw)) by exact Hf.
    rewrite (bind_return _ _ _ _ _ (removePidFileIfExists_file _ _ _ Hf')).
    eexists true, _, [EUnlink (pidFile S); EKill p Sig0].
    split; [reflexivity|]. split; [reflexivity|].
    split; [repeat constructor|].
    split; [change (sleeps _) with 0%nat; lia|].
    split; [simpl; lia|reflexivity].
Qed.

(** Any run of [stop]. *)
Lemma stop_run w :
  exists r w' evs,
    stop P S w = (r, w') /\
    log w' = evs ++ log w /\
    now w <= now w' /\
    match recorded_pid (fs w !! pidFile S) with
    | None =>
        evs = [] /\ w' = w /\
        (r = Return tt \/ fs w !! pidFile S = Some Dir)
    | Some p =>
        Forall (stop_event (pidFile S) p) evs /\
        (sleeps evs <= 34)%nat /\
        (In (EKill p SIGKILL) evs -> now w + 5000 <= now w') /\
        match r with
        | Return _ => fs w' = delete (pidFile S) (fs w)
        | Throw e => e = SystemError "ESRCH" "" /\ fs w' = fs w
        | OutOfFuel => False
        end
    end.
Proof.
  destruct (recorded_pid (fs w !! pidFile S)) as [p|] eqn:Hp.
  2:{ destruct (fs w !! pidFile S) as [[raw|]|] eqn:Hf.
      - exists (Return tt), w, []. rewrite stop_no_record.
        + repeat split; auto; lia.
        + unfold readable. rewrite Hf. discriminate.
        + now rewrite Hf.
      - exists (Throw (SystemError "EISDIR" (pidFile S))), w, [].
        unfold stop. rewrite (bind_throw _ _ _ _ _ (readPidFile_directory _ _ Hf)).
        repeat split; auto; lia.
      - exists (Return tt), w, []. rewrite stop_no_record.
        + repeat split; auto; lia.
        + unfold readable. rewrite Hf. discriminate.
        + now rewrite Hf. }
  destruct (recorded_pid_file _ _ Hp) as [raw Hraw].
  rewrite (stop_recorded _ _ _ _ Hp).
  destruct (proc_alive P (tick w) p).
  - destruct (proc_alive P (tick (checked p w)) p) eqn:Ha1.
    2:{ rewrite (bind_throw _ _ _ _ _ (process_kill_dead _ p SIGTERM _ Ha1)).
        eexists _, _, [EKill p SIGTERM; EKill p Sig0].
        split; [reflexivity|]. split; [reflexivity|]. split; [simpl; lia|].
        split; [repeat constructor|]. split; [change (sleeps _) with 0%nat; lia|].
        split; [|split; reflexivity].
        intros [H|[H|[]]]; discriminate. }
    rewrite (bind_return _ _ _ _ _ (process_kill_alive _ p SIGTERM _ Ha1)).
    unfold bind at 1, Date_now.
    set (w1 := advance 0 (EKill p SIGTERM) (checked p w)).
    assert (Hf1 : fs w1 !! pidFile S = Some (File raw)) by exact Hraw.
    destruct (stop_wait_run p (now w1 + 5000) (Z.to_nat 5000) w1 raw Hf1)
      as (r & w2 & evs & Hrun & Hlog & Hev & Hsl & Hnw & Hr); [lia|].
    rewrite (bind_return _ _ _ _ _ Hrun).
    assert (Hsl34 : (sleeps evs <= 34)%nat).
    { replace (now w1 + 5000 - now w1 + 149) with 5149 in Hsl by lia. lia. }
    assert (Hnow1 : now w1 = now w) by (unfold w1, checked; simpl; lia).
    assert (Hstop : Forall (stop_event (pidFile S) p) evs).
    { eapply Forall_impl; [exact Hev|]. intros ev. apply wait_event_stop_event. }
    destruct r.
    + exists (Return tt), w2, (evs ++ [EKill p SIGTERM; EKill p Sig0]).
      split; [reflexivity|]. split; [log_eq|]. split; [lia|].
      split; [apply Forall_app; split; [exact Hstop|repeat constructor]|].
      split; [rewrite sleeps_app; change (sleeps [_; _]) with 0%nat; lia|].
      split; [|exact Hr].
      intros Hin. apply in_app_or in Hin as [Hin|[H|[H|[]]]]; try discriminate.
      exfalso. eapply wait_events_no_sigkill; eassumption.
    + destruct Hr as [Hfs2 Hdl].
      destruct (proc_alive P (tick w2) p) eqn:Ha2.
      * rewrite (bind_return _ _ _ _ _ (process_kill_alive _ p SIGKILL _ Ha2)).
        assert (Hf2 : fs (advance 0 (EKill p SIGKILL) w2) !! pidFile S
                      = Some (File raw)) by (simpl; rewrite Hfs2; exact Hraw).
        rewrite (removePidFileIfExists_file _ _ _ Hf2).
        eexists _, _, (EUnlink (pidFile S) :: EKill p SIGKILL
                         :: evs ++ [EKill p SIGTERM; EKill p Sig0]).
        split; [reflexivity|]. split; [log_eq|]. split; [simpl; lia|].
        split.
        { constructor; [reflexivity|]. constructor; [reflexivity|].
          apply Forall_app; split; [exact Hstop|repeat constructor]. }
        split.
        { change (sleeps (EUnlink (pidFile S) :: EKill p SIGKILL :: ?l))
            with (sleeps l).
          rewrite sleeps_app. change (sleeps [_; _]) with 0%nat. lia. }
        split; [intros _; simpl; lia|].
        simpl. now rewrite Hfs2.
      * rewrite (bind_throw _ _ _ _ _ (process_kill_dead _ p SIGKILL _ Ha2)).
        eexists _, _, (EKill p SIGKILL :: evs ++ [EKill p SIGTERM; EKill p Sig0]).
        split; [reflexivity|]. split; [log_eq|]. split; [simpl; lia|].
        split.
        { constructor; [reflexivity|].
          apply Forall_app; split; [exact Hstop|repeat constructor]. }
        split.
        { change (sleeps (EKill p SIGKILL :: ?l)) with (sleeps l).
          rewrite sleeps_app. change (sleeps [_; _]) with 0%nat. lia. }
        split; [intros _; simpl; lia|].
        split; [reflexivity|exact Hfs2].
  - assert (Hf' : fs (checked p w) !! pidFile S = Some (File raw)) by exact Hraw.
    rewrite (bind_return _ _ _ _ _ (removePidFileIfExists_file _ _ _ Hf')).
    eexists _, _, [EUnlink (pidFile S); EKill p Sig0].
    split; [reflexivity|]. split; [reflexivity|]. split; [simpl; lia|].
    split; [repeat constructor|]. split; [change (sleeps _) with 0%nat; lia|].
    split; [|reflexivity].
    intros [H|[H|[]]]; discriminate.
Qed.

End StopRuns.

Section StopProperties.
Variable P : Platform.
Variable S : ServerManagementConfig.

(** After a [stop] that returned, the record's path holds no directory
    and no pid. *)
Lemma stop_returns_clean w w' :
  stop P S w = (Return tt, w') ->
  readable (fs w' !! pidFile S) /\ recorded_pid (fs w' !! pidFile S) = None.
Proof.
  intros Hrun.
  destruct (stop_run P S w) as (r & w2 & evs & Hrun2 & _ & _ & Hcase).
  rewrite Hrun in Hrun2. injection Hrun2 as <- <-.
  destruct (recorded_pid (fs w !! pidFile S)) as [p|] eqn:Hp.
  - destruct Hcase as (_ & _ & _ & Hfs). rewrite Hfs, lookup_delete_eq.
    split; [discriminate|reflexivity].
  - destruct Hcase as (_ & -> & [_|Hdir]).
    + split; [|exact Hp]. unfold readable. intros Hd.
      unfold stop in Hrun.
      rewrite (bind_throw _ _ _ _ _ (readPidFile_directory _ _ Hd)) in Hrun.
      discriminate.
    + unfold stop in Hrun.
      rewrite (bind_throw _ _ _ _ _ (readPidFile_directory _ _ Hdir)) in Hrun.
      discriminate.
Qed.

(** X1. [stop] acts on the recorded process only.  Without a record (no
    file, or content that is no positive integer) it leaves the world as it
    is; with a record of pid [p], every call it makes is a signal to [p], a
    sleep of 150 ms, or the removal of the record. *)
Theorem stop_acts_on_recorded_process (w : World) :
  match recorded_pid (fs w !! pidFile S) with
  | None => snd (stop P S w) = w
  | Some p => Forall (stop_event (pidFile S) p) (added w (snd (stop P S w)))
  end.
Proof.
  destruct (stop_run P S w) as (r & w' & evs & Hrun & Hlog & _ & Hcase).
  rewrite Hrun. simpl.
  destruct (recorded_pid (fs w !! pidFile S)) as [p|].
  - rewrite (added_app _ _ _ Hlog). apply Hcase.
  - apply Hcase.
Qed.

(** X2. [stop] changes no file but the record. *)
Theorem stop_touches_only_record (w : World) (f : string) :
  f <> pidFile S ->
  fs (snd (stop P S w)) !! f = fs w !! f.
Proof.
  intros Hf.
  destruct (stop_run P S w) as (r & w' & evs & Hrun & _ & _ & Hcase).
  rewrite Hrun. simpl.
  destruct (recorded_pid (fs w !! pidFile S)) as [p|].
  - destruct Hcase as (_ & _ & _ & Hr).
    destruct r as [[]|e|]; [| |contradiction].
    + rewrite Hr. apply lookup_delete_ne. congruence.
    + destruct Hr as [_ ->]. reflexivity.
  - destruct Hcase as (_ & -> & _). reflexivity.
Qed.

(** X3. [stop] sends SIGKILL only once five seconds have passed since it
    was called: a run whose log gains a SIGKILL ends at least 5000 ms
    later on the clock. *)
Theorem stop_forces_only_after_grace (w : World) (q : Z) :
  In (EKill q SIGKILL) (added w (snd (stop P S w))) ->
  now w + 5000 <= now (snd (stop P S w)).
Proof.
  destruct (stop_run P S w) as (r & w' & evs & Hrun & Hlog & _ & Hcase).
  rewrite Hrun. simpl. rewrite (added_app _ _ _ Hlog). intros Hin.
  destruct (recorded_pid (fs w !! pidFile S)) as [p|].
  - destruct Hcase as (Hev & _ & Hkill & _). apply Hkill.
    rewrite Forall_forall in Hev.
    pose proof (Hev _ (proj2 (list_elem_of_In _ _) Hin)) as Hq.
    simpl in Hq. now subst q.
  - destruct Hcase as (-> & _). destruct Hin.
Qed.

(** X4. The grace loop of [stop] is bounded: a run sleeps at most 34
    times. *)
Theorem stop_sleeps_at_most_34_times (w : World) :
  (sleeps (added w (snd (stop P S w))) <= 34)%nat.
Proof.
  destruct (stop_run P S w) as (r & w' & evs & Hrun & Hlog & _ & Hcase).
  rewrite Hrun. simpl. rewrite (added_app _ _ _ Hlog).
  destruct (recorded_pid (fs w !! pidFile S)) as [p|].
  - apply Hcase.
  - destruct Hcase as (-> & _). apply Nat.le_0_l.
Qed.

(** X5. [stop] is idempotent: after a [stop] that returned, a second
    [stop] returns and changes nothing. *)
Theorem stop_idempotent (w w' : World) :
  stop P S w = (Return tt, w') ->
  stop P S w' = (Return tt, w').
Proof.
  intros Hrun. destruct (stop_returns_clean _ _ Hrun) as [Hr Hnone].
  now apply stop_no_record.
Qed.

(** X6. [stop] removes the record as its last step or not at all: when
    [stop] fails, whatever the error, every file, the record included, is
    as it was before the call. *)
Theorem stop_failure_leaves_record (w w' : World) (e : Error) :
  stop P S w = (Throw e, w') ->
  fs w' = fs w /\
  recorded_pid (fs w' !! pidFile S) = recorded_pid (fs w !! pidFile S).
Proof.
  intros Hrun.
  assert (Hfs : fs w' = fs w).
  { destruct (stop_run P S w) as (r & w2 & evs & Hrun2 & _ & _ & Hcase).
    rewrite Hrun in Hrun2. injection Hrun2 as <- <-.
    destruct (recorded_pid (fs w !! pidFile S)) as [p|].
    - destruct Hcase as (_ & _ & _ & _ & ->). reflexivity.
    - destruct Hcase as (_ & -> & _). reflexivity. }
  split; [exact Hfs|]. rewrite Hfs. reflexivity.
Qed.

(** X7. After a [stop] that returned, [status] reports no pid and a
    missing process, whatever the probe says. *)
Theorem status_after_stop (w w' : World) (url : string) (timeoutMs : Z) :
  stop P S w = (Return tt, w') ->
  status P S url timeoutMs w'
  = (Return {| reachable := probe_ok P url (Z.min 3000 timeoutMs) (tick w');
               pid := None; process := missing |},
     after_probe P url (Z.min 3000 timeoutMs) w').
Proof.
  intros Hrun. destruct (stop_returns_clean _ _ Hrun) as [Hr Hnone].
  unfold status.
  rewrite (bind_return _ _ _ _ _ (pingTranslationServer_eq P url _ w')).
  assert (Hr1 : readable (fs (after_probe P url (Z.min 3000 timeoutMs) w')
                          !! pidFile S)) by exact Hr.
  rewrite (bind_return _ _ _ _ _ (readPidFile_eq _ _ Hr1)).
  rewrite truthy_recorded_pid.
  change (fs (after_probe P url (Z.min 3000 timeoutMs) w')) with (fs w').
  now rewrite Hnone.
Qed.

End StopProperties.

Lemma stop_touches_only_record_witness :
  logFile (config true) <> pidFile (config true) /\
  fs (snd (stop (immortal silent) (config true) recorded)) !! logFile (config true)
  = fs recorded !! logFile (config true).
Proof.
  assert (H : logFile (config true) <> pidFile (config true)) by discriminate.
  split; [exact H|].
  exact (stop_touches_only_record (immortal silent) (config true) recorded _ H).
Defined.

Lemma stop_forces_only_after_grace_witness :
  In (EKill 4242 SIGKILL)
     (added recorded (snd (stop (immortal silent) (config true) recorded))) /\
  now recorded + 5000 <= now (snd (stop (immortal silent) (config true) recorded)).
Proof.
  assert (H : In (EKill 4242 SIGKILL)
                (added recorded (snd (stop (immortal silent) (config true) recorded)))).
  { vm_compute. right. left. reflexivity. }
  split; [exact H|].
  exact (stop_forces_only_after_grace (immortal silent) (config true) recorded 4242 H).
Defined.

Lemma stop_idempotent_witness :
  stop (platform 0 silent) (config true) recorded
  = (Return tt, snd (stop (platform 0 silent) (config true) recorded)) /\
  stop (platform 0 silent) (config true)
    (snd (stop (platform 0 silent) (config true) recorded))
  = (Return tt, snd (stop (platform 0 silent) (config true) recorded)).
Proof.
  assert (H : stop (platform 0 silent) (config true) recorded
              = (Return tt, snd (stop (platform 0 silent) (config true) recorded)))
    by (vm_compute; reflexivity).
  split; [exact H|].
  exact (stop_idempotent (platform 0 silent) (config true) recorded _ H).
Defined.

Lemma stop_failure_leaves_record_witness :
  stop Scenario.vanishing (config true) recorded
  = (Throw (SystemError "ESRCH" ""),
     snd (stop Scenario.vanishing (config true) recorded)) /\
  fs (snd (stop Scenario.vanishing (config true) recorded)) = fs recorded /\
  recorded_pid (fs (snd (stop Scenario.vanishing (config true) recorded))
                !! pidFile (config true))
  = recorded_pid (fs recorded !! pidFile (config true)).
Proof.
  assert (H : stop Scenario.vanishing (config true) recorded
              = (Throw (SystemError "ESRCH" ""),
                 snd (stop Scenario.vanishing (config true) recorded)))
    by (vm_compute; reflexivity).
  split; [exact H|].
  exact (stop_failure_leaves_record Scenario.vanishing (config true) recorded _ _ H).
Defined.

Lemma status_after_stop_witness :
  stop (platform 0 silent) (config true) recorded
  = (Return tt, snd (stop (platform 0 silent) (config true) recorded)) /\
  status (platform 0 silent) (config true) local_url 20000
    (snd (stop (platform 0 silent) (config true) recorded))
  = (Return {| reachable :=
                 probe_ok (platform 0 silent) local_url (Z.min 3000 20000)
                   (tick (snd (stop (platform 0 silent) (config true) recorded)));
               pid := None; process := missing |},
     after_probe (platform 0 silent) local_url (Z.min 3000 20000)
       (snd (stop (platform 0 silent) (config true) recorded))).
Proof.
  assert (H : stop (platform 0 silent) (config true) recorded
              = (Return tt, snd (stop (platform 0 silent) (config true) recorded)))
    by (vm_compute; reflexivity).
  split; [exact H|].
  exact (status_after_stop (platform 0 silent) (config true) recorded _
           local_url 20000 H).
Defined.

(** ** [start], run by run *)

Section StartRuns.
Variable P : Platform.
Variable S : ServerManagementConfig.
Variable url : string.

(** Any run of the poll loop over a record that is a file. *)
Lemma start_poll_run childPid deadline : forall fuel w raw,
  fs w !! pidFile S = Some (File raw) ->
  deadline - now w <= Z.of_nat fuel ->
  exists r w' evs,
    start_poll P S fuel url childPid deadline w = (r, w') /\
    log w' = evs ++ log w /\
    Forall (poll_event (pidFile S) url (default (-1) childPid) (pollIntervalMs S)) evs /\
    timer_delay (pollIntervalMs S) * Z.of_nat (fetches evs)
    <= Z.max 0 (deadline - now w + timer_delay (pollIntervalMs S) - 1) /\
    match r with
    | Return _ => fs w' = fs w
    | Throw e =>
        (e = exited_early S /\ fs w' = delete (pidFile S) (fs w)) \/
        (e = timed_out S /\ fs w' = fs w /\ deadline <= now w')
    | OutOfFuel => False
    end.
Proof.
  pose proof (timer_delay_pos (pollIntervalMs S)) as Hd.
  assert (Hpast : forall w, (now w <? deadline) = false ->
            exists r w' evs,
              (@Throw unit (timed_out S), w) = (r, w') /\
              log w' = evs ++ log w /\
              Forall (poll_event (pidFile S) url (default (-1) childPid)
                        (pollIntervalMs S)) evs /\
              timer_delay (pollIntervalMs S) * Z.of_nat (fetches evs)
              <= Z.max 0 (deadline - now w + timer_delay (pollIntervalMs S) - 1) /\
              match r with
              | Return _ => fs w' = fs w
              | Throw e =>
                  (e = exited_early S /\ fs w' = delete (pidFile S) (fs w)) \/
                  (e = timed_out S /\ fs w' = fs w /\ deadline <= now w')
              | OutOfFuel => False
              end).
  { intros w Hnow. apply Z.ltb_ge in Hnow. eexists _, w, [].
    split; [reflexivity|]. split; [reflexivity|]. split; [constructor|].
    split; [change (fetches []) with 0%nat; lia|]. right. auto. }
  induction fuel as [|fuel IH]; intros w raw Hf Hfuel;
    rewrite start_poll_eq; destruct (now w <? deadline) eqn:Hnow;
    [apply Z.ltb_lt in Hnow; lia|now apply Hpast| |now apply Hpast].
  apply Z.ltb_lt in Hnow.
  pose proof (probe_time_nonneg P url 1500 (tick w)) as Hpt.
  destruct (probe_ok P url 1500 (tick w)).
  { eexists _, _, [EFetch (JS.replace_trailing_slashes url) 1500].
    split; [reflexivity|]. split; [reflexivity|].
    split; [repeat constructor|].
    split; [change (fetches [_]) with 1%nat; lia|reflexivity]. }
  destruct (proc_alive P _ _).
  - set (w2 := slept P _ _).
    assert (Hn2 : now w + timer_delay (pollIntervalMs S) <= now w2).
    { unfold w2, slept, checked, after_probe; simpl. lia. }
    destruct (IH w2 raw Hf) as (r & w' & evs & Hrun & Hlog & Hev & Hfe & Hr); [lia|].
    exists r, w',
      (evs ++ [ESleep (pollIntervalMs S); EKill (default (-1) childPid) Sig0;
               EFetch (JS.replace_trailing_slashes url) 1500]).
    split; [exact Hrun|]. split; [unfold w2 in Hlog; log_eq|].
    split; [apply Forall_app; split; [exact Hev|repeat constructor]|].
    split.
    { rewrite fetches_app. change (fetches [_; _; _]) with 1%nat. lia. }
    destruct r as [[]|e|]; [exact Hr| |exact Hr].
    destruct Hr as [Hr|(He & Hfs & Hdl)]; [left; exact Hr|right; auto].
  - assert (Hf' : fs (checked (default (-1) childPid) (after_probe P url 1500 w))
                  !! pidFile S = Some (File raw)) by exact Hf.
    rewrite (bind_return _ _ _ _ _ (removePidFileIfExists_file _ _ _ Hf')).
    eexists _, _, [EUnlink (pidFile S); EKill (default (-1) childPid) Sig0;
                   EFetch (JS.replace_trailing_slashes url) 1500].
    split; [reflexivity|]. split; [reflexivity|].
    split; [repeat constructor|].
    split; [change (fetches [_; _; _]) with 1%nat; lia|].
    left. split; reflexivity.
Qed.

(** The steps of the launch: each returns after its one call, or throws
    and changes nothing. *)
Lemma access_cases path e w :
  try_catch (access path) (fun _ => throw e) w
  = match fs w !! path with
    | Some _ => (Return tt, w)
    | None => (Throw e, w)
    end.
Proof. unfold try_catch, access. destruct (fs w !! path); reflexivity. Qed.

Lemma mkdir_cases path w :
  (exists e, mkdir path w = (Throw e, w)) \/
  (exists w', mkdir path w = (Return tt, w') /\
              log w' = EMkdir path :: log w /\ now w' = now w).
Proof.
  unfold mkdir. destruct (fs w !! path) as [[c|]|]; eauto 6.
Qed.

Lemma openSync_cases path w :
  (exists e, openSync P path w = (Throw e, w)) \/
  (exists w', openSync P path w = (Return path, w') /\
              log w' = EOpenAppend path :: log w /\ now w' = now w).
Proof.
  unfold openSync. destruct (fs w !! path) as [[c|]|]; eauto 6.
  destruct (parent_exists P path w); eauto 6.
Qed.

Lemma spawn_cases command args cwd out w :
  (exists e, spawn P command args cwd out w = (Throw e, w)) \/
  (exists w', spawn P command args cwd out w = (Return (spawn_pid P (tick w)), w') /\
              log w' = ESpawn command args cwd out :: log w /\ now w' = now w).
Proof.
  unfold spawn. destruct (String.eqb command ""); [eauto|].
  right. eexists. split; [reflexivity|]. split; [reflexivity|]. simpl. lia.
Qed.

Lemma writeFile_cases path content w :
  (exists e, writeFile P path content w = (Throw e, w)) \/
  (exists w', writeFile P path content w = (Return tt, w') /\
              log w' = EWriteFile path content :: log w /\ now w' = now w /\
              fs w' !! path = Some (File content)).
Proof.
  unfold writeFile. destruct (fs w !! path) as [[c|]|]; eauto.
  - right. eexists. split; [reflexivity|]. split; [reflexivity|].
    split; [reflexivity|]. simpl. apply lookup_insert_eq.
  - destruct (parent_exists P path w); eauto.
    right. eexists. split; [reflexivity|]. split; [reflexivity|].
    split; [reflexivity|]. simpl. apply lookup_insert_eq.
Qed.

(** Any run of the launch: its calls are the first of [launch_events], in
    order; all five when it returns, fewer when it throws. *)
Lemma launch_run wa :
  exists r w1 k cp,
    launch P S wa = (r, w1) /\
    now w1 = now wa /\
    log w1 = skipn k (launch_events P S cp) ++ log wa /\
    match r with
    | Return c =>
        c = cp /\ k = 0%nat /\
        fs w1 !! pidFile S = Some (File (pid_text cp ++ lf))
    | Throw _ => (1 <= k)%nat
    | OutOfFuel => False
    end.
Proof.
  unfold launch. destruct (String.eqb _ _ || _).
  { exists (Throw (JsError "serverManagement.sourcePath is empty. Point it to your translation-server checkout.")),
      wa, 5%nat, None. repeat split. lia. }
  cbv zeta. unfold bind at 1. rewrite access_cases.
  destruct (fs wa !! _).
  2:{ eexists _, wa, 5%nat, None. split; [reflexivity|]. repeat split. lia. }
  unfold bind at 1.
  destruct (mkdir_cases (path_dirname P (pidFile S)) wa)
    as [[e ->]|(w2 & -> & Hl2 & Hn2)].
  { eexists _, wa, 5%nat, None. split; [reflexivity|]. repeat split. lia. }
  unfold bind at 1.
  destruct (mkdir_cases (path_dirname P (logFile S)) w2)
    as [[e ->]|(w3 & -> & Hl3 & Hn3)].
  { eexists _, w2, 4%nat, None. split; [reflexivity|].
    split; [exact Hn2|]. split; [exact Hl2|]. lia. }
  unfold bind at 1.
  destruct (openSync_cases (logFile S) w3) as [[e ->]|(w4 & -> & Hl4 & Hn4)].
  { eexists _, w3, 3%nat, None. split; [reflexivity|].
    split; [lia|]. split; [rewrite Hl3, Hl2; reflexivity|]. lia. }
  unfold bind at 1.
  destruct (spawn_cases (nodeCommand S) ["src/server.js"%string]
              (path_resolve P (sourcePath S)) (logFile S) w4)
    as [[e ->]|(w5 & -> & Hl5 & Hn5)].
  { eexists _, w4, 2%nat, None. split; [reflexivity|].
    split; [lia|]. split; [rewrite Hl4, Hl3, Hl2; reflexivity|]. lia. }
  unfold bind at 1.
  destruct (writeFile_cases (pidFile S) (pid_text (spawn_pid P (tick w4)) ++ lf) w5)
    as [[e ->]|(w6 & -> & Hl6 & Hn6 & Hf6)].
  { eexists _, w5, 1%nat, (spawn_pid P (tick w4)). split; [reflexivity|].
    split; [lia|]. split; [rewrite Hl5, Hl4, Hl3, Hl2; reflexivity|]. lia. }
  eexists _, w6, 0%nat, (spawn_pid P (tick w4)). split; [reflexivity|].
  split; [lia|]. split; [rewrite Hl6, Hl5, Hl4, Hl3, Hl2; reflexivity|].
  auto.
Qed.

(** Any run of [start]: a liveness check of the recorded pid at most, then
    the calls of the launch in order, then the calls of the poll loop, which
    is entered only after a whole launch. *)
Lemma start_run w :
  exists r w' pevs k cp pre,
    start P S url w = (r, w') /\
    log w' = pevs ++ skipn k (launch_events P S cp) ++ pre ++ log w /\
    Forall (poll_event (pidFile S) url (default (-1) cp) (pollIntervalMs S)) pevs /\
    (pre = [] \/ exists p, pre = [EKill p Sig0]) /\
    (k = 0%nat \/ pevs = []) /\
    timer_delay (pollIntervalMs S) * Z.of_nat (fetches pevs)
    <= Z.max 0 (startupTimeoutMs S + timer_delay (pollIntervalMs S) - 1).
Proof.
  pose proof (timer_delay_pos (pollIntervalMs S)) as Hd.
  assert (Hnil : forall (r : Outcome unit) pre,
            (pre = [] \/ exists p, pre = [EKill p Sig0]) ->
            forall w', log w' = pre ++ log w ->
            exists r0 w0 pevs k cp pre0,
              (r, w') = (r0, w0) /\
              log w0 = pevs ++ skipn k (launch_events P S cp) ++ pre0 ++ log w /\
              Forall (poll_event (pidFile S) url (default (-1) cp)
                        (pollIntervalMs S)) pevs /\
              (pre0 = [] \/ exists p, pre0 = [EKill p Sig0]) /\
              (k = 0%nat \/ pevs = []) /\
              timer_delay (pollIntervalMs S) * Z.of_nat (fetches pevs)
              <= Z.max 0 (startupTimeoutMs S + timer_delay (pollIntervalMs S) - 1)).
  { intros r pre Hpre w' Hlog. exists r, w', [], 5%nat, None, pre.
    split; [reflexivity|]. split; [exact Hlog|]. split; [constructor|].
    split; [exact Hpre|]. split; [now right|].
    change (fetches []) with 0%nat. lia. }
  assert (Hgo : forall wa pre,
            (pre = [] \/ exists p, pre = [EKill p Sig0]) ->
            log wa = pre ++ log w ->
            exists r w' pevs k cp pre0,
              (childPid <- launch P S ;;
               t <- Date_now ;;
               start_poll P S (Z.to_nat (startupTimeoutMs S)) url childPid
                 (t + startupTimeoutMs S)) wa = (r, w') /\
              log w' = pevs ++ skipn k (launch_events P S cp) ++ pre0 ++ log w /\
              Forall (poll_event (pidFile S) url (default (-1) cp)
                        (pollIntervalMs S)) pevs /\
              (pre0 = [] \/ exists p, pre0 = [EKill p Sig0]) /\
              (k = 0%nat \/ pevs = []) /\
              timer_delay (pollIntervalMs S) * Z.of_nat (fetches pevs)
              <= Z.max 0 (startupTimeoutMs S + timer_delay (pollIntervalMs S) - 1)).
  { intros wa pre Hpre Hlog.
    destruct (launch_run wa) as (r & w1 & k & cp & Hrun & Hn1 & Hl1 & Hr).
    unfold bind at 1. rewrite Hrun.
    destruct r as [c|e|]; [|exists (Throw e), w1, [], k, cp, pre|contradiction].
    2:{ split; [reflexivity|]. split; [rewrite Hl1, Hlog; reflexivity|].
        split; [constructor|]. split; [exact Hpre|]. split; [now right|].
        change (fetches []) with 0%nat. lia. }
    destruct Hr as (-> & -> & Hf1).
    unfold bind at 1, Date_now.
    destruct (start_poll_run cp (now w1 + startupTimeoutMs S)
                (Z.to_nat (startupTimeoutMs S)) w1 _ Hf1 ltac:(lia))
      as (r & w' & pevs & Hpoll & Hlp & Hev & Hfe & Hres).
    exists r, w', pevs, 0%nat, cp, pre.
    split; [exact Hpoll|].
    split; [rewrite Hlp, Hl1, Hlog; reflexivity|].
    split; [exact Hev|]. split; [exact Hpre|]. split; [now left|].
    replace (now w1 + startupTimeoutMs S - now w1) with (startupTimeoutMs S)
      in Hfe by lia.
    exact Hfe. }
  unfold start.
  destruct (url_hostname P url) as [host|] eqn:Hh.
  2:{ unfold bind at 1, parseHost. rewrite Hh.
      apply (Hnil _ []); [now left|reflexivity]. }
  rewrite (bind_return _ _ _ _ _ (parseHost_eq P _ _ w Hh)).
  destruct (negb _ && negb _).
  { apply (Hnil _ []); [now left|reflexivity]. }
  destruct (fs w !! pidFile S) as [[raw|]|] eqn:Hf.
  2:{ rewrite (bind_throw _ _ _ _ _ (readPidFile_directory _ _ Hf)).
      apply (Hnil _ []); [now left|reflexivity]. }
  all: assert (Hr : readable (fs w !! pidFile S))
         by (unfold readable; rewrite Hf; discriminate);
       rewrite (bind_return _ _ _ _ _ (readPidFile_eq _ _ Hr));
       rewrite truthy_recorded_pid, Hf.
  - destruct (recorded_pid (Some (File raw))) as [p|].
    + rewrite (bind_return _ _ _ _ _ (isProcessRunning_eq P _ _)).
      destruct (proc_alive P (tick w) p).
      * apply (Hnil _ [EKill p Sig0]); [right; eauto|reflexivity].
      * apply (Hgo _ [EKill p Sig0]); [right; eauto|reflexivity].
    + apply (Hgo _ []); [now left|reflexivity].
  - simpl recorded_pid. apply (Hgo _ []); [now left|reflexivity].
Qed.

End StartRuns.

Section StartProperties.
Variable P : Platform.
Variable S : ServerManagementConfig.
Variable url : string.

(** The calls of a launch, cut anywhere: no probe, no signal, one spawn at
    most, and the record written only in a whole launch. *)
Lemma launch_events_facts k cp :
  (spawns (skipn k (launch_events P S cp)) <= 1)%nat /\
  ((k <= 1)%nat -> spawns (skipn k (launch_events P S cp)) = 1%nat) /\
  fetches (skipn k (launch_events P S cp)) = 0%nat /\
  Forall signal_zero_only (skipn k (launch_events P S cp)) /\
  (forall path c, In (EWriteFile path c) (skipn k (launch_events P S cp)) ->
                  k = 0%nat /\ path = pidFile S) /\
  (forall u t, ~ In (EFetch u t) (skipn k (launch_events P S cp))).
Proof.
  unfold launch_events.
  destruct k as [|[|[|[|[|k]]]]]; cbn [skipn]; rewrite ?List.skipn_nil;
    (split; [cbv; lia|]); (split; [cbv; lia|]); (split; [reflexivity|]);
    (split; [repeat constructor|]); split; intros; cbn [In] in *;
    intuition (try discriminate); try congruence.
Qed.

Lemma poll_events_facts f p ms evs :
  Forall (poll_event f url p ms) evs ->
  spawns evs = 0%nat /\
  Forall signal_zero_only evs /\
  (forall path c, ~ In (EWriteFile path c) evs) /\
  (forall u t, In (EFetch u t) evs ->
               u = JS.replace_trailing_slashes url /\ t = 1500).
Proof.
  induction 1 as [|ev evs Hev _ (IH1 & IH2 & IH3 & IH4)].
  - split; [reflexivity|]. split; [exact (List.Forall_nil _)|].
    split; [intros path c []|intros u t []].
  - split; [|split; [|split]].
    + destruct ev; try contradiction; exact IH1.
    + constructor; [|exact IH2].
      destruct ev as [| q [] | | | | | |]; simpl in *; auto.
    + intros path c [->|Hin]; [contradiction|]. eapply IH3, Hin.
    + intros u t [->|Hin]; [exact Hev|]. eapply IH4, Hin.
Qed.

Lemma first_check_facts pre :
  pre = [] \/ (exists p, pre = [EKill p Sig0]) ->
  spawns pre = 0%nat /\ fetches pre = 0%nat /\ Forall signal_zero_only pre /\
  (forall ev, In ev pre -> exists p, ev = EKill p Sig0).
Proof.
  intros [->|[p ->]].
  - split; [reflexivity|]. split; [reflexivity|]. split; [exact (List.Forall_nil _)|].
    intros ev [].
  - split; [reflexivity|]. split; [reflexivity|].
    split; [repeat constructor|].
    intros ev [<-|[]]. eauto.
Qed.

(** X8. One call of [start] spawns one process at most, however it
    ends. *)
Theorem start_spawns_at_most_once (w : World) :
  (spawns (added w (snd (start P S url w))) <= 1)%nat.
Proof.
  destruct (start_run P S url w)
    as (r & w' & pevs & k & cp & pre & Hrun & Hlog & Hev & Hpre & _ & _).
  rewrite Hrun. simpl.
  rewrite !List.app_assoc in Hlog. rewrite (added_app _ _ _ Hlog).
  rewrite !spawns_app.
  destruct (poll_events_facts _ _ _ _ Hev) as (-> & _).
  destruct (first_check_facts _ Hpre) as (-> & _).
  pose proof (proj1 (launch_events_facts k cp)). lia.
Qed.

(** X9. [start] writes nothing but the record, and the record only after
    it has spawned the process: a run whose log gains a file write has
    written the record's path and has spawned exactly one process. *)
Theorem start_writes_record_after_spawn (w : World) (path content : string) :
  In (EWriteFile path content) (added w (snd (start P S url w))) ->
  path = pidFile S /\
  spawns (added w (snd (start P S url w))) = 1%nat.
Proof.
  destruct (start_run P S url w)
    as (r & w' & pevs & k & cp & pre & Hrun & Hlog & Hev & Hpre & _ & _).
  rewrite Hrun. simpl.
  rewrite !List.app_assoc in Hlog. rewrite (added_app _ _ _ Hlog).
  destruct (poll_events_facts _ _ _ _ Hev) as (Hsp & _ & Hnw & _).
  destruct (first_check_facts _ Hpre) as (Hsp0 & _ & _ & Hk).
  destruct (launch_events_facts k cp) as (_ & Hone & _ & _ & Hw & _).
  intros Hin. apply in_app_or in Hin as [Hin|Hin].
  - apply in_app_or in Hin as [Hin|Hin].
    + exfalso. eapply Hnw, Hin.
    + destruct (Hw _ _ Hin) as [-> ->]. split; [reflexivity|].
      rewrite !spawns_app, Hsp, Hsp0, Hone; lia.
  - destruct (Hk _ Hin) as [p Hp]. discriminate.
Qed.

(** X10. [start] never sends a signal that could end a process: the only
    signal it sends is the liveness probe, signal 0. *)
Theorem start_sends_only_signal_zero (w : World) :
  Forall signal_zero_only (added w (snd (start P S url w))).
Proof.
  destruct (start_run P S url w)
    as (r & w' & pevs & k & cp & pre & Hrun & Hlog & Hev & Hpre & _ & _).
  rewrite Hrun. simpl.
  rewrite !List.app_assoc in Hlog. rewrite (added_app _ _ _ Hlog).
  apply Forall_app; split; [apply Forall_app; split|].
  - eapply poll_events_facts, Hev.
  - apply launch_events_facts.
  - apply first_check_facts, Hpre.
Qed.

(** X11. The poll loop of [start] is a bounded retry: with a poll interval
    of [2 .. 2^31 - 1] ms and a startup timeout that is not negative, one
    call probes the endpoint at most [ceil(startupTimeoutMs /
    (pollIntervalMs - 1))] times (a turn of the loop lasts its sleep at
    least, and the bound holds even for sleeps that end a millisecond
    short of the interval), each time the same URL with a timeout of
    1500 ms. *)
Theorem start_probes_boundedly (w : World) :
  2 <= pollIntervalMs S <= 2147483647 ->
  0 <= startupTimeoutMs S ->
  Z.of_nat (fetches (added w (snd (start P S url w))))
  <= (startupTimeoutMs S + pollIntervalMs S - 2) / (pollIntervalMs S - 1) /\
  Forall (fun ev => match ev with
                    | EFetch u t =>
                        u = JS.replace_trailing_slashes url /\ t = 1500
                    | _ => True
                    end)
         (added w (snd (start P S url w))).
Proof.
  intros Hpoll HT.
  destruct (start_run P S url w)
    as (r & w' & pevs & k & cp & pre & Hrun & Hlog & Hev & Hpre & _ & Hfe).
  rewrite Hrun. simpl.
  rewrite !List.app_assoc in Hlog. rewrite (added_app _ _ _ Hlog).
  assert (Hpoll' : 1 <= pollIntervalMs S <= 2147483647) by lia.
  rewrite (timer_delay_in_range _ Hpoll') in Hfe.
  destruct (poll_events_facts _ _ _ _ Hev) as (_ & _ & _ & Hurl).
  destruct (first_check_facts _ Hpre) as (_ & Hf0 & _ & Hk).
  destruct (launch_events_facts k cp) as (_ & _ & Hfl & _ & _ & Hnf).
  split.
  - rewrite !fetches_app, Hfl, Hf0, !Nat.add_0_r.
    apply Z.div_le_lower_bound; [lia|].
    rewrite Z.max_r in Hfe by lia.
    pose proof (Nat2Z.is_nonneg (fetches pevs)) as H0.
    destruct (Z.eq_dec (Z.of_nat (fetches pevs)) 0) as [E|E]; [rewrite E; lia|].
    rewrite Z.mul_sub_distr_r. lia.
  - apply Forall_forall. intros ev Hin. apply list_elem_of_In in Hin.
    destruct ev as [u t| | | | | | |]; try exact I.
    apply in_app_or in Hin as [Hin|Hin].
    + apply in_app_or in Hin as [Hin|Hin]; [now apply Hurl|].
      exfalso. eapply Hnf, Hin.
    + destruct (Hk _ Hin) as [p Hp]. discriminate.
Qed.

End StartProperties.

Lemma start_writes_record_after_spawn_witness :
  In (EWriteFile (pidFile (config true)) ("4242" ++ lf))
     (added fresh (snd (start (immortal healthy) (config true) local_url fresh))) /\
  pidFile (config true) = pidFile (config true) /\
  spawns (added fresh (snd (start (immortal healthy) (config true) local_url fresh)))
  = 1%nat.
Proof.
  assert (H : In (EWriteFile (pidFile (config true)) ("4242" ++ lf))
                (added fresh
                   (snd (start (immortal healthy) (config true) local_url fresh)))).
  { vm_compute. right. left. reflexivity. }
  split; [exact H|].
  exact (start_writes_record_after_spawn (immortal healthy) (config true)
           local_url fresh _ _ H).
Defined.

Lemma start_probes_boundedly_witness :
  2 <= pollIntervalMs (config true) <= 2147483647 /\
  0 <= startupTimeoutMs (config true) /\
  Z.of_nat (fetches (added fresh
                       (snd (start (immortal silent) (config true) local_url fresh))))
  <= (startupTimeoutMs (config true) + pollIntervalMs (config true) - 2)
     / (pollIntervalMs (config true) - 1) /\
  Forall (fun ev => match ev with
                    | EFetch u t =>
                        u = JS.replace_trailing_slashes local_url /\ t = 1500
                    | _ => True
                    end)
         (added fresh (snd (start (immortal silent) (config true) local_url fresh))).
Proof.
  assert (H1 : 2 <= pollIntervalMs (config true) <= 2147483647)
    by (vm_compute; split; discriminate).
  assert (H2 : 0 <= startupTimeoutMs (config true)) by (vm_compute; discriminate).
  split; [exact H1|]. split; [exact H2|].
  exact (start_probes_boundedly (immortal silent) (config true) local_url fresh H1 H2).
Defined.

(** ** [start]: configuration errors, and what a successful call leaves *)

Section StartOutcomes.
Variable P : Platform.
Variable S : ServerManagementConfig.
Variable url : string.

(** X12. With no live recorded process and a source path that is empty or
    blank, [start] throws its source-path error before it touches
    anything: no file changes and nothing is spawned. *)
Theorem start_needs_source_path (host : string) (w : World) :
  url_hostname P url = Some host ->
  is_loopback host = true ->
  readable (fs w !! pidFile S) ->
  nothing_running P S w ->
  JS.trim (sourcePath S) = EmptyString ->
  start P S url w
  = (Throw (JsError "serverManagement.sourcePath is empty. Point it to your translation-server checkout."),
     first_checked S w) /\
  fs (first_checked S w) = fs w /\
  spawns (log (first_checked S w)) = spawns (log w).
Proof.
  intros Hh Hl Hr Hn Hblank.
  split; [|apply first_checked_frame].
  rewrite (start_past_checks _ _ _ _ _ Hh Hl Hr Hn).
  unfold bind at 1, launch. rewrite Hblank.
  change (String.eqb "" "") with true. rewrite orb_true_r. reflexivity.
Qed.

(** X13. With no live recorded process and a source path whose
    [src/server.js] does not exist, [start] throws the entry-not-found
    error, naming the path it looked for, before it touches anything. *)
Theorem start_needs_server_entry (host : string) (w : World) :
  url_hostname P url = Some host ->
  is_loopback host = true ->
  readable (fs w !! pidFile S) ->
  nothing_running P S w ->
  JS.trim (sourcePath S) <> EmptyString ->
  fs w !! server_entry P S = None ->
  start P S url w
  = (Throw (JsError ("Translation Server entry not found at " ++ server_entry P S)),
     first_checked S w) /\
  fs (first_checked S w) = fs w /\
  spawns (log (first_checked S w)) = spawns (log w).
Proof.
  intros Hh Hl Hr Hn Hsource Hentry.
  split; [|apply first_checked_frame].
  rewrite (start_past_checks _ _ _ _ _ Hh Hl Hr Hn).
  unfold bind at 1, launch.
  assert (Hcond : String.eqb (sourcePath S) "" || String.eqb (JS.trim (sourcePath S)) ""
                  = false).
  { apply orb_false_iff. split; apply String.eqb_neq; [|exact Hsource].
    intros E. apply Hsource. rewrite E. reflexivity. }
  rewrite Hcond. cbv zeta. unfold bind at 1. rewrite access_cases.
  fold (server_entry P S).
  assert (Hentry' : fs (first_checked S w) !! server_entry P S = None).
  { rewrite (proj1 (first_checked_frame S w)). exact Hentry. }
  rewrite Hentry'. reflexivity.
Qed.

(** X14. A [start] that returns after its launch has spawned exactly one
    process and leaves in the record the text of the pid its own spawn
    returned, [c] followed by a line feed and nothing else; the record
    reads back as [c] when [c] is a positive integer below [2^53]. *)
Theorem start_records_spawned_pid (c : Z) (w wl w1 : World) :
  launches P S url w (Some c) wl ->
  start P S url w = (Return tt, w1) ->
  spawns (log w1) = Datatypes.S (spawns (log w)) /\
  fs w1 !! pidFile S = Some (File (JS.toString c ++ lf)) /\
  (0 < c < 2 ^ 53 -> recorded_pid (fs w1 !! pidFile S) = Some c).
Proof.
  intros Hl Hrun.
  destruct (start_after_launch _ _ _ _ _ _ _ Hl Hrun) as (Hsp & _ & Hf).
  split; [exact Hsp|]. split; [exact Hf|].
  intros Hc. rewrite Hf. now apply written_record_reads_back.
Qed.

(** X15. [stop] after [start] signals the child [start] spawned and no
    other process: when [start] returned after a launch whose spawn
    returned the pid [c] (a positive integer below [2^53]), the record
    holds [c], and every call a following [stop] makes is a signal to [c],
    a sleep of 150 ms or the removal of the record. *)
Theorem stop_after_start_signals_the_child (c : Z) (w wl w1 : World) :
  launches P S url w (Some c) wl ->
  start P S url w = (Return tt, w1) ->
  0 < c < 2 ^ 53 ->
  recorded_pid (fs w1 !! pidFile S) = Some c /\
  Forall (stop_event (pidFile S) c) (added w1 (snd (stop P S w1))).
Proof.
  intros Hl Hrun Hc.
  destruct (start_after_launch _ _ _ _ _ _ _ Hl Hrun) as (_ & _ & Hf).
  assert (Hrec : recorded_pid (fs w1 !! pidFile S) = Some c).
  { rewrite Hf. now apply written_record_reads_back. }
  split; [exact Hrec|].
  destruct (stop_run P S w1) as (r & w2 & evs & Hstop & Hlog & _ & Hcase).
  rewrite Hstop. simpl. rewrite (added_app _ _ _ Hlog).
  rewrite Hrec in Hcase. apply Hcase.
Qed.

End StartOutcomes.

Lemma start_needs_source_path_witness :
  url_hostname (platform 0 silent) local_url = Some "localhost"%string /\
  is_loopback "localhost" = true /\
  readable (fs recorded !! pidFile Scenario.no_source) /\
  nothing_running (platform 0 silent) Scenario.no_source recorded /\
  JS.trim (sourcePath Scenario.no_source) = EmptyString /\
  start (platform 0 silent) Scenario.no_source local_url recorded
  = (Throw (JsError "serverManagement.sourcePath is empty. Point it to your translation-server checkout."),
     first_checked Scenario.no_source recorded) /\
  fs (first_checked Scenario.no_source recorded) = fs recorded /\
  spawns (log (first_checked Scenario.no_source recorded)) = spawns (log recorded).
Proof.
  assert (H1 : url_hostname (platform 0 silent) local_url = Some "localhost"%string)
    by reflexivity.
  assert (H2 : is_loopback "localhost" = true) by reflexivity.
  assert (H3 : readable (fs recorded !! pidFile Scenario.no_source))
    by (vm_compute; discriminate).
  assert (H4 : nothing_running (platform 0 silent) Scenario.no_source recorded)
    by (vm_compute; reflexivity).
  assert (H5 : JS.trim (sourcePath Scenario.no_source) = EmptyString)
    by (vm_compute; reflexivity).
  split; [exact H1|]. split; [exact H2|]. split; [exact H3|].
  split; [exact H4|]. split; [exact H5|].
  exact (start_needs_source_path (platform 0 silent) Scenario.no_source local_url
           "localhost" recorded H1 H2 H3 H4 H5).
Defined.

Lemma start_needs_server_entry_witness :
  url_hostname (platform 0 silent) local_url = Some "localhost"%string /\
  is_loopback "localhost" = true /\
  readable (fs Scenario.no_checkout !! pidFile (config true)) /\
  nothing_running (platform 0 silent) (config true) Scenario.no_checkout /\
  JS.trim (sourcePath (config true)) <> EmptyString /\
  fs Scenario.no_checkout !! server_entry (platform 0 silent) (config true) = None /\
  start (platform 0 silent) (config true) local_url Scenario.no_checkout
  = (Throw (JsError ("Translation Server entry not found at "
                     ++ server_entry (platform 0 silent) (config true))),
     first_checked (config true) Scenario.no_checkout) /\
  fs (first_checked (config true) Scenario.no_checkout) = fs Scenario.no_checkout /\
  spawns (log (first_checked (config true) Scenario.no_checkout))
  = spawns (log Scenario.no_checkout).
Proof.
  assert (H1 : url_hostname (platform 0 silent) local_url = Some "localhost"%string)
    by reflexivity.
  assert (H2 : is_loopback "localhost" = true) by reflexivity.
  assert (H3 : readable (fs Scenario.no_checkout !! pidFile (config true)))
    by (vm_compute; discriminate).
  assert (H4 : nothing_running (platform 0 silent) (config true) Scenario.no_checkout)
    by (vm_compute; reflexivity).
  assert (H5 : JS.trim (sourcePath (config true)) <> EmptyString)
    by (vm_compute; discriminate).
  assert (H6 : fs Scenario.no_checkout !! server_entry (platform 0 silent) (config true)
               = None) by (vm_compute; reflexivity).
  split; [exact H1|]. split; [exact H2|]. split; [exact H3|].
  split; [exact H4|]. split; [exact H5|]. split; [exact H6|].
  exact (start_needs_server_entry (platform 0 silent) (config true) local_url
           "localhost" Scenario.no_checkout H1 H2 H3 H4 H5 H6).
Defined.

Lemma start_records_spawned_pid_witness :
  launches (immortal healthy) (config true) local_url fresh (Some 4242)
    (launched (immortal healthy)) /\
  start (immortal healthy) (config true) local_url fresh
  = (Return tt, snd (start (immortal healthy) (config true) local_url fresh)) /\
  spawns (log (snd (start (immortal healthy) (config true) local_url fresh)))
  = Datatypes.S (spawns (log fresh)) /\
  fs (snd (start (immortal healthy) (config true) local_url fresh))
    !! pidFile (config true)
  = Some (File (JS.toString 4242 ++ lf)) /\
  (0 < 4242 < 2 ^ 53 ->
   recorded_pid
     (fs (snd (start (immortal healthy) (config true) local_url fresh))
      !! pidFile (config true)) = Some 4242).
Proof.
  assert (H1 : launches (immortal healthy) (config true) local_url fresh (Some 4242)
                 (launched (immortal healthy))).
  { exists "localhost"%string, None, fresh, fresh.
    split; [reflexivity|]. split; [reflexivity|]. split; [reflexivity|].
    split; [reflexivity|]. vm_compute. reflexivity. }
  assert (H2 : start (immortal healthy) (config true) local_url fresh
               = (Return tt, snd (start (immortal healthy) (config true) local_url fresh)))
    by (vm_compute; reflexivity).
  split; [exact H1|]. split; [exact H2|].
  exact (start_records_spawned_pid (immortal healthy) (config true) local_url
           4242 fresh _ _ H1 H2).
Defined.

Lemma stop_after_start_signals_the_child_witness :
  launches (immortal healthy) (config true) local_url fresh (Some 4242)
    (launched (immortal healthy)) /\
  start (immortal healthy) (config true) local_url fresh
  = (Return tt, snd (start (immortal healthy) (config true) local_url fresh)) /\
  0 < 4242 < 2 ^ 53 /\
  recorded_pid
    (fs (snd (start (immortal healthy) (config true) local_url fresh))
     !! pidFile (config true)) = Some 4242 /\
  Forall (stop_event (pidFile (config true)) 4242)
    (added (snd (start (immortal healthy) (config true) local_url fresh))
       (snd (stop (immortal healthy) (config true)
               (snd (start (immortal healthy) (config true) local_url fresh))))).
Proof.
  assert (H1 : launches (immortal healthy) (config true) local_url fresh (Some 4242)
                 (launched (immortal healthy))).
  { exists "localhost"%string, None, fresh, fresh.
    split; [reflexivity|]. split; [reflexivity|]. split; [reflexivity|].
    split; [reflexivity|]. vm_compute. reflexivity. }
  assert (H2 : start (immortal healthy) (config true) local_url fresh
               = (Return tt, snd (start (immortal healthy) (config true) local_url fresh)))
    by (vm_compute; reflexivity).
  assert (H3 : 0 < 4242 < 2 ^ 53) by (vm_compute; split; reflexivity).
  split; [exact H1|]. split; [exact H2|]. split; [exact H3|].
  exact (stop_after_start_signals_the_child (immortal healthy) (config true) local_url
           4242 fresh _ _ H1 H2 H3).
Defined.

(** ** [status] and the probe *)

Section ProbeProperties.
Variable P : Platform.

(** The calls of any run of [status]: the probe, and then at most one
    liveness check. *)
Lemma status_run (S : ServerManagementConfig) (url : string) (timeoutMs : Z)
    (w : World) :
  exists evs,
    log (snd (status P S url timeoutMs w)) = evs ++ log w /\
    (evs = [EFetch (JS.replace_trailing_slashes url) (Z.min 3000 timeoutMs)] \/
     exists p, evs = [EKill p Sig0;
                      EFetch (JS.replace_trailing_slashes url) (Z.min 3000 timeoutMs)]).
Proof.
  unfold status.
  rewrite (bind_return _ _ _ _ _ (pingTranslationServer_eq P url _ w)).
  set (w1 := after_probe P url (Z.min 3000 timeoutMs) w).
  destruct (fs w !! pidFile S) as [[raw|]|] eqn:Hnode.
  2:{ assert (Hd : fs w1 !! pidFile S = Some Dir) by exact Hnode.
      rewrite (bind_throw _ _ _ _ _ (readPidFile_directory _ _ Hd)).
      exists [EFetch (JS.replace_trailing_slashes url) (Z.min 3000 timeoutMs)].
      split; [reflexivity|]. now left. }
  all: assert (Hr : readable (fs w1 !! pidFile S))
         by (unfold readable, w1; simpl; rewrite Hnode; discriminate);
       rewrite (bind_return _ _ _ _ _ (readPidFile_eq _ _ Hr));
       rewrite truthy_recorded_pid.
  - destruct (recorded_pid (fs w1 !! pidFile S)) as [p|].
    + rewrite (bind_return _ _ _ _ _ (isProcessRunning_eq P _ _)).
      destruct (proc_alive P (tick w1) p);
        (exists [EKill p Sig0;
                 EFetch (JS.replace_trailing_slashes url) (Z.min 3000 timeoutMs)];
         split; [reflexivity|]; right; exists p; reflexivity).
    + exists [EFetch (JS.replace_trailing_slashes url) (Z.min 3000 timeoutMs)].
      split; [reflexivity|]. now left.
  - change (fs w1) with (fs w). rewrite Hnode.
    exists [EFetch (JS.replace_trailing_slashes url) (Z.min 3000 timeoutMs)].
    split; [reflexivity|]. now left.
Qed.

(** X16. [status] is harmless, whatever timeout the caller passes and
    whether it returns or fails on the record: it makes exactly one probe,
    with the timeout [min(3000, timeoutMs)] and the normalised URL, its
    only other calls are liveness checks with signal 0, and no file
    changes. *)
Theorem status_is_harmless (S : ServerManagementConfig) (url : string)
    (timeoutMs : Z) (w : World) :
  Forall (status_event url timeoutMs) (added w (snd (status P S url timeoutMs w))) /\
  fetches (added w (snd (status P S url timeoutMs w))) = 1%nat /\
  fs (snd (status P S url timeoutMs w)) = fs w.
Proof.
  destruct (status_run S url timeoutMs w) as (evs & Hlog & Hevs).
  rewrite (added_app _ _ _ Hlog).
  split; [|split; [|apply status_reads_only]].
  - destruct Hevs as [->|[p ->]]; repeat constructor.
  - destruct Hevs as [->|[p ->]]; reflexivity.
Qed.

Lemma drop_trailing_slashes_only n : JS.drop_trailing_slashes (slashes n) = EmptyString.
Proof. induction n as [|n IH]; simpl; [reflexivity|]. now rewrite IH. Qed.

Lemma drop_trailing_slashes_app s n :
  JS.drop_trailing_slashes (s ++ slashes n) = JS.drop_trailing_slashes s.
Proof.
  induction s as [|c s IH].
  - apply drop_trailing_slashes_only.
  - rewrite append_cons. simpl. now rewrite IH.
Qed.

Lemma drop_trailing_slashes_length s :
  (String.length (JS.drop_trailing_slashes s) <= String.length s)%nat.
Proof.
  induction s as [|c s IH]; simpl; [lia|].
  destruct (Ascii.eqb c "/" && String.eqb (JS.drop_trailing_slashes s) "");
    simpl; lia.
Qed.

Lemma string_length_app (a b : string) :
  String.length (a ++ b) = (String.length a + String.length b)%nat.
Proof.
  induction a as [|c a IH]; [reflexivity|].
  rewrite append_cons. simpl. now rewrite IH.
Qed.

(** A URL that ends in slashes is requested with exactly one. *)
Lemma replace_trailing_slashes_app s n :
  JS.replace_trailing_slashes (s ++ slashes (Datatypes.S n))
  = (JS.drop_trailing_slashes s ++ "/")%string.
Proof.
  unfold JS.replace_trailing_slashes. rewrite drop_trailing_slashes_app.
  destruct (String.eqb_spec (JS.drop_trailing_slashes s) (s ++ slashes (Datatypes.S n)))
    as [E|_]; [|reflexivity].
  exfalso. pose proof (drop_trailing_slashes_length s) as Hlen.
  rewrite E, string_length_app in Hlen. simpl in Hlen. lia.
Qed.

(** X17. The number of trailing slashes of the server URL does not
    matter: with one or more of them the probe requests the same URL (the
    one that ends in a single slash), and so gives the same answer and
    leaves the same world. *)
Theorem ping_ignores_extra_trailing_slashes (s : string) (n : nat)
    (timeoutMs : Z) (w : World) :
  JS.replace_trailing_slashes (s ++ slashes (Datatypes.S n))
  = JS.replace_trailing_slashes (s ++ "/") /\
  pingTranslationServer P (s ++ slashes (Datatypes.S n)) timeoutMs w
  = pingTranslationServer P (s ++ "/") timeoutMs w.
Proof.
  assert (H : JS.replace_trailing_slashes (s ++ slashes (Datatypes.S n))
              = JS.replace_trailing_slashes (s ++ "/")).
  { rewrite replace_trailing_slashes_app.
    change "/"%string with (slashes 1). now rewrite replace_trailing_slashes_app. }
  split; [exact H|].
  rewrite !pingTranslationServer_eq.
  unfold probe_ok, after_probe, probe_time. now rewrite H.
Qed.

End ProbeProperties.

(** ** The record: writing, reading, removing *)

Section RecordProperties.
Variable P : Platform.

Lemma trim_start_white a s :
  all_white_space a = true -> JS.trim_start (a ++ s) = JS.trim_start s.
Proof.
  induction a as [|c a IH]; intros H; [reflexivity|].
  rewrite append_cons. simpl in *. apply andb_true_iff in H as [-> Ha]. auto.
Qed.

Lemma trim_end_white b :
  all_white_space b = true -> JS.trim_end b = EmptyString.
Proof.
  induction b as [|c b IH]; intros H; [reflexivity|].
  simpl in *. apply andb_true_iff in H as [-> Hb]. now rewrite (IH Hb).
Qed.

Lemma trim_end_app_white s b :
  all_white_space b = true -> JS.trim_end (s ++ b) = JS.trim_end s.
Proof.
  intros Hb. induction s as [|c s IH].
  - now apply trim_end_white.
  - rewrite append_cons. simpl. now rewrite IH.
Qed.

Lemma trim_start_cases s :
  JS.trim_start s = EmptyString \/
  exists a c r, s = (a ++ String c r)%string /\ all_white_space a = true /\
                JS.is_white_space c = false /\ JS.trim_start s = String c r.
Proof.
  induction s as [|c s IH]; [now left|].
  simpl. destruct (JS.is_white_space c) eqn:Hc.
  - destruct IH as [IH|(a & c' & r & -> & Ha & Hc' & Ht)]; [now left|].
    right. exists (String c a), c', r. repeat split; auto.
    simpl. now rewrite Hc, Ha.
  - right. exists EmptyString, c, s. auto.
Qed.

(** White space around a text does not change what [trim] makes of it. *)
Lemma trim_white_around a s b :
  all_white_space a = true -> all_white_space b = true ->
  JS.trim (a ++ s ++ b) = JS.trim s.
Proof.
  intros Ha Hb. unfold JS.trim. rewrite (trim_start_white _ _ Ha).
  destruct (trim_start_cases s) as [Hs|(a' & c & r & -> & Ha' & Hc & Ht)].
  - rewrite Hs.
    assert (Hall : all_white_space s = true).
    { clear -Hs. induction s as [|c s IH]; [reflexivity|].
      simpl in *. destruct (JS.is_white_space c); [auto|discriminate]. }
    assert (Hsb : all_white_space (s ++ b) = true).
    { clear -Hall Hb. induction s as [|c s IH]; [exact Hb|].
      rewrite append_cons. simpl in *.
      apply andb_true_iff in Hall as [-> Hs]. auto. }
    assert (Hnone : forall x, all_white_space x = true ->
                              JS.trim_start x = EmptyString).
    { clear. induction x as [|c x IH]; intros H; [reflexivity|].
      simpl in *. apply andb_true_iff in H as [-> Hx]. auto. }
    now rewrite (Hnone _ Hsb).
  - rewrite Ht, string_app_assoc, (trim_start_white _ _ Ha').
    rewrite append_cons.
    change (JS.trim_start (String c (r ++ b)))
      with (if JS.is_white_space c then JS.trim_start (r ++ b)
            else String c (r ++ b)).
    rewrite Hc, <- append_cons.
    now apply trim_end_app_white.
Qed.

(** X18. White space around the recorded pid does not matter:
    [readPidFile] gives the same result for a record and for the same
    record with white space (spaces, tabs, line breaks) before and after
    its content. *)
Theorem readPidFile_ignores_surrounding_white_space
    (f a raw b : string) (w w2 : World) :
  all_white_space a = true ->
  all_white_space b = true ->
  fs w !! f = Some (File (a ++ raw ++ b)) ->
  fs w2 !! f = Some (File raw) ->
  fst (readPidFile f w) = fst (readPidFile f w2).
Proof.
  intros Ha Hb Hw Hw2.
  rewrite !readPidFile_eq by (unfold readable; rewrite ?Hw, ?Hw2; discriminate).
  simpl. rewrite Hw, Hw2. unfold recorded_pid.
  now rewrite (trim_white_around _ _ _ Ha Hb).
Qed.

(** X19. Writing and reading the record is a round trip: after
    [writeFile] has written the text of a pid (a positive integer below
    [2^53]) and a line feed, as [start] does, [readPidFile] returns that
    pid. *)
Theorem record_round_trip (f : string) (p : Z) (w w' : World) :
  0 < p < 2 ^ 53 ->
  writeFile P f (pid_text (Some p) ++ lf) w = (Return tt, w') ->
  readPidFile f w' = (Return (Some p), w').
Proof.
  intros Hp Hwrite.
  apply writeFile_returns in Hwrite as (Hf & _).
  rewrite readPidFile_eq by (unfold readable; rewrite Hf; discriminate).
  now rewrite Hf, written_record_reads_back.
Qed.

(** X20. [removePidFileIfExists] removes the record and nothing else, and
    removing twice is removing once: when it returns, the files are the
    old ones without the record, and a second call returns and changes
    nothing. *)
Theorem removePidFileIfExists_removes_once (f : string) (w w' : World) :
  removePidFileIfExists f w = (Return tt, w') ->
  fs w' = delete f (fs w) /\
  removePidFileIfExists f w' = (Return tt, w').
Proof.
  intros Hrun. destruct (fs w !! f) as [[raw|]|] eqn:Hf.
  - rewrite (removePidFileIfExists_file _ _ _ Hf) in Hrun.
    injection Hrun as <-. split; [reflexivity|].
    apply removePidFileIfExists_absent. simpl. apply lookup_delete_eq.
  - unfold removePidFileIfExists, try_catch, unlink in Hrun. rewrite Hf in Hrun.
    discriminate.
  - rewrite (removePidFileIfExists_absent _ _ Hf) in Hrun.
    injection Hrun as <-. split; [|now apply removePidFileIfExists_absent].
    symmetry. now apply delete_id.
Qed.

End RecordProperties.

Lemma readPidFile_ignores_surrounding_white_space_witness :
  all_white_space "  " = true /\
  all_white_space lf = true /\
  fs (world (record ("  " ++ "4242" ++ lf))) !! pidFile (config true)
  = Some (File ("  " ++ "4242" ++ lf)) /\
  fs (world (record "4242")) !! pidFile (config true) = Some (File "4242") /\
  fst (readPidFile (pidFile (config true)) (world (record ("  " ++ "4242" ++ lf))))
  = fst (readPidFile (pidFile (config true)) (world (record "4242"))).
Proof.
  assert (H1 : all_white_space "  " = true) by reflexivity.
  assert (H2 : all_white_space lf = true) by reflexivity.
  assert (H3 : fs (world (record ("  " ++ "4242" ++ lf))) !! pidFile (config true)
               = Some (File ("  " ++ "4242" ++ lf))) by (vm_compute; reflexivity).
  assert (H4 : fs (world (record "4242")) !! pidFile (config true)
               = Some (File "4242")) by (vm_compute; reflexivity).
  split; [exact H1|]. split; [exact H2|]. split; [exact H3|]. split; [exact H4|].
  exact (readPidFile_ignores_surrounding_white_space _ _ _ _ _ _ H1 H2 H3 H4).
Defined.

Lemma record_round_trip_witness :
  0 < 4242 < 2 ^ 53 /\
  writeFile (platform 0 silent) (pidFile (config true)) (pid_text (Some 4242) ++ lf)
    recorded
  = (Return tt,
     snd (writeFile (platform 0 silent) (pidFile (config true))
            (pid_text (Some 4242) ++ lf) recorded)) /\
  readPidFile (pidFile (config true))
    (snd (writeFile (platform 0 silent) (pidFile (config true))
            (pid_text (Some 4242) ++ lf) recorded))
  = (Return (Some 4242),
     snd (writeFile (platform 0 silent) (pidFile (config true))
            (pid_text (Some 4242) ++ lf) recorded)).
Proof.
  assert (H1 : 0 < 4242 < 2 ^ 53) by (vm_compute; split; reflexivity).
  assert (H2 : writeFile (platform 0 silent) (pidFile (config true))
                 (pid_text (Some 4242) ++ lf) recorded
               = (Return tt,
                  snd (writeFile (platform 0 silent) (pidFile (config true))
                         (pid_text (Some 4242) ++ lf) recorded)))
    by (vm_compute; reflexivity).
  split; [exact H1|]. split; [exact H2|].
  exact (record_round_trip (platform 0 silent) _ 4242 recorded _ H1 H2).
Defined.

Lemma removePidFileIfExists_removes_once_witness :
  removePidFileIfExists (pidFile (config true)) recorded
  = (Return tt, snd (removePidFileIfExists (pidFile (config true)) recorded)) /\
  fs (snd (removePidFileIfExists (pidFile (config true)) recorded))
  = delete (pidFile (config true)) (fs recorded) /\
  removePidFileIfExists (pidFile (config true))
    (snd (removePidFileIfExists (pidFile (config true)) recorded))
  = (Return tt, snd (removePidFileIfExists (pidFile (config true)) recorded)).
Proof.
  assert (H : removePidFileIfExists (pidFile (config true)) recorded
              = (Return tt, snd (removePidFileIfExists (pidFile (config true)) recorded)))
    by (vm_compute; reflexivity).
  split; [exact H|].
  exact (removePidFileIfExists_removes_once _ recorded _ H).
Defined.

(** ** The caller: [ensureServerIfNeeded] *)

Section CallerProperties.
Variable P : Platform.

(** X21. With management disabled, [ensureServerIfNeeded] never starts
    anything, whatever the flags: it changes no file and spawns nothing.
    It throws the management-disabled error exactly when the server was
    asked for ([--ensure-server] or [autoStart]) and the probe fails, and
    returns otherwise; with neither flag it does not even probe. *)
Theorem ensureServerIfNeeded_when_disabled (ensureRequested : bool)
    (config : BiblibCliConfig) (url : string) (w : World) :
  enabled (serverManagement config) = false ->
  fs (snd (ensureServerIfNeeded P ensureRequested config url w)) = fs w /\
  spawns (log (snd (ensureServerIfNeeded P ensureRequested config url w)))
  = spawns (log w) /\
  fst (ensureServerIfNeeded P ensureRequested config url w)
  = (if (ensureRequested || autoStart (serverManagement config))
        && negb (probe_ok P url (Z.min 3000 (requestTimeoutMs config)) (tick w))
     then Throw (JsError "Translation Server is unreachable and serverManagement.enabled is false.")
     else Return tt) /\
  (ensureRequested || autoStart (serverManagement config) = false ->
   snd (ensureServerIfNeeded P ensureRequested config url w) = w).
Proof.
  intros Hoff. unfold ensureServerIfNeeded. cbv zeta.
  destruct (ensureRequested || autoStart (serverManagement config)).
  - cbn [negb andb]. unfold ensureRunning.
    rewrite (bind_return _ _ _ _ _ (pingTranslationServer_eq P url _ w)).
    destruct (probe_ok P url (Z.min 3000 (requestTimeoutMs config)) (tick w)).
    + repeat split. discriminate.
    + rewrite Hoff. repeat split. discriminate.
  - repeat split.
Qed.

End CallerProperties.

Lemma ensureServerIfNeeded_when_disabled_witness :
  enabled (serverManagement (Scenario.cli_config (config false))) = false /\
  fs (snd (ensureServerIfNeeded (platform 0 silent) true
             (Scenario.cli_config (config false)) local_url fresh)) = fs fresh /\
  spawns (log (snd (ensureServerIfNeeded (platform 0 silent) true
                      (Scenario.cli_config (config false)) local_url fresh)))
  = spawns (log fresh) /\
  fst (ensureServerIfNeeded (platform 0 silent) true
         (Scenario.cli_config (config false)) local_url fresh)
  = Throw (JsError "Translation Server is unreachable and serverManagement.enabled is false.").
Proof.
  assert (H : enabled (serverManagement (Scenario.cli_config (config false))) = false)
    by reflexivity.
  split; [exact H|].
  pose proof (ensureServerIfNeeded_when_disabled (platform 0 silent) true
                (Scenario.cli_config (config false)) local_url fresh H)
    as (H1 & H2 & H3 & _).
  split; [exact H1|]. split; [exact H2|exact H3].
Defined.
